(** * RagSystemEndpoint: a shallow embedding of [app/main.py]

    The service is orchestration code around external collaborators (blob
    store, document loaders, text splitter, vector store, generative model).
    The first-party logic is embedded here as Rocq functions:

    - the start-up configuration check (lines 25-30),
    - [get_file_loader] and the [SUPPORTED_FORMATS] table (lines 56-71),
    - [initialize_vectorstore] (lines 79-98),
    - [process_file] (lines 100-118),
    - [generate_rag_prompt] (lines 121-133),
    - the handlers [upload_files] (lines 140-176) and [ask_question]
      (lines 178-194).

    Python [str] values are modelled as [string]; the library functions
    [os.path.splitext], [str.lower], [str.replace], [str.join] and [int]
    are written out after their CPython definitions, on ASCII text.
    Exceptions are values of [exn]; a computation is a function from the
    world (temporary files, call trace, state of the collaborators) to a
    result and a new world. *)

From Stdlib Require Import ZArith String Ascii List Bool Lia.
From stdpp Require Import base tactics option list gmap strings pretty.

Import ListNotations.
Local Open Scope string_scope.
Local Open Scope Z_scope.

(** ** Python string primitives *)

Module PyStr.

Definition nl : string := String "010"%char EmptyString.
Definition squote : string := String "039"%char EmptyString.
Definition dquote : string := String "034"%char EmptyString.

(** [len(s)] as a Python int. *)
Definition len (s : string) : Z := Z.of_nat (String.length s).

(** [s[i:j]] for [0 <= i]; indices beyond the end are clipped as Python
    does for slices. *)
Definition slice (s : string) (i j : Z) : string :=
  if j <=? i then EmptyString
  else String.substring (Z.to_nat i) (Z.to_nat (Z.min j (len s) - Z.min i (len s))) s.

(** [s[i:]] and [s[:i]]. *)
Fixpoint drop (n : nat) (s : string) : string :=
  match n, s with
  | O, _ => s
  | S _, EmptyString => EmptyString
  | S n', String _ s' => drop n' s'
  end.

Fixpoint take (n : nat) (s : string) : string :=
  match n, s with
  | O, _ => EmptyString
  | S _, EmptyString => EmptyString
  | S n', String c s' => String c (take n' s')
  end.

(** [s.rfind(c)] for a one-character needle: the highest index at which
    [c] occurs, [-1] when it does not occur. *)
Fixpoint rfind_from (c : ascii) (s : string) (i acc : Z) : Z :=
  match s with
  | EmptyString => acc
  | String a s' => rfind_from c s' (i + 1) (if Ascii.eqb a c then i else acc)
  end.

Definition rfind (c : ascii) (s : string) : Z := rfind_from c s 0 (-1).

(** [str.lower] on ASCII: the letters A-Z are mapped to a-z, every other
    character is kept. *)
Definition lower_ascii (c : ascii) : ascii :=
  let n := nat_of_ascii c in
  if ((65 <=? n)%nat && (n <=? 90)%nat)%bool then ascii_of_nat (n + 32) else c.

Fixpoint lower (s : string) : string :=
  match s with
  | EmptyString => EmptyString
  | String c s' => String (lower_ascii c) (lower s')
  end.

(** [s.startswith(p)]. *)
Fixpoint startswith (p s : string) : bool :=
  match p, s with
  | EmptyString, _ => true
  | String _ _, EmptyString => false
  | String a p', String b s' => Ascii.eqb a b && startswith p' s'
  end.

(** [s.replace(old, new)] for a non-empty [old]: a left-to-right scan
    replacing non-overlapping occurrences.  [skip] counts the characters
    of an occurrence still to be passed over. *)
Fixpoint replace_scan (old new : string) (skip : nat) (s : string) : string :=
  match s with
  | EmptyString => EmptyString
  | String c s' =>
      match skip with
      | S k => replace_scan old new k s'
      | O =>
          if startswith old s
          then new +:+ replace_scan old new (String.length old - 1) s'
          else String c (replace_scan old new O s')
      end
  end.

(** For the empty [old], Python inserts [new] before every character and
    at the end. *)
Fixpoint intersperse_all (new s : string) : string :=
  match s with
  | EmptyString => new
  | String c s' => new +:+ String c (intersperse_all new s')
  end.

Definition replace (s old new : string) : string :=
  match old with
  | EmptyString => intersperse_all new s
  | String _ _ => replace_scan old new O s
  end.

(** [sep.join(parts)]. *)
Fixpoint join (sep : string) (parts : list string) : string :=
  match parts with
  | [] => EmptyString
  | [x] => x
  | x :: rest => x +:+ sep +:+ join sep rest
  end.

(** [c in s] for a character. *)
Fixpoint contains (c : ascii) (s : string) : bool :=
  match s with
  | EmptyString => false
  | String a s' => Ascii.eqb a c || contains c s'
  end.

End PyStr.

(** ** [os.path.splitext] (posixpath, after CPython's [genericpath._splitext]) *)

Module OsPath.
Import PyStr.

(** The [while] loop that skips leading dots of the last path component:
    [true] when a character different from the extension separator is
    found in [p[filenameIndex:dotIndex]]; [n] is [dotIndex - filenameIndex]. *)
Fixpoint has_non_dot (p : string) (filenameIndex : Z) (n : nat) : bool :=
  match n with
  | O => false
  | S n' =>
      if negb (String.eqb (slice p filenameIndex (filenameIndex + 1)) ".")
      then true
      else has_non_dot p (filenameIndex + 1) n'
  end.

Definition splitext (p : string) : string * string :=
  let sepIndex := rfind "/"%char p in
  let dotIndex := rfind "."%char p in
  if (sepIndex <? dotIndex)
     && has_non_dot p (sepIndex + 1) (Z.to_nat (dotIndex - (sepIndex + 1)))
  then (take (Z.to_nat dotIndex) p, drop (Z.to_nat dotIndex) p)
  else (p, EmptyString).

End OsPath.

(** ** [int(s)] on a string (base 10) *)

(** CPython's conversion of an ASCII text ([PyLong_FromUnicodeObject],
    [PyLong_FromString]): C white space is skipped, then an optional sign,
    then the longest run of digits and underscores is scanned; the run
    must be well formed, it must not have more digits than
    [sys.get_int_max_str_digits()], and nothing but white space may follow
    it. *)
Module PyInt.
Import PyStr.

(** White space of C [isspace]: tab, line feed, vertical tab, form feed,
    carriage return and space. *)
Definition is_space (c : ascii) : bool :=
  let n := nat_of_ascii c in
  (((9 <=? n)%nat && (n <=? 13)%nat) || (n =? 32)%nat)%bool.

Fixpoint lstrip (s : string) : string :=
  match s with
  | EmptyString => EmptyString
  | String c s' => if is_space c then lstrip s' else s
  end.

Definition digit_value (c : ascii) : option Z :=
  let n := nat_of_ascii c in
  if ((48 <=? n)%nat && (n <=? 57)%nat)%bool then Some (Z.of_nat (n - 48)) else None.

(** Digits with single underscores allowed between two digits;
    [prev_digit] tells whether the previous character was a digit. *)
Fixpoint digits (s : string) (acc : Z) (prev_digit : bool) : option Z :=
  match s with
  | EmptyString => if prev_digit then Some acc else None
  | String c s' =>
      match digit_value c with
      | Some d => digits s' (10 * acc + d) true
      | None =>
          if (Ascii.eqb c "_"%char && prev_digit)%bool
          then digits s' acc false
          else None
      end
  end.

(** The longest prefix made of digits and underscores, and what follows. *)
Fixpoint scan_run (s : string) : string * string :=
  match s with
  | EmptyString => (EmptyString, EmptyString)
  | String c s' =>
      if (match digit_value c with Some _ => true | None => false end
          || Ascii.eqb c "_"%char)%bool
      then let '(run, rest) := scan_run s' in (String c run, rest)
      else (EmptyString, s)
  end.

(** The number of digits of a run. *)
Fixpoint digit_count (s : string) : nat :=
  match s with
  | EmptyString => O
  | String c s' =>
      match digit_value c with
      | Some _ => S (digit_count s')
      | None => digit_count s'
      end
  end.

(** The default of [sys.get_int_max_str_digits()]. *)
Definition max_str_digits : nat := 4300.

Inductive parsed : Type :=
| Value (n : Z)
| TooManyDigits (count : nat)
| Invalid.

(** The optional sign: whether it is a minus, and what follows it. *)
Definition split_sign (t : string) : bool * string :=
  match t with
  | EmptyString => (false, t)
  | String c r =>
      if Ascii.eqb c "-" then (true, r)
      else if Ascii.eqb c "+" then (false, r)
      else (false, t)
  end.

Definition parse (s : string) : parsed :=
  let '(negative, t) := split_sign (lstrip s) in
  let '(run, rest) := scan_run t in
  match digits run 0 false with
  | None => Invalid
  | Some v =>
      if (max_str_digits <? digit_count run)%nat then TooManyDigits (digit_count run)
      else match lstrip rest with
           | EmptyString => Value (if negative : bool then - v else v)
           | String _ _ => Invalid
           end
  end.

(** [int(s)]: [None] stands for the [ValueError] that Python raises. *)
Definition int (s : string) : option Z :=
  match parse s with
  | Value n => Some n
  | _ => None
  end.

Definition hex_digit (n : nat) : ascii :=
  match n with
  | 0%nat => "0" | 1%nat => "1" | 2%nat => "2" | 3%nat => "3" | 4%nat => "4"
  | 5%nat => "5" | 6%nat => "6" | 7%nat => "7" | 8%nat => "8" | 9%nat => "9"
  | 10%nat => "a" | 11%nat => "b" | 12%nat => "c" | 13%nat => "d" | 14%nat => "e"
  | _ => "f"
  end%char.

(** [repr(s)] of an ASCII text: single quotes, unless the text has a
    single quote and no double quote; backslash and the chosen quote are
    escaped, tab, line feed and carriage return are written with their
    letters and the other control characters in hexadecimal. *)
Definition repr_char (quote c : ascii) : string :=
  let n := nat_of_ascii c in
  if (Ascii.eqb c quote || Ascii.eqb c "092")%bool
  then String "092" (String c EmptyString)
  else if (n =? 9)%nat then String "092" "t"
  else if (n =? 10)%nat then String "092" "n"
  else if (n =? 13)%nat then String "092" "r"
  else if ((n <? 32)%nat || (n =? 127)%nat)%bool
  then String "092" (String "x" (String (hex_digit (n / 16))
                                   (String (hex_digit (n mod 16)) EmptyString)))
  else String c EmptyString.

Fixpoint repr_body (quote : ascii) (s : string) : string :=
  match s with
  | EmptyString => String quote EmptyString
  | String c s' => repr_char quote c +:+ repr_body quote s'
  end.

Definition repr (s : string) : string :=
  let quote :=
    if (contains "039" s && negb (contains "034" s))%bool then "034"%char else "039"%char in
  String quote (repr_body quote s).

(** The text of the [ValueError]: the literal is printed with [%.200R]. *)
Definition error_message (s : string) : string :=
  match parse s with
  | TooManyDigits count =>
      "Exceeds the limit (4300 digits) for integer string conversion: value has "
      +:+ pretty count +:+ " digits; use sys.set_int_max_str_digits() to increase the limit"
  | _ => "invalid literal for int() with base 10: " +:+ take 200 (repr s)
  end.

(** The texts in the scope of this model: ASCII characters only. *)
Definition is_ascii (s : string) : bool :=
  forallb (fun c => (nat_of_ascii c <? 128)%nat) (list_ascii_of_string s).

End PyInt.

(** ** Exceptions, results and the world *)

Inductive exn : Type :=
| ValueError (msg : string)
| OSError (msg : string)
| ExternalError (msg : string)
| HTTPException (status_code : Z) (detail : string).

Inductive result (A : Type) : Type :=
| Ok (a : A)
| Raise (e : exn).
Arguments Ok {A} a.
Arguments Raise {A} e.

Definition is_ok {A} (r : result A) : bool :=
  match r with Ok _ => true | Raise _ => false end.

(** The loaders of [SUPPORTED_FORMATS]. *)
Inductive LoaderClass : Type :=
| PyPDFLoader
| Docx2txtLoader
| UnstructuredPowerPointLoader
| UnstructuredCSVLoader
| JSONLoader
| TextLoader.

Record UploadFile := { filename : string; body : string }.

Record Document := { page_content : string; metadata : list (string * string) }.

Record HuggingFaceEmbeddings := { model_name : string; device : string }.

Record PGVector := {
  connection_string : string;
  embedding_function : HuggingFaceEmbeddings;
  collection_name : string
}.

Record DbParams := {
  driver : string; host : string; port : Z;
  database : string; user : string; password : string
}.

Record ProcessedFile := {
  pf_filename : string;
  chunks_created : Z;
  gcs_url : string
}.

Record UploadResponse := {
  status : string;
  processed_files : list ProcessedFile;
  total_chunks : Z
}.

Record AskResponse := { question : string; answer : string }.

(** The values read from the environment when the module is loaded. *)
Record Config := {
  GEMINI_API_KEY : string;
  BUCKET_NAME : string;
  DB_CONNECTION : string
}.

(** Calls that leave the process, as they appear in the trace. *)
Inductive call : Type :=
| CallEmbeddings (e : HuggingFaceEmbeddings)
| CallPGVector (v : PGVector)
| CallRead (name : string)
| CallTempFile (suffix : string)
| CallWrite (path : string)
| CallBlobUpload (bucket path dest : string)
| CallLoad (cls : LoaderClass) (path : string)
| CallSplit (chunk_size chunk_overlap : Z)
| CallAddDocuments (v : PGVector) (n : nat)
| CallUnlink (path : string)
| CallSimilaritySearch (v : PGVector) (query : string) (k : Z)
| CallGenerate (model prompt : string).

(** A trace entry: the call and whether it returned ([true]) or raised. *)
Definition event : Type := call * bool.

(** The external collaborators.  Each operation reads and updates the
    collaborators' own state [E] and returns or raises. *)
Record Collaborators (E : Type) := {
  (** [str(e)] of Starlette's [HTTPException]. *)
  http_exception_str : Z -> string -> string;
  (** [HuggingFaceEmbeddings(...)] and [PGVector(...)]: the constructors. *)
  embeddings_init : HuggingFaceEmbeddings -> E -> result unit * E;
  pgvector_init : PGVector -> E -> result unit * E;
  (** [await file.read()]. *)
  file_read : UploadFile -> E -> result string * E;
  (** [tempfile.NamedTemporaryFile]: directory, prefix and random part of
      the name of the file it creates. *)
  temp_base : E -> result string * E;
  (** [tmp_file.write(content)]. *)
  temp_write : string -> string -> E -> result unit * E;
  (** [uuid.uuid4()], formatted. *)
  uuid4 : E -> string * E;
  (** [bucket.blob(dest).upload_from_filename(path)], then [public_url]. *)
  blob_upload : string -> string -> string -> E -> result string * E;
  (** [LoaderClass(file_path).load()]. *)
  loader_load : LoaderClass -> string -> E -> result (list Document) * E;
  (** [SpacyTextSplitter(pipeline, chunk_size, chunk_overlap).split_documents]. *)
  split_documents : string -> Z -> Z -> list Document -> E -> result (list Document) * E;
  (** [vectorstore.add_documents(docs)]. *)
  add_documents : PGVector -> list Document -> E -> result unit * E;
  (** [vectorstore.similarity_search(question, k)]. *)
  similarity_search : PGVector -> string -> Z -> E -> result (list Document) * E;
  (** [genai.GenerativeModel(model_name).generate_content(prompt).text]. *)
  generate_content : string -> string -> E -> result string * E
}.
Arguments http_exception_str {E} _ _ _.
Arguments embeddings_init {E} _ _ _.
Arguments pgvector_init {E} _ _ _.
Arguments file_read {E} _ _ _.
Arguments temp_base {E} _ _.
Arguments temp_write {E} _ _ _ _.
Arguments uuid4 {E} _ _.
Arguments blob_upload {E} _ _ _ _ _.
Arguments loader_load {E} _ _ _ _.
Arguments split_documents {E} _ _ _ _ _ _.
Arguments add_documents {E} _ _ _ _.
Arguments similarity_search {E} _ _ _ _ _.
Arguments generate_content {E} _ _ _ _.

Record world (E : Type) := World {
  w_files : gset string;      (* temporary files present on disk *)
  w_trace : list event;       (* calls made so far, oldest first *)
  w_ext : E                   (* state of the collaborators *)
}.
Arguments World {E} _ _ _.
Arguments w_files {E} _.
Arguments w_trace {E} _.
Arguments w_ext {E} _.

(** ** The state-and-exception monad *)

Definition M (E A : Type) : Type := world E -> result A * world E.

Definition ret {E A} (a : A) : M E A := fun w => (Ok a, w).

Definition raise {E A} (e : exn) : M E A := fun w => (Raise e, w).

Definition bind {E A B} (m : M E A) (k : A -> M E B) : M E B :=
  fun w =>
    match m w with
    | (Ok a, w') => k a w'
    | (Raise e, w') => (Raise e, w')
    end.

(** [try: m except Exception as e: h e]. *)
Definition try_except {E A} (m : M E A) (h : exn -> M E A) : M E A :=
  fun w =>
    match m w with
    | (Ok a, w') => (Ok a, w')
    | (Raise e, w') => h e w'
    end.

Definition lift_result {E A} (r : result A) : M E A := fun w => (r, w).

(** A call to a collaborator, recorded in the trace with its outcome. *)
Definition ext_call {E A} (c : call) (f : E -> result A * E) : M E A :=
  fun w =>
    let '(r, e') := f (w_ext w) in
    (r, World (w_files w) (w_trace w ++ [(c, is_ok r)]) e').

(** A collaborator operation that cannot raise and is not traced. *)
Definition ext_pure {E A} (f : E -> A * E) : M E A :=
  fun w =>
    let '(a, e') := f (w_ext w) in
    (Ok a, World (w_files w) (w_trace w) e').

(** The temporary file [path] now exists. *)
Definition fs_create {E} (path : string) : M E unit :=
  fun w => (Ok tt, World ({[path]} ∪ w_files w) (w_trace w) (w_ext w)).

(** [os.unlink(path)]. *)
Definition os_unlink {E} (path : string) : M E unit :=
  fun w =>
    if decide (path ∈ w_files w)
    then (Ok tt, World (w_files w ∖ {[path]}) (w_trace w ++ [(CallUnlink path, true)]) (w_ext w))
    else (Raise (OSError ("No such file or directory: " +:+ path)),
          World (w_files w) (w_trace w ++ [(CallUnlink path, false)]) (w_ext w)).

Declare Scope py_scope.
Delimit Scope py_scope with py.
Notation "'let*' x ':=' m 'in' k" := (bind m (fun x => k))
  (at level 10, x name, m at level 100, k at level 200,
   format "'[v' 'let*'  x  ':='  m  'in' '/' k ']'") : py_scope.
Notation "m ;;; k" := (bind m (fun _ => k))
  (at level 100, k at level 200, right associativity) : py_scope.

Local Open Scope py_scope.

(** ** The environment and the start-up check (lines 25-30) *)

(** [os.getenv(key)] is [env !! key]; [os.getenv(key, d)] is [getenv_default]. *)
Definition getenv_default (env : gmap string string) (key d : string) : string :=
  default d (env !! key).

(** Truth value of an [os.getenv] result: [None] and the empty string are
    false. *)
Definition truthy (v : option string) : bool :=
  match v with
  | Some (String _ _) => true
  | _ => false
  end.

(** [all(xs)]. *)
Definition py_all (xs : list (option string)) : bool := forallb truthy xs.

(** Module initialisation up to the configuration check. *)
Definition load_config (env : gmap string string) : result Config :=
  let k := env !! "GEMINI_API_KEY" in
  let b := env !! "GCS_BUCKET_NAME" in
  let d := env !! "DATABASE_URL" in
  if negb (py_all [k; b; d])
  then Raise (ValueError "Missing required environment variables")
  else Ok {| GEMINI_API_KEY := default EmptyString k;
             BUCKET_NAME := default EmptyString b;
             DB_CONNECTION := default EmptyString d |}.

(** ** The format dispatcher (lines 56-71) *)

Definition SUPPORTED_FORMATS : gmap string LoaderClass :=
  list_to_map [
    (".pdf", PyPDFLoader);
    (".docx", Docx2txtLoader);
    (".doc", Docx2txtLoader);
    (".pptx", UnstructuredPowerPointLoader);
    (".ppt", UnstructuredPowerPointLoader);
    (".csv", UnstructuredCSVLoader);
    (".json", JSONLoader);
    (".txt", TextLoader)
  ].

(** [os.path.splitext(p)[1].lower()]. *)
Definition extension_of (p : string) : string :=
  PyStr.lower (snd (OsPath.splitext p)).

Definition get_file_loader (file_path : string) : result LoaderClass :=
  let ext := extension_of file_path in
  match SUPPORTED_FORMATS !! ext with
  | None => Raise (ValueError ("Unsupported file format: " +:+ ext))
  | Some cls => Ok cls
  end.

(** ** Prompt assembly (lines 121-133) *)

(** The chain of three [str.replace] calls of line 122: single quotes and
    double quotes are deleted, then every newline becomes a space. *)
Definition escape_context (context : string) : string :=
  PyStr.replace
    (PyStr.replace (PyStr.replace context PyStr.squote EmptyString) PyStr.dquote EmptyString)
    PyStr.nl " ".

Definition prompt_head : string :=
  PyStr.nl +:+
  "    You are a helpful and informative assistant that answers questions using the provided reference context." +:+ PyStr.nl +:+
  "    Provide comprehensive answers while maintaining a conversational tone for non-technical audiences." +:+ PyStr.nl +:+
  "    Break down complex concepts into simpler terms." +:+ PyStr.nl +:+
  "    If the context doesn't contain relevant information, acknowledge that and provide a general response." +:+ PyStr.nl +:+
  "    " +:+ PyStr.nl +:+
  "    QUESTION: '".

Definition prompt_middle : string :=
  "'" +:+ PyStr.nl +:+ "    CONTEXT: '".

Definition prompt_tail : string :=
  "'" +:+ PyStr.nl +:+
  "    " +:+ PyStr.nl +:+
  "    ANSWER:" +:+ PyStr.nl +:+
  "    ".

Definition generate_rag_prompt (query context : string) : string :=
  let escaped := escape_context context in
  prompt_head +:+ query +:+ prompt_middle +:+ escaped +:+ prompt_tail.

(** ** The pipelines *)

(** [str(e)]. *)
Definition str_exn {E} (X : Collaborators E) (e : exn) : string :=
  match e with
  | ValueError msg => msg
  | OSError msg => msg
  | ExternalError msg => msg
  | HTTPException code detail => http_exception_str X code detail
  end.

(** [PGVector.connection_string_from_db_params]. *)
Definition connection_string_from_db_params (p : DbParams) : string :=
  "postgresql+" +:+ driver p +:+ "://" +:+ user p +:+ ":" +:+ password p
  +:+ "@" +:+ host p +:+ ":" +:+ pretty (port p) +:+ "/" +:+ database p.

Section Pipelines.

Context {E : Type} (X : Collaborators E).
Variable cfg : Config.
Variable env : gmap string string.

(** [int(os.getenv("DB_PORT", 5432))]. *)
Definition db_port : result Z :=
  match env !! "DB_PORT" with
  | None => Ok 5432
  | Some s =>
      match PyInt.int s with
      | Some n => Ok n
      | None => Raise (ValueError (PyInt.error_message s))
      end
  end.

Definition upload_to_gcs (file_path destination_blob_name : string) : M E string :=
  ext_call (CallBlobUpload (BUCKET_NAME cfg) file_path destination_blob_name)
           (blob_upload X (BUCKET_NAME cfg) file_path destination_blob_name).

Definition initialize_vectorstore : M E PGVector :=
  let embedding_function :=
    {| model_name := "sentence-transformers/all-MiniLM-L6-v2"; device := "cpu" |} in
  ext_call (CallEmbeddings embedding_function) (embeddings_init X embedding_function) ;;;
  let* p := lift_result db_port in
  let connection_string :=
    connection_string_from_db_params
      {| driver := "psycopg2";
         host := getenv_default env "DB_HOST" "localhost";
         port := p;
         database := getenv_default env "DB_NAME" "vectordb";
         user := getenv_default env "DB_USER" "postgres";
         password := getenv_default env "DB_PASSWORD" EmptyString |} in
  let vs := {| connection_string := connection_string;
               embedding_function := embedding_function;
               collection_name := "document_vectors" |} in
  ext_call (CallPGVector vs) (pgvector_init X vs) ;;;
  ret vs.

Definition process_file (file_path : string) (vectorstore : PGVector) : M E Z :=
  try_except
    (let* cls := lift_result (get_file_loader file_path) in
     let* documents := ext_call (CallLoad cls file_path) (loader_load X cls file_path) in
     let* docs := ext_call (CallSplit 1000 200)
                           (split_documents X "en_core_web_sm" 1000 200 documents) in
     ext_call (CallAddDocuments vectorstore (length docs))
              (add_documents X vectorstore docs) ;;;
     ret (Z.of_nat (length docs)))
    (fun e => raise (HTTPException 500 ("Error processing file: " +:+ str_exn X e))).

(** The body of the [for] loop for a file whose extension [ext] is
    supported; [acc] is [(total_chunks, processed_files)]. *)
Definition upload_one (vectorstore : PGVector) (file : UploadFile) (ext : string)
    (acc : Z * list ProcessedFile) : M E (Z * list ProcessedFile) :=
  let* content := ext_call (CallRead (filename file)) (file_read X file) in
  let* base := ext_call (CallTempFile ext) (temp_base X) in
  let tmp_name := base +:+ ext in
  fs_create tmp_name ;;;
  ext_call (CallWrite tmp_name) (temp_write X tmp_name content) ;;;
  let* uuid := ext_pure (uuid4 X) in
  let gcs_path := "documents/" +:+ uuid +:+ "/" +:+ filename file in
  let* url := upload_to_gcs tmp_name gcs_path in
  let* num_chunks := process_file tmp_name vectorstore in
  let acc' := (fst acc + num_chunks,
               (snd acc ++ [{| pf_filename := filename file;
                               chunks_created := num_chunks;
                               gcs_url := url |}])%list) in
  os_unlink tmp_name ;;;
  ret acc'.

Fixpoint upload_loop (vectorstore : PGVector) (files : list UploadFile)
    (acc : Z * list ProcessedFile) : M E (Z * list ProcessedFile) :=
  match files with
  | [] => ret acc
  | file :: rest =>
      let ext := extension_of (filename file) in
      match SUPPORTED_FORMATS !! ext with
      | None => upload_loop vectorstore rest acc
      | Some _ =>
          let* acc' := upload_one vectorstore file ext acc in
          upload_loop vectorstore rest acc'
      end
  end.

Definition upload_files (files : list UploadFile) : M E UploadResponse :=
  let* vectorstore := initialize_vectorstore in
  try_except
    (let* acc := upload_loop vectorstore files (0, []) in
     ret {| status := "success";
            processed_files := snd acc;
            total_chunks := fst acc |})
    (fun e => raise (HTTPException 500 ("Error processing upload: " +:+ str_exn X e))).

Definition ask_question (q : string) : M E AskResponse :=
  try_except
    (let* vectorstore := initialize_vectorstore in
     let* results := ext_call (CallSimilaritySearch vectorstore q 6)
                              (similarity_search X vectorstore q 6) in
     let context := PyStr.join PyStr.nl (map page_content results) in
     let prompt := generate_rag_prompt q context in
     let* text := ext_call (CallGenerate "gemini-pro" prompt)
                           (generate_content X "gemini-pro" prompt) in
     ret {| question := q; answer := text |})
    (fun e => raise (HTTPException 500 ("Error processing question: " +:+ str_exn X e))).

End Pipelines.

(** ** A small concrete set of collaborators

    An in-memory blob store, disk and vector store, used to run the
    pipelines on concrete requests.  [bad] lists the operations that raise. *)

Module Demo.

Inductive op : Type :=
| OpEmbeddings | OpPGVector | OpRead | OpTempFile | OpWrite | OpBlobUpload
| OpLoad | OpSplit | OpAddDocuments | OpSimilaritySearch | OpGenerate.

Definition op_eqb (a b : op) : bool :=
  match a, b with
  | OpEmbeddings, OpEmbeddings | OpPGVector, OpPGVector | OpRead, OpRead
  | OpTempFile, OpTempFile | OpWrite, OpWrite | OpBlobUpload, OpBlobUpload
  | OpLoad, OpLoad | OpSplit, OpSplit | OpAddDocuments, OpAddDocuments
  | OpSimilaritySearch, OpSimilaritySearch | OpGenerate, OpGenerate => true
  | _, _ => false
  end.

Record state := State {
  counter : nat;                       (* source of fresh names *)
  disk : gmap string string;           (* contents of temporary files *)
  blobs : list (string * string);      (* uploaded (bucket, path) pairs *)
  store : list Document                (* the vector store's rows *)
}.

Definition empty_state : state := State 0 ∅ [] [].

(** Sentences of a text: the non-empty pieces between full stops. *)
Fixpoint sentences (cur s : string) : list string :=
  match s with
  | EmptyString => match cur with EmptyString => [] | _ => [String.rev cur] end
  | String c s' =>
      if Ascii.eqb c "."%char
      then match cur with
           | EmptyString => sentences EmptyString s'
           | _ => String.rev cur :: sentences EmptyString s'
           end
      else sentences (String c cur) s'
  end.

(** [io.DEFAULT_BUFFER_SIZE]. *)
Definition buffer_size : N := 8192.

(** What [tmp_file.write(content)] has put on disk while the temporary
    file is still open, which is when it is uploaded and loaded: a content
    that fits the buffer stays in the buffer, a larger one is written
    through. *)
Definition written_through (content : string) : string :=
  if (N.of_nat (String.length content) <=? buffer_size)%N then EmptyString else content.

(** [n] letters [c] and a full stop. *)
Fixpoint letters (n : nat) (c : ascii) : string :=
  match n with
  | O => "."
  | S n' => String c (letters n' c)
  end.

Definition guarded {A} (bad : list op) (o : op) (what : string)
    (f : state -> result A * state) : state -> result A * state :=
  fun st => if existsb (op_eqb o) bad then (Raise (ExternalError what), st) else f st.

Definition collaborators (bad : list op) : Collaborators state := {|
  http_exception_str := fun code detail => pretty code +:+ ": " +:+ detail;
  embeddings_init := fun _ =>
    guarded bad OpEmbeddings "model not found" (fun st => (Ok tt, st));
  pgvector_init := fun _ =>
    guarded bad OpPGVector "connection refused" (fun st => (Ok tt, st));
  file_read := fun f =>
    guarded bad OpRead "read failed" (fun st => (Ok (body f), st));
  temp_base :=
    guarded bad OpTempFile "no space left on device"
      (fun st => (Ok ("/tmp/tmp" +:+ pretty (counter st)),
                  State (S (counter st)) (disk st) (blobs st) (store st)));
  temp_write := fun path content =>
    guarded bad OpWrite "no space left on device"
      (fun st => (Ok tt, State (counter st) (<[path := written_through content]> (disk st))
                               (blobs st) (store st)));
  uuid4 := fun st =>
    ("uuid-" +:+ pretty (counter st),
     State (S (counter st)) (disk st) (blobs st) (store st));
  blob_upload := fun bucket path dest =>
    guarded bad OpBlobUpload "bucket unreachable"
      (fun st => (Ok ("https://storage.googleapis.com/" +:+ bucket +:+ "/" +:+ dest),
                  State (counter st) (disk st) ((bucket, dest) :: blobs st) (store st)));
  loader_load := fun cls path =>
    guarded bad OpLoad "cannot parse file"
      (fun st => (Ok [{| page_content := default EmptyString (disk st !! path);
                         metadata := [("source", path)] |}], st));
  split_documents := fun pipeline size overlap docs =>
    guarded bad OpSplit "pipeline not installed"
      (fun st => (Ok (flat_map (fun d => map (fun s => {| page_content := s;
                                                            metadata := metadata d |})
                                              (sentences EmptyString (page_content d)))
                               docs), st));
  add_documents := fun vs docs =>
    guarded bad OpAddDocuments "insert failed"
      (fun st => (Ok tt, State (counter st) (disk st) (blobs st)
                               (store st ++ docs)%list));
  similarity_search := fun vs q k =>
    guarded bad OpSimilaritySearch "query failed"
      (fun st => (Ok (take (Z.to_nat k) (store st)), st));
  generate_content := fun model prompt =>
    guarded bad OpGenerate "quota exceeded"
      (fun st => (Ok "generated answer", st))
|}.

Definition cfg : Config :=
  {| GEMINI_API_KEY := "key"; BUCKET_NAME := "bucket"; DB_CONNECTION := "postgresql://db" |}.

Definition env : gmap string string :=
  list_to_map [("GEMINI_API_KEY", "key"); ("GCS_BUCKET_NAME", "bucket");
               ("DATABASE_URL", "postgresql://db")].

(** [GEMINI_API_KEY] is set, to the empty string. *)
Definition env_empty_key : gmap string string :=
  <["GEMINI_API_KEY" := EmptyString]> env.

(** [DB_PORT] is set to a text that is not a number. *)
Definition env_bad_port : gmap string string :=
  <["DB_PORT" := "abc"]> env.

(** Another connection string, everything else as in [env]. *)
Definition env_other_url : gmap string string :=
  <["DATABASE_URL" := "postgresql://elsewhere/otherdb"]> env.

Definition w0 : world state := World ∅ [] empty_state.

(** Two documents larger than the buffer, of three and of two sentences,
    a document that fits the buffer, and a picture. *)
Definition notes : UploadFile :=
  {| filename := "notes.TXT";
     body := letters 3000 "a" +:+ letters 3000 "b" +:+ letters 3000 "c" |}.
Definition report : UploadFile :=
  {| filename := "report.pdf"; body := letters 4500 "x" +:+ letters 4500 "y" |}.
Definition memo : UploadFile := {| filename := "memo.txt"; body := "One. Two. Three." |}.
Definition picture : UploadFile := {| filename := "picture.png"; body := "binary" |}.

(** A store that holds two chunks. *)
Definition stocked : world state :=
  World ∅ []
    (State 0 ∅ []
       [{| page_content := "X is a letter."; metadata := [("source", "/tmp/tmp0.txt")] |};
        {| page_content := "It's " +:+ PyStr.dquote +:+ "the" +:+ PyStr.dquote
                           +:+ " unknown," +:+ PyStr.nl +:+ "often.";
           metadata := [("source", "/tmp/tmp2.pdf")] |}]).

End Demo.

(** ** Whole runs: module initialisation, then one request *)

Inductive request : Type :=
| GetRoot
| PostUpload (files : list UploadFile)
| PostAsk (q : string).

Inductive response : Type :=
| RootMessage (message : string)
| UploadResult (r : UploadResponse)
| AskResult (r : AskResponse).

Definition root {E} : M E response := ret (RootMessage "Enhanced RAG API is running").

Definition handle {E} (X : Collaborators E) (cfg : Config) (env : gmap string string)
    (req : request) : M E response :=
  match req with
  | GetRoot => root
  | PostUpload files => let* r := upload_files X cfg env files in ret (UploadResult r)
  | PostAsk q => let* r := ask_question X env q in ret (AskResult r)
  end.

(** The configuration check of lines 25-30 followed by the handler of
    [req]: when the check raises, no handler runs.  The services of lines
    33-42 and the validation of the request are added by [serve] below. *)
Definition run {E} (X : Collaborators E) (env : gmap string string) (req : request)
    : M E response :=
  fun w =>
    match load_config env with
    | Raise e => (Raise e, w)
    | Ok cfg => handle X cfg env req w
    end.

(** ** The framework around the handlers (lines 141 and 179)

    [files] is declared [File(...)] and [question] is declared
    [Form(...)]: both parameters are required.  A request that carries no
    [files] part, or whose [question] field is missing or empty, is
    answered by the framework with status 422 and the handler is not
    called.  As a [request] these are [PostUpload []] and
    [PostAsk EmptyString]. *)

Inductive reply : Type :=
| Reply200 (r : response)
  (* the handler returned [r] *)
| Reply422 (field : string)
  (* request validation failed at [body.field]; the handler did not run *)
| ReplyHTTPException (status_code : Z) (detail : string)
  (* the handler raised [HTTPException]: the body is [{"detail": detail}] *)
| ReplyServerError (e : exn).
  (* any other exception: 500 Internal Server Error *)

(** The required parameter that a request lacks, if any. *)
Definition validate (req : request) : option string :=
  match req with
  | GetRoot => None
  | PostUpload [] => Some "files"
  | PostUpload (_ :: _) => None
  | PostAsk EmptyString => Some "question"
  | PostAsk (String _ _) => None
  end.

(** One request at its endpoint: validation, then the handler. *)
Definition endpoint {E} (X : Collaborators E) (cfg : Config) (env : gmap string string)
    (req : request) : world E -> reply * world E :=
  fun w =>
    match validate req with
    | Some field => (Reply422 field, w)
    | None =>
        match handle X cfg env req w with
        | (Ok r, w') => (Reply200 r, w')
        | (Raise (HTTPException status_code detail), w') =>
            (ReplyHTTPException status_code detail, w')
        | (Raise e, w') => (ReplyServerError e, w')
        end
    end.

(** ** Observations on traces *)

Definition ok_event (ev : event) : Prop := snd ev = true.

(** The similarity searches of a trace: vector store, query and [k]. *)
Fixpoint search_requests (tr : list event) : list (PGVector * string * Z) :=
  match tr with
  | [] => []
  | (CallSimilaritySearch v q k, _) :: tr' => (v, q, k) :: search_requests tr'
  | _ :: tr' => search_requests tr'
  end.

(** The prompts sent to the generative model. *)
Fixpoint generate_requests (tr : list event) : list string :=
  match tr with
  | [] => []
  | (CallGenerate _ prompt, _) :: tr' => prompt :: generate_requests tr'
  | _ :: tr' => generate_requests tr'
  end.

(** The sizes of the batches handed to [add_documents] that were stored. *)
Fixpoint add_requests (tr : list event) : list nat :=
  match tr with
  | [] => []
  | (CallAddDocuments _ n, true) :: tr' => n :: add_requests tr'
  | _ :: tr' => add_requests tr'
  end.

(** The sum of a list of Python ints. *)
Definition py_sum (xs : list Z) : Z := foldr Z.add 0 xs.

(** A run is abandoned at its first failing call: every call but possibly
    the last returned, and when the run itself returned, all did. *)
Definition abandoned_at_failure (returned : bool) (new : list event) : Prop :=
  if returned then Forall ok_event new else Forall ok_event (removelast new).

(** A computation only appends to the trace, and is abandoned at its
    first failing call. *)
Definition disciplined {E A} (m : M E A) : Prop :=
  forall w r w', m w = (r, w') ->
    exists new, w_trace w' = (w_trace w ++ new)%list
                /\ abandoned_at_failure (is_ok r) new.

(** A computation leaves the temporary files as they are. *)
Definition keeps_files {E A} (m : M E A) : Prop :=
  forall w r w', m w = (r, w') -> w_files w' = w_files w.

(** The supported files of a request, in order. *)
Definition supported (f : UploadFile) : bool :=
  bool_decide (is_Some (SUPPORTED_FORMATS !! extension_of (filename f))).

(** The extensions named by the specification. *)
Definition supported_extensions : list string :=
  [".pdf"; ".docx"; ".doc"; ".pptx"; ".ppt"; ".csv"; ".json"; ".txt"].

(** The variables read by the start-up check, and those read by
    [initialize_vectorstore]. *)
Definition required_keys : list string :=
  ["GEMINI_API_KEY"; "GCS_BUCKET_NAME"; "DATABASE_URL"].

Definition db_keys : list string :=
  ["DB_HOST"; "DB_PORT"; "DB_NAME"; "DB_USER"; "DB_PASSWORD"].

(** What [escape_context] does to one character. *)
Definition escape_char (c : ascii) : list ascii :=
  if (Ascii.eqb c "039" || Ascii.eqb c "034")%bool then []
  else if Ascii.eqb c "010" then [" "%char]
  else [c].

(** ** Further observations on traces *)

(** The names of the files read, in order. *)
Fixpoint read_requests (tr : list event) : list string :=
  match tr with
  | [] => []
  | (CallRead name, _) :: tr' => name :: read_requests tr'
  | _ :: tr' => read_requests tr'
  end.

(** The blob uploads: bucket, local path and destination. *)
Fixpoint blob_requests (tr : list event) : list (string * string * string) :=
  match tr with
  | [] => []
  | (CallBlobUpload bucket path dest, _) :: tr' => (bucket, path, dest) :: blob_requests tr'
  | _ :: tr' => blob_requests tr'
  end.

(** The paths of the temporary files written. *)
Fixpoint write_requests (tr : list event) : list string :=
  match tr with
  | [] => []
  | (CallWrite path, _) :: tr' => path :: write_requests tr'
  | _ :: tr' => write_requests tr'
  end.

(** The calls a question request may make. *)
Definition is_query_call (c : call) : bool :=
  match c with
  | CallEmbeddings _ | CallPGVector _ | CallSimilaritySearch _ _ _ | CallGenerate _ _ => true
  | _ => false
  end.

(** The calls an upload request may make. *)
Definition is_ingest_call (c : call) : bool :=
  match c with
  | CallSimilaritySearch _ _ _ | CallGenerate _ _ => false
  | _ => true
  end.

(** Every call a computation makes satisfies [P]. *)
Definition emits {E A} (P : event -> Prop) (m : M E A) : Prop :=
  forall w r w', m w = (r, w') ->
    exists new, w_trace w' = (w_trace w ++ new)%list /\ Forall P new.

(** The calls made inside [process_file]. *)
Definition is_processing_call (c : call) : bool :=
  match c with
  | CallLoad _ _ | CallSplit _ _ | CallAddDocuments _ _ => true
  | _ => false
  end.

(** [s.endswith(suffix)]. *)
Definition endswith (suffix s : string) : bool :=
  String.eqb (PyStr.drop (String.length s - String.length suffix) s) suffix
  && (String.length suffix <=? String.length s)%nat.

(** *** The order of calls of the ingestion loop

    The calls made for one file, as an automaton over the trace: the
    state remembers the file name, the suffix and the path of the
    temporary file; [Stopped] is entered by a call that raised. *)
Inductive phase : Type :=
| Idle
| AfterRead (name : string)
| AfterTemp (name suffix : string)
| AfterWrite (name path : string)
| AfterBlob (path : string)
| AfterLoad (path : string)
| AfterSplit (path : string)
| AfterAdd (path : string)
| Stopped.

#[global] Instance LoaderClass_eq_dec : EqDecision LoaderClass.
Proof. solve_decision. Defined.

#[global] Instance HuggingFaceEmbeddings_eq_dec : EqDecision HuggingFaceEmbeddings.
Proof. solve_decision. Defined.

#[global] Instance PGVector_eq_dec : EqDecision PGVector.
Proof. solve_decision. Defined.

Definition next (ok : bool) (ph : phase) : option phase :=
  Some (if ok then ph else Stopped).

Definition guard (b : bool) (r : option phase) : option phase :=
  if b then r else None.

Definition protocol_step (bucket : string) (vs : PGVector) (ph : phase) (ev : event)
    : option phase :=
  match ph, ev with
  | Idle, (CallRead name, ok) =>
      guard (bool_decide (is_Some (SUPPORTED_FORMATS !! extension_of name)))
            (next ok (AfterRead name))
  | AfterRead name, (CallTempFile suffix, ok) =>
      guard (String.eqb suffix (extension_of name)) (next ok (AfterTemp name suffix))
  | AfterTemp name suffix, (CallWrite path, ok) =>
      guard (endswith suffix path) (next ok (AfterWrite name path))
  | AfterWrite name path, (CallBlobUpload b p dest, ok) =>
      guard (String.eqb b bucket && String.eqb p path
             && PyStr.startswith "documents/" dest && endswith ("/" +:+ name) dest)
            (next ok (AfterBlob path))
  | AfterBlob path, (CallLoad cls p, ok) =>
      guard (String.eqb p path
             && bool_decide (SUPPORTED_FORMATS !! extension_of p = Some cls))
            (next ok (AfterLoad path))
  | AfterLoad path, (CallSplit size overlap, ok) =>
      guard ((size =? 1000) && (overlap =? 200)) (next ok (AfterSplit path))
  | AfterSplit path, (CallAddDocuments v n, ok) =>
      guard (bool_decide (v = vs)) (next ok (AfterAdd path))
  | AfterAdd path, (CallUnlink p, ok) =>
      guard (String.eqb p path && ok) (Some Idle)
  | _, _ => None
  end.

Fixpoint protocol_run (bucket : string) (vs : PGVector) (ph : phase) (tr : list event)
    : option phase :=
  match tr with
  | [] => Some ph
  | ev :: tr' =>
      match protocol_step bucket vs ph ev with
      | Some ph' => protocol_run bucket vs ph' tr'
      | None => None
      end
  end.

(** ** Module initialisation (lines 25-45) and the entry point (lines 196-198) *)

(** The services constructed when the module is loaded. *)
Record Services (E : Type) := {
  (** [genai.configure(api_key=...)]. *)
  genai_configure : string -> E -> result unit * E;
  (** [storage.Client()]. *)
  storage_client : E -> result unit * E;
  (** [storage_client.bucket(name)]. *)
  client_bucket : string -> E -> result unit * E;
  (** [spacy.load(name)]. *)
  spacy_load : string -> E -> result unit * E;
  (** [os.system(command)], its exit status. *)
  os_system : string -> E -> Z * E
}.
Arguments genai_configure {E} _ _ _.
Arguments storage_client {E} _ _.
Arguments client_bucket {E} _ _ _.
Arguments spacy_load {E} _ _ _.
Arguments os_system {E} _ _ _.

Inductive startup_call : Type :=
| StartConfigure (api_key : string)
| StartStorageClient
| StartBucket (name : string)
| StartSpacyLoad (model : string)
| StartSystem (command : string).

(** The state while the module is loaded: the calls made so far, each with
    its outcome, and the state of the services. *)
Record boot (E : Type) := Boot {
  b_log : list (startup_call * bool);
  b_ext : E
}.
Arguments Boot {E} _ _.
Arguments b_log {E} _.
Arguments b_ext {E} _.

Definition B (E A : Type) : Type := boot E -> result A * boot E.

Definition boot_bind {E A C} (m : B E A) (k : A -> B E C) : B E C :=
  fun b =>
    match m b with
    | (Ok a, b') => k a b'
    | (Raise e, b') => (Raise e, b')
    end.

Definition boot_call {E A} (c : startup_call) (f : E -> result A * E) : B E A :=
  fun b =>
    let '(r, e') := f (b_ext b) in
    (r, Boot (b_log b ++ [(c, is_ok r)]) e').

(** [os.system(command)]; the exit status is not looked at. *)
Definition boot_system {E} (Sv : Services E) (command : string) : B E unit :=
  fun b =>
    let '(_, e') := os_system Sv command (b_ext b) in
    (Ok tt, Boot (b_log b ++ [(StartSystem command, true)]) e').

(** [try: m except: h] with a bare [except]. *)
Definition boot_try {E A} (m : B E A) (h : B E A) : B E A :=
  fun b =>
    match m b with
    | (Ok a, b') => (Ok a, b')
    | (Raise _, b') => h b'
    end.

(** Lines 37-42: load the spaCy model, downloading it when loading fails. *)
Definition load_spacy_model {E} (Sv : Services E) : B E unit :=
  boot_try
    (boot_call (StartSpacyLoad "en_core_web_sm") (spacy_load Sv "en_core_web_sm"))
    (boot_bind (boot_system Sv "python -m spacy download en_core_web_sm")
       (fun _ => boot_call (StartSpacyLoad "en_core_web_sm")
                           (spacy_load Sv "en_core_web_sm"))).

(** Lines 25-42: what happens when the module is imported. *)
Definition module_init {E} (Sv : Services E) (env : gmap string string) : B E Config :=
  fun b =>
    match load_config env with
    | Raise e => (Raise e, b)
    | Ok cfg =>
        boot_bind (boot_call (StartConfigure (GEMINI_API_KEY cfg))
                             (genai_configure Sv (GEMINI_API_KEY cfg)))
          (fun _ =>
        boot_bind (boot_call StartStorageClient (storage_client Sv))
          (fun _ =>
        boot_bind (boot_call (StartBucket (BUCKET_NAME cfg))
                             (client_bucket Sv (BUCKET_NAME cfg)))
          (fun _ =>
        boot_bind (load_spacy_model Sv)
          (fun _ => fun b' => (Ok cfg, b'))))) b
    end.

(** The process is started in environment [env] and receives [req]: the
    module is initialised (lines 25-42) and, when that returned, the
    request goes to its endpoint.  When the initialisation raises, the
    import fails and nothing is served. *)
Definition serve {E1 E2} (Sv : Services E1) (X : Collaborators E2)
    (env : gmap string string) (req : request) (b : boot E1) (w : world E2)
    : result reply * boot E1 * world E2 :=
  match module_init Sv env b with
  | (Raise e, b') => (Raise e, b', w)
  | (Ok cfg, b') => let '(r, w') := endpoint X cfg env req w in (Ok r, b', w')
  end.

(** [int(os.getenv("PORT", 8080))], the port handed to [uvicorn.run]. *)
Definition listen_port (env : gmap string string) : result Z :=
  match env !! "PORT" with
  | None => Ok 8080
  | Some s =>
      match PyInt.int s with
      | Some n => Ok n
      | None => Raise (ValueError (PyInt.error_message s))
      end
  end.

(** The spaCy loads and the download commands of a start-up log. *)
Fixpoint spacy_loads (log : list (startup_call * bool)) : list bool :=
  match log with
  | [] => []
  | (StartSpacyLoad _, ok) :: log' => ok :: spacy_loads log'
  | _ :: log' => spacy_loads log'
  end.

Fixpoint system_commands (log : list (startup_call * bool)) : list string :=
  match log with
  | [] => []
  | (StartSystem command, _) :: log' => command :: system_commands log'
  | _ :: log' => system_commands log'
  end.

(** In-memory services for [Demo]: [bad] lists the calls that raise;
    the spaCy model is installed once the download command has run. *)
Module DemoBoot.

Inductive op : Type := OpConfigure | OpClient | OpBucket.

Definition op_eqb (a b : op) : bool :=
  match a, b with
  | OpConfigure, OpConfigure | OpClient, OpClient | OpBucket, OpBucket => true
  | _, _ => false
  end.

(** The state: is the model installed, and does the download work. *)
Record state := State { installed : bool; download_works : bool }.

Definition guarded (bad : list op) (o : op) (what : string)
    : state -> result unit * state :=
  fun st => if existsb (op_eqb o) bad then (Raise (ExternalError what), st) else (Ok tt, st).

Definition services (bad : list op) : Services state := {|
  genai_configure := fun _ => guarded bad OpConfigure "invalid key";
  storage_client := guarded bad OpClient "default credentials not found";
  client_bucket := fun _ => guarded bad OpBucket "invalid bucket name";
  spacy_load := fun name st =>
    if installed st then (Ok tt, st)
    else (Raise (OSError ("Can't find model " +:+ name)), st);
  os_system := fun command st =>
    if download_works st then (0, State true true) else (1, st)
|}.

Definition fresh : boot state := Boot [] (State false true).
Definition ready : boot state := Boot [] (State true true).
Definition offline : boot state := Boot [] (State false false).

End DemoBoot.

(** * Properties *)

(** ** Strings *)

Example splitext_report : OsPath.splitext "docs/Report.PDF" = ("docs/Report", ".PDF").
Proof. reflexivity. Qed.

Example splitext_hidden : OsPath.splitext ".pdf" = (".pdf", EmptyString).
Proof. reflexivity. Qed.

Example splitext_dir : OsPath.splitext "a.b/c" = ("a.b/c", EmptyString).
Proof. reflexivity. Qed.

Example replace_overlap : PyStr.replace "aaa" "aa" "b" = "ba".
Proof. reflexivity. Qed.

Example int_examples :
  PyInt.int " 54_32 " = Some 5432 /\ PyInt.int "-7" = Some (-7) /\
  PyInt.int "abc" = None /\ PyInt.int "5__4" = None /\ PyInt.int EmptyString = None.
Proof. repeat split; reflexivity. Qed.

Lemma replace_char (a : ascii) (new s : string) :
  PyStr.replace s (String a EmptyString) new =
  match s with
  | EmptyString => EmptyString
  | String c s' =>
      if Ascii.eqb a c
      then new +:+ PyStr.replace s' (String a EmptyString) new
      else String c (PyStr.replace s' (String a EmptyString) new)
  end.
Proof.
  destruct s as [|c s']; [reflexivity|].
  unfold PyStr.replace. simpl.
  destruct (Ascii.eqb a c); simpl; reflexivity.
Qed.

Lemma escape_context_chars (context : string) :
  escape_context context =
  string_of_list_ascii (flat_map escape_char (list_ascii_of_string context)).
Proof.
  unfold escape_context, PyStr.squote, PyStr.dquote, PyStr.nl.
  induction context as [|c s IH]; [reflexivity|].
  rewrite (replace_char "039" _ (String c s)).
  simpl list_ascii_of_string. simpl flat_map.
  unfold escape_char at 1.
  rewrite (Ascii.eqb_sym c "039"), (Ascii.eqb_sym c "034"), (Ascii.eqb_sym c "010").
  destruct (Ascii.eqb "039" c) eqn:Hs; cbn [orb append].
  - exact IH.
  - rewrite (replace_char "034" _ (String c _)).
    destruct (Ascii.eqb "034" c) eqn:Hd; cbn [orb append].
    + exact IH.
    + rewrite (replace_char "010" _ (String c _)).
      destruct (Ascii.eqb "010" c) eqn:Hn; cbn [app append string_of_list_ascii];
        f_equal; exact IH.
Qed.

Lemma escape_chars_clean (c : ascii) (l : list ascii) :
  c = "039"%char \/ c = "034"%char \/ c = "010"%char ->
  PyStr.contains c (string_of_list_ascii (flat_map escape_char l)) = false.
Proof.
  intros Hc. induction l as [|a l IH]; [reflexivity|].
  cbn [flat_map]. unfold escape_char at 1.
  destruct (Ascii.eqb a "039") eqn:Hs; [exact IH|].
  destruct (Ascii.eqb a "034") eqn:Hd; [exact IH|].
  destruct (Ascii.eqb a "010") eqn:Hn; cbn [orb app string_of_list_ascii PyStr.contains];
    rewrite IH, orb_false_r.
  - destruct Hc as [->|[->| ->]]; reflexivity.
  - destruct Hc as [->|[->| ->]]; assumption.
Qed.

(** C3.  The prompt is the fixed template with the question substituted
    as it is and the context substituted after sanitization.  Sanitization
    deletes every single quote and every double quote and turns every
    newline into one space, keeping all other characters in order, so the
    sanitized context contains none of the three characters; on the
    context [He said "hi"\nBye'] it yields [He said hi Bye]. *)
Theorem prompt_assembly_sanitizes_context :
  (forall query context,
      generate_rag_prompt query context =
      prompt_head +:+ query +:+ prompt_middle +:+ escape_context context +:+ prompt_tail)
  /\ (forall context,
      escape_context context =
      string_of_list_ascii (flat_map escape_char (list_ascii_of_string context)))
  /\ (forall context,
      PyStr.contains "039" (escape_context context) = false
      /\ PyStr.contains "034" (escape_context context) = false
      /\ PyStr.contains "010" (escape_context context) = false)
  /\ escape_context ("He said " +:+ PyStr.dquote +:+ "hi" +:+ PyStr.dquote +:+ PyStr.nl
                     +:+ "Bye" +:+ PyStr.squote) = "He said hi Bye"
  /\ generate_rag_prompt "What is X?"
       ("He said " +:+ PyStr.dquote +:+ "hi" +:+ PyStr.dquote +:+ PyStr.nl
        +:+ "Bye" +:+ PyStr.squote)
     = prompt_head +:+ "What is X?" +:+ prompt_middle +:+ "He said hi Bye" +:+ prompt_tail.
Proof.
  split; [reflexivity|].
  split; [exact escape_context_chars|].
  split.
  - intros context. rewrite escape_context_chars.
    repeat split; apply escape_chars_clean; auto.
  - split; reflexivity.
Qed.

(** *** [splitext] on ordinary file names *)

Lemma app_cons (x : ascii) (a b : string) : String x a +:+ b = String x (a +:+ b).
Proof. reflexivity. Qed.

Lemma app_empty (b : string) : EmptyString +:+ b = b.
Proof. reflexivity. Qed.

Lemma len_cons (x : ascii) (a : string) : PyStr.len (String x a) = 1 + PyStr.len a.
Proof. unfold PyStr.len. change (String.length (String x a)) with (S (String.length a)). lia. Qed.

Lemma len_app (a b : string) : PyStr.len (a +:+ b) = PyStr.len a + PyStr.len b.
Proof.
  induction a as [|c a IH]; [reflexivity|].
  rewrite app_cons, !len_cons, IH. lia.
Qed.

Lemma len_nonneg (a : string) : 0 <= PyStr.len a.
Proof. unfold PyStr.len. lia. Qed.

Lemma str_app_assoc (a b c : string) : (a +:+ b) +:+ c = a +:+ b +:+ c.
Proof.
  induction a as [|x a IH]; [reflexivity|].
  rewrite !app_cons. f_equal. exact IH.
Qed.

Lemma contains_app (c : ascii) (a b : string) :
  PyStr.contains c (a +:+ b) = PyStr.contains c a || PyStr.contains c b.
Proof.
  induction a as [|x a IH]; [reflexivity|].
  rewrite app_cons. cbn [PyStr.contains]. rewrite IH. by rewrite orb_assoc.
Qed.

Lemma rfind_from_app (c : ascii) (s1 s2 : string) :
  forall i acc,
    PyStr.rfind_from c (s1 +:+ s2) i acc
    = PyStr.rfind_from c s2 (i + PyStr.len s1) (PyStr.rfind_from c s1 i acc).
Proof.
  induction s1 as [|a s1 IH]; intros i acc.
  - rewrite app_empty. cbn [PyStr.rfind_from]. f_equal. unfold PyStr.len. cbn. lia.
  - rewrite app_cons. cbn [PyStr.rfind_from]. rewrite IH, len_cons. f_equal. lia.
Qed.

Lemma rfind_from_absent (c : ascii) (s : string) :
  PyStr.contains c s = false ->
  forall i acc, PyStr.rfind_from c s i acc = acc.
Proof.
  induction s as [|a s IH]; intros Hc i acc; [reflexivity|].
  cbn [PyStr.contains PyStr.rfind_from] in *. apply orb_false_iff in Hc as [Ha Hs].
  rewrite Ha. by apply IH.
Qed.

Lemma take_app (a b : string) : PyStr.take (String.length a) (a +:+ b) = a.
Proof.
  induction a as [|x a IH]; [by destruct b|].
  rewrite app_cons. cbn [String.length PyStr.take]. f_equal. exact IH.
Qed.

Lemma drop_app (a b : string) : PyStr.drop (String.length a) (a +:+ b) = b.
Proof.
  induction a as [|x a IH]; [reflexivity|].
  rewrite app_cons. cbn [String.length PyStr.drop]. exact IH.
Qed.

Lemma substring_one (pre : string) (c : ascii) (rest : string) :
  String.substring (String.length pre) 1 (pre +:+ String c rest) = String c EmptyString.
Proof.
  induction pre as [|x pre IH].
  - rewrite app_empty. cbn. by destruct rest.
  - rewrite app_cons. cbn [String.length String.substring]. exact IH.
Qed.

Lemma slice_one (pre : string) (c : ascii) (rest : string) :
  PyStr.slice (pre +:+ String c rest) (PyStr.len pre) (PyStr.len pre + 1)
  = String c EmptyString.
Proof.
  unfold PyStr.slice.
  destruct (Z.leb_spec (PyStr.len pre + 1) (PyStr.len pre)) as [?|_]; [lia|].
  rewrite len_app, len_cons.
  pose proof (len_nonneg rest). pose proof (len_nonneg pre).
  rewrite !Z.min_l by lia.
  replace (PyStr.len pre + 1 - PyStr.len pre) with 1 by lia.
  unfold PyStr.len. rewrite Nat2Z.id. change (Z.to_nat 1) with 1%nat.
  apply substring_one.
Qed.

(** A path [pre + name + "." + e] where [pre] is empty or ends with a
    slash, [name] starts with a character other than a dot and has no
    slash, and [e] has neither dot nor slash, is split before the last dot. *)
Lemma splitext_ordinary (pre : string) (c : ascii) (rest e : string) :
  PyStr.rfind "/" pre = PyStr.len pre - 1 ->
  c <> "."%char ->
  PyStr.contains "/" (String c rest) = false ->
  PyStr.contains "." e = false ->
  PyStr.contains "/" e = false ->
  OsPath.splitext (pre +:+ String c rest +:+ "." +:+ e)
  = (pre +:+ String c rest, "." +:+ e).
Proof.
  intros Hpre Hc Hname Hdot Hsl. unfold OsPath.splitext.
  set (name := String c rest) in *.
  assert (Hsep : PyStr.rfind "/" (pre +:+ name +:+ "." +:+ e) = PyStr.len pre - 1).
  { unfold PyStr.rfind in *. rewrite rfind_from_app, Hpre.
    apply rfind_from_absent. rewrite !contains_app, Hname, Hsl. reflexivity. }
  assert (Hd : PyStr.rfind "." (pre +:+ name +:+ "." +:+ e)
               = PyStr.len pre + PyStr.len name).
  { unfold PyStr.rfind. rewrite <- str_app_assoc, rfind_from_app.
    rewrite app_cons. cbn [PyStr.rfind_from]. rewrite Ascii.eqb_refl.
    rewrite rfind_from_absent by exact Hdot. rewrite len_app. lia. }
  rewrite Hsep, Hd.
  pose proof (len_nonneg pre). pose proof (len_nonneg name).
  destruct (Z.ltb_spec (PyStr.len pre - 1) (PyStr.len pre + PyStr.len name)) as [_|?]; [|lia].
  replace (PyStr.len pre - 1 + 1) with (PyStr.len pre) by lia.
  replace (Z.to_nat (PyStr.len pre + PyStr.len name - PyStr.len pre))
    with (S (String.length rest)).
  2:{ replace (PyStr.len pre + PyStr.len name - PyStr.len pre) with (PyStr.len name) by lia.
      unfold PyStr.len. by rewrite Nat2Z.id. }
  cbn [OsPath.has_non_dot andb].
  assert (Hs : PyStr.slice (pre +:+ name +:+ "." +:+ e) (PyStr.len pre) (PyStr.len pre + 1)
               = String c EmptyString)
    by apply (slice_one pre c (rest +:+ "." +:+ e)).
  rewrite Hs.
  assert (Hne : String.eqb (String c EmptyString) "." = false).
  { apply String.eqb_neq. congruence. }
  rewrite Hne. cbn [negb].
  rewrite <- len_app. unfold PyStr.len. rewrite Nat2Z.id.
  rewrite <- str_app_assoc. by rewrite take_app, drop_app.
Qed.

Lemma lower_app (a b : string) : PyStr.lower (a +:+ b) = PyStr.lower a +:+ PyStr.lower b.
Proof.
  induction a as [|x a IH]; [reflexivity|].
  rewrite app_cons. cbn [PyStr.lower]. rewrite app_cons. f_equal. exact IH.
Qed.

(** For such a path the extension seen by the dispatcher is the dot
    followed by the lower-cased [e]. *)
Lemma extension_of_ordinary (pre : string) (c : ascii) (rest e : string) :
  PyStr.rfind "/" pre = PyStr.len pre - 1 ->
  c <> "."%char ->
  PyStr.contains "/" (String c rest) = false ->
  PyStr.contains "." e = false ->
  PyStr.contains "/" e = false ->
  extension_of (pre +:+ String c rest +:+ "." +:+ e) = "." +:+ PyStr.lower e.
Proof.
  intros. unfold extension_of. rewrite splitext_ordinary by assumption.
  cbn [snd]. by rewrite lower_app.
Qed.

Example extension_of_report :
  extension_of ("uploads/" +:+ "Report.final" +:+ "." +:+ "PDF") = ".pdf".
Proof.
  rewrite (extension_of_ordinary "uploads/" "R" "eport.final" "PDF");
    [reflexivity..|discriminate|reflexivity|reflexivity|reflexivity].
Qed.

(** ** Start-up configuration *)

Lemma truthy_false (v : option string) :
  truthy v = false <-> v = None \/ v = Some EmptyString.
Proof.
  destruct v as [[|c s]|]; simpl; split; intros H; auto; try discriminate.
  - destruct H as [H|H]; discriminate.
Qed.

Lemma truthy_true (v : option string) :
  truthy v = true <-> exists s, v = Some s /\ s <> EmptyString.
Proof.
  destruct v as [[|c s]|]; simpl; split; intros H; try discriminate.
  - destruct H as (s & [= <-] & Hs). congruence.
  - exists (String c s). split; [reflexivity|discriminate].
  - reflexivity.
  - destruct H as (s & Hs & _). discriminate.
Qed.

Lemma load_config_ok (env : gmap string string) :
  truthy (env !! "GEMINI_API_KEY") = true ->
  truthy (env !! "GCS_BUCKET_NAME") = true ->
  truthy (env !! "DATABASE_URL") = true ->
  load_config env =
  Ok {| GEMINI_API_KEY := default EmptyString (env !! "GEMINI_API_KEY");
        BUCKET_NAME := default EmptyString (env !! "GCS_BUCKET_NAME");
        DB_CONNECTION := default EmptyString (env !! "DATABASE_URL") |}.
Proof.
  intros Hk Hb Hd. unfold load_config, py_all. simpl forallb.
  rewrite Hk, Hb, Hd. reflexivity.
Qed.

Lemma load_config_raise (env : gmap string string) (k : string) :
  k ∈ required_keys ->
  truthy (env !! k) = false ->
  load_config env = Raise (ValueError "Missing required environment variables").
Proof.
  intros Hin Hk. unfold load_config, py_all. simpl forallb.
  unfold required_keys in Hin.
  rewrite !elem_of_cons, elem_of_nil in Hin.
  destruct Hin as [->|[->|[->|[]]]]; rewrite Hk;
    rewrite ?andb_false_r; reflexivity.
Qed.

(** C8 (as stated, refuted).  All three variables are present in the
    environment, [GEMINI_API_KEY] with the empty string as its value, and
    the configuration check raises. *)
Lemma startup_present_but_empty_counterexample :
  is_Some (Demo.env_empty_key !! "GEMINI_API_KEY")
  /\ is_Some (Demo.env_empty_key !! "GCS_BUCKET_NAME")
  /\ is_Some (Demo.env_empty_key !! "DATABASE_URL")
  /\ load_config Demo.env_empty_key
     = Raise (ValueError "Missing required environment variables").
Proof.
  repeat split; try (vm_compute; eexists; reflexivity).
Qed.

(** C8 (amended).  The configuration check raises when one of the API
    key, the bucket name and the connection string is absent from the
    environment or set to the empty string, and then no request is served:
    every request ends with that error, no call made and nothing changed.
    When all three are set to non-empty values the check passes and
    yields these values. *)
Theorem startup_requires_nonempty_configuration (env : gmap string string) :
  (forall k, k ∈ required_keys ->
       env !! k = None \/ env !! k = Some EmptyString ->
       load_config env = Raise (ValueError "Missing required environment variables")
       /\ forall E (X : Collaborators E) req w,
           run X env req w
           = (Raise (ValueError "Missing required environment variables"), w))
  /\ ((forall k, k ∈ required_keys -> exists v, env !! k = Some v /\ v <> EmptyString) ->
      exists cfg, load_config env = Ok cfg
        /\ env !! "GEMINI_API_KEY" = Some (GEMINI_API_KEY cfg)
        /\ env !! "GCS_BUCKET_NAME" = Some (BUCKET_NAME cfg)
        /\ env !! "DATABASE_URL" = Some (DB_CONNECTION cfg)
        /\ forall E (X : Collaborators E) req w,
            run X env req w = handle X cfg env req w).
Proof.
  split.
  - intros k Hin Hk.
    assert (Hraise : load_config env
                     = Raise (ValueError "Missing required environment variables")).
    { apply (load_config_raise env k Hin). by apply truthy_false. }
    split; [exact Hraise|]. intros E X req w. unfold run. by rewrite Hraise.
  - intros Hall.
    assert (Hk : "GEMINI_API_KEY" ∈ required_keys) by (unfold required_keys; repeat constructor).
    assert (Hb : "GCS_BUCKET_NAME" ∈ required_keys) by (unfold required_keys; repeat constructor).
    assert (Hd : "DATABASE_URL" ∈ required_keys) by (unfold required_keys; repeat constructor).
    apply Hall in Hk as (vk & Ek & Nk).
    apply Hall in Hb as (vb & Eb & Nb).
    apply Hall in Hd as (vd & Ed & Nd).
    assert (Hok := load_config_ok env).
    rewrite !truthy_true in Hok.
    specialize (Hok (ex_intro _ vk (conj Ek Nk)) (ex_intro _ vb (conj Eb Nb))
                    (ex_intro _ vd (conj Ed Nd))).
    eexists. split; [exact Hok|].
    rewrite Ek, Eb, Ed. cbn. repeat split.
    intros E X req w. unfold run. rewrite Hok. by rewrite Ek, Eb, Ed.
Qed.

(** Both halves of the amended statement on concrete environments. *)
Lemma startup_requires_nonempty_configuration_witness :
  load_config (delete "DATABASE_URL" Demo.env)
  = Raise (ValueError "Missing required environment variables")
  /\ exists cfg, load_config Demo.env = Ok cfg
       /\ Demo.env !! "DATABASE_URL" = Some (DB_CONNECTION cfg).
Proof.
  split.
  - apply (proj1 (startup_requires_nonempty_configuration _) "DATABASE_URL").
    + unfold required_keys. repeat constructor.
    + left. vm_compute. reflexivity.
  - destruct (proj2 (startup_requires_nonempty_configuration Demo.env))
      as (cfg & H1 & _ & _ & H4 & _).
    + intros k Hk. unfold required_keys in Hk.
      rewrite !elem_of_cons, elem_of_nil in Hk.
      destruct Hk as [->|[->|[->|[]]]]; vm_compute; eexists; split; try reflexivity; discriminate.
    + exists cfg. auto.
Defined.

(** ** The connection string and [DATABASE_URL] *)

Section Environment.

Context {E : Type} (X : Collaborators E).

(** The vector-store handle is a function of the five [DB_*] variables. *)
Lemma initialize_vectorstore_db_keys (env1 env2 : gmap string string) :
  (forall k, k ∈ db_keys -> env1 !! k = env2 !! k) ->
  forall w, initialize_vectorstore X env1 w = initialize_vectorstore X env2 w.
Proof.
  intros Hagree w.
  assert (Hget : forall k d, k ∈ db_keys ->
                             getenv_default env1 k d = getenv_default env2 k d).
  { intros k d Hk. unfold getenv_default. by rewrite (Hagree k Hk). }
  unfold initialize_vectorstore, db_port.
  rewrite (Hagree "DB_PORT") by (unfold db_keys; repeat constructor).
  rewrite !(Hget "DB_HOST"), !(Hget "DB_NAME"), !(Hget "DB_USER"), !(Hget "DB_PASSWORD")
    by (unfold db_keys; repeat constructor).
  reflexivity.
Qed.

Lemma upload_one_bucket (cfg1 cfg2 : Config) vs file ext acc w :
  BUCKET_NAME cfg1 = BUCKET_NAME cfg2 ->
  upload_one X cfg1 vs file ext acc w = upload_one X cfg2 vs file ext acc w.
Proof.
  intros Hb. unfold upload_one, upload_to_gcs. rewrite Hb. reflexivity.
Qed.

Lemma upload_loop_bucket (cfg1 cfg2 : Config) vs files :
  BUCKET_NAME cfg1 = BUCKET_NAME cfg2 ->
  forall acc w,
    upload_loop X cfg1 vs files acc w = upload_loop X cfg2 vs files acc w.
Proof.
  intros Hb. induction files as [|file rest IH]; intros acc w; [reflexivity|].
  cbn [upload_loop].
  destruct (SUPPORTED_FORMATS !! extension_of (filename file)); [|apply IH].
  unfold bind. rewrite (upload_one_bucket cfg1 cfg2) by exact Hb.
  destruct (upload_one X cfg2 vs file _ acc w) as [[acc'|e] w']; [apply IH|reflexivity].
Qed.

Lemma upload_files_env (cfg1 cfg2 : Config) (env1 env2 : gmap string string) files w :
  BUCKET_NAME cfg1 = BUCKET_NAME cfg2 ->
  (forall k, k ∈ db_keys -> env1 !! k = env2 !! k) ->
  upload_files X cfg1 env1 files w = upload_files X cfg2 env2 files w.
Proof.
  intros Hb Hagree. unfold upload_files, bind.
  rewrite (initialize_vectorstore_db_keys env1 env2 Hagree).
  destruct (initialize_vectorstore X env2 w) as [[vs|e] w1]; [|reflexivity].
  unfold try_except, bind.
  rewrite (upload_loop_bucket cfg1 cfg2 vs files Hb). reflexivity.
Qed.

Lemma ask_question_env (env1 env2 : gmap string string) q w :
  (forall k, k ∈ db_keys -> env1 !! k = env2 !! k) ->
  ask_question X env1 q w = ask_question X env2 q w.
Proof.
  intros Hagree. unfold ask_question, try_except, bind.
  rewrite (initialize_vectorstore_db_keys env1 env2 Hagree). reflexivity.
Qed.

(** C9.  Two processes whose environments differ only in the value of
    [DATABASE_URL], non-empty in both, build the same vector-store handle
    and answer every request alike: same result, same calls to the
    collaborators, same final state.  The handle is determined by the
    five [DB_*] variables. *)
Theorem database_url_does_not_influence_requests
    (env1 env2 : gmap string string) :
  (forall k, k <> "DATABASE_URL" -> env1 !! k = env2 !! k) ->
  truthy (env1 !! "DATABASE_URL") = true ->
  truthy (env2 !! "DATABASE_URL") = true ->
  (forall w, initialize_vectorstore X env1 w = initialize_vectorstore X env2 w)
  /\ (forall req w, run X env1 req w = run X env2 req w).
Proof.
  intros Hagree H1 H2.
  assert (Hdb : forall k, k ∈ db_keys -> env1 !! k = env2 !! k).
  { intros k Hk. apply Hagree. unfold db_keys in Hk.
    rewrite !elem_of_cons, elem_of_nil in Hk.
    destruct Hk as [->|[->|[->|[->|[->|[]]]]]]; discriminate. }
  split; [apply initialize_vectorstore_db_keys, Hdb|].
  intros req w. unfold run.
  destruct (truthy (env1 !! "GEMINI_API_KEY")) eqn:Hk1.
  2:{ rewrite (load_config_raise env1 "GEMINI_API_KEY"), (load_config_raise env2 "GEMINI_API_KEY");
        try (unfold required_keys; repeat constructor); auto.
      rewrite <- Hagree by discriminate. exact Hk1. }
  destruct (truthy (env1 !! "GCS_BUCKET_NAME")) eqn:Hb1.
  2:{ rewrite (load_config_raise env1 "GCS_BUCKET_NAME"), (load_config_raise env2 "GCS_BUCKET_NAME");
        try (unfold required_keys; repeat constructor); auto.
      rewrite <- Hagree by discriminate. exact Hb1. }
  rewrite (load_config_ok env1), (load_config_ok env2); auto.
  2,3: rewrite <- Hagree by discriminate; assumption.
  destruct req as [|files|q]; cbn [handle]; [reflexivity| |].
  - unfold bind.
    rewrite (upload_files_env _
               {| GEMINI_API_KEY := default EmptyString (env2 !! "GEMINI_API_KEY");
                  BUCKET_NAME := default EmptyString (env2 !! "GCS_BUCKET_NAME");
                  DB_CONNECTION := default EmptyString (env2 !! "DATABASE_URL") |}
               env1 env2); auto.
    cbn [BUCKET_NAME]. rewrite Hagree by discriminate. reflexivity.
  - unfold bind. rewrite (ask_question_env env1 env2); auto.
Qed.

End Environment.

(** The theorem on two concrete environments and an upload request. *)
Lemma database_url_does_not_influence_requests_witness :
  run (Demo.collaborators []) Demo.env (PostUpload [Demo.notes; Demo.picture]) Demo.w0
  = run (Demo.collaborators []) Demo.env_other_url
        (PostUpload [Demo.notes; Demo.picture]) Demo.w0.
Proof.
  refine (proj2 (database_url_does_not_influence_requests
                   (Demo.collaborators []) Demo.env Demo.env_other_url _ _ _) _ _).
  - intros k Hk. unfold Demo.env_other_url. by rewrite lookup_insert_ne.
  - vm_compute. reflexivity.
  - vm_compute. reflexivity.
Defined.

(** ** The monad: inversion and trace discipline *)

Section Monad.

Context {E : Type}.

Lemma bind_Ok_inv {A B} (m : M E A) (k : A -> M E B) w b w' :
  bind m k w = (Ok b, w') ->
  exists a w1, m w = (Ok a, w1) /\ k a w1 = (Ok b, w').
Proof.
  unfold bind. destruct (m w) as [[a|e] w1]; [eauto|discriminate].
Qed.

Lemma try_except_Ok_inv {A} (m : M E A) (f : exn -> exn) w a w' :
  try_except m (fun e => raise (f e)) w = (Ok a, w') -> m w = (Ok a, w').
Proof.
  unfold try_except, raise. destruct (m w) as [[a0|e] w1]; [auto|discriminate].
Qed.

Lemma abandoned_nil b : abandoned_at_failure b [].
Proof. destruct b; constructor. Qed.

Lemma abandoned_app b new1 new2 :
  Forall ok_event new1 -> abandoned_at_failure b new2 ->
  abandoned_at_failure b (new1 ++ new2).
Proof.
  intros H1 H2. destruct b; cbn in *.
  - by apply Forall_app.
  - destruct new2 as [|ev new2].
    + rewrite app_nil_r. clear H2.
      induction H1 as [|x l Hx Hl IH]; [constructor|].
      destruct l; [constructor|]. cbn [removelast]. constructor; auto.
    + rewrite removelast_app by discriminate. by apply Forall_app.
Qed.

Lemma disciplined_ret {A} (a : A) : disciplined (E:=E) (ret a).
Proof.
  intros w r w' [= <- <-]. exists []. rewrite app_nil_r. split; [done|constructor].
Qed.

Lemma disciplined_raise {A} (e : exn) : disciplined (E:=E) (A:=A) (raise e).
Proof.
  intros w r w' [= <- <-]. exists []. rewrite app_nil_r. split; [done|constructor].
Qed.

Lemma disciplined_lift_result {A} (x : result A) : disciplined (E:=E) (lift_result x).
Proof.
  intros w r w' [= <- <-]. exists []. rewrite app_nil_r. split; [done|apply abandoned_nil].
Qed.

Lemma disciplined_ext_call {A} c (f : E -> result A * E) : disciplined (ext_call c f).
Proof.
  intros w r w'. unfold ext_call. destruct (f (w_ext w)) as [r0 e'].
  intros [= <- <-]. eexists. split; [reflexivity|].
  destruct r0; cbn; repeat constructor.
Qed.

Lemma disciplined_ext_pure {A} (f : E -> A * E) : disciplined (ext_pure f).
Proof.
  intros w r w'. unfold ext_pure. destruct (f (w_ext w)) as [a e'].
  intros [= <- <-]. exists []. cbn. rewrite app_nil_r. split; [done|constructor].
Qed.

Lemma disciplined_fs_create path : disciplined (E:=E) (fs_create path).
Proof.
  intros w r w' [= <- <-]. exists []. cbn. rewrite app_nil_r. split; [done|constructor].
Qed.

Lemma disciplined_os_unlink path : disciplined (E:=E) (os_unlink path).
Proof.
  intros w r w'. unfold os_unlink. destruct (decide (path ∈ w_files w));
    intros [= <- <-]; eexists; (split; [reflexivity|]); cbn; repeat constructor.
Qed.

Lemma disciplined_bind {A B} (m : M E A) (k : A -> M E B) :
  disciplined m -> (forall a, disciplined (k a)) -> disciplined (bind m k).
Proof.
  intros Hm Hk w r w'. unfold bind.
  destruct (m w) as [[a|e] w1] eqn:Em.
  - intros Ek.
    destruct (Hm _ _ _ Em) as (new1 & T1 & A1).
    destruct (Hk a _ _ _ Ek) as (new2 & T2 & A2).
    exists (new1 ++ new2)%list. split.
    + rewrite T2, T1. by rewrite app_assoc.
    + apply abandoned_app; assumption.
  - intros [= <- <-]. exact (Hm _ _ _ Em).
Qed.

Lemma disciplined_try_except {A} (m : M E A) (f : exn -> exn) :
  disciplined m -> disciplined (try_except m (fun e => raise (f e))).
Proof.
  intros Hm w r w'. unfold try_except, raise.
  destruct (m w) as [[a|e] w1] eqn:Em; intros [= <- <-]; exact (Hm _ _ _ Em).
Qed.

Lemma keeps_files_ret {A} (a : A) : keeps_files (E:=E) (ret a).
Proof. by intros w r w' [= <- <-]. Qed.

Lemma keeps_files_raise {A} (e : exn) : keeps_files (E:=E) (A:=A) (raise e).
Proof. by intros w r w' [= <- <-]. Qed.

Lemma keeps_files_lift_result {A} (x : result A) : keeps_files (E:=E) (lift_result x).
Proof. by intros w r w' [= <- <-]. Qed.

Lemma keeps_files_ext_call {A} c (f : E -> result A * E) : keeps_files (ext_call c f).
Proof.
  intros w r w'. unfold ext_call. destruct (f (w_ext w)). by intros [= <- <-].
Qed.

Lemma keeps_files_ext_pure {A} (f : E -> A * E) : keeps_files (ext_pure f).
Proof.
  intros w r w'. unfold ext_pure. destruct (f (w_ext w)). by intros [= <- <-].
Qed.

Lemma keeps_files_bind {A B} (m : M E A) (k : A -> M E B) :
  keeps_files m -> (forall a, keeps_files (k a)) -> keeps_files (bind m k).
Proof.
  intros Hm Hk w r w'. unfold bind.
  destruct (m w) as [[a|e] w1] eqn:Em.
  - intros Ek. rewrite (Hk a _ _ _ Ek). exact (Hm _ _ _ Em).
  - intros [= <- <-]. exact (Hm _ _ _ Em).
Qed.

Lemma keeps_files_try_except {A} (m : M E A) (f : exn -> exn) :
  keeps_files m -> keeps_files (try_except m (fun e => raise (f e))).
Proof.
  intros Hm w r w'. unfold try_except, raise.
  destruct (m w) as [[a|e] w1] eqn:Em; intros [= <- <-]; exact (Hm _ _ _ Em).
Qed.

End Monad.

Create HintDb discipline.
#[export] Hint Resolve disciplined_ret disciplined_raise disciplined_lift_result
  disciplined_ext_call disciplined_ext_pure disciplined_fs_create
  disciplined_os_unlink disciplined_bind disciplined_try_except : discipline.

Create HintDb files.
#[export] Hint Resolve keeps_files_ret keeps_files_raise keeps_files_lift_result
  keeps_files_ext_call keeps_files_ext_pure keeps_files_bind
  keeps_files_try_except : files.

Ltac discipline := repeat (intros; auto with discipline; apply disciplined_bind).
Ltac files := repeat (intros; auto with files; apply keeps_files_bind).

Section PipelineFacts.

Context {E : Type} (X : Collaborators E).
Variable cfg : Config.
Variable env : gmap string string.

Lemma disciplined_initialize_vectorstore : disciplined (initialize_vectorstore X env).
Proof. unfold initialize_vectorstore. discipline. Qed.

Lemma disciplined_process_file path vs : disciplined (process_file X path vs).
Proof. unfold process_file. apply disciplined_try_except. discipline. Qed.

Lemma disciplined_upload_one vs file ext acc :
  disciplined (upload_one X cfg vs file ext acc).
Proof.
  unfold upload_one, upload_to_gcs.
  pose proof disciplined_process_file. discipline.
Qed.

Lemma disciplined_upload_loop vs files :
  forall acc, disciplined (upload_loop X cfg vs files acc).
Proof.
  induction files as [|file rest IH]; intros acc; cbn [upload_loop].
  - apply disciplined_ret.
  - destruct (SUPPORTED_FORMATS !! extension_of (filename file)); [|apply IH].
    apply disciplined_bind; [apply disciplined_upload_one|auto].
Qed.

Lemma keeps_files_initialize_vectorstore : keeps_files (initialize_vectorstore X env).
Proof. unfold initialize_vectorstore. files. Qed.

Lemma keeps_files_process_file path vs : keeps_files (process_file X path vs).
Proof. unfold process_file. apply keeps_files_try_except. files. Qed.

(** *** Inversion of the primitive steps *)

Lemma ext_call_inv {A} c (f : E -> result A * E) w r w' :
  ext_call c f w = (r, w') ->
  exists e', f (w_ext w) = (r, e')
             /\ w' = World (w_files w) (w_trace w ++ [(c, is_ok r)]) e'.
Proof.
  unfold ext_call. destruct (f (w_ext w)) as [r0 e'].
  intros [= <- <-]. eauto.
Qed.

Lemma ext_pure_inv {A} (f : E -> A * E) w a w' :
  ext_pure f w = (Ok a, w') ->
  exists e', f (w_ext w) = (a, e') /\ w' = World (w_files w) (w_trace w) e'.
Proof.
  unfold ext_pure. destruct (f (w_ext w)) as [a0 e'].
  intros [= <- <-]. eauto.
Qed.

Lemma os_unlink_Ok_inv path (w : world E) u w' :
  os_unlink path w = (Ok u, w') ->
  w' = World (w_files w ∖ {[path]}) (w_trace w ++ [(CallUnlink path, true)]) (w_ext w).
Proof.
  unfold os_unlink. destruct (decide (path ∈ w_files w)); [|discriminate].
  by intros [= <- <-].
Qed.

Lemma add_requests_app tr1 tr2 :
  add_requests (tr1 ++ tr2) = (add_requests tr1 ++ add_requests tr2)%list.
Proof.
  induction tr1 as [|[c b] tr1 IH]; [reflexivity|].
  destruct c, b; cbn; rewrite ?IH; reflexivity.
Qed.

Lemma search_requests_app tr1 tr2 :
  search_requests (tr1 ++ tr2) = (search_requests tr1 ++ search_requests tr2)%list.
Proof.
  induction tr1 as [|[c b] tr1 IH]; [reflexivity|].
  destruct c; cbn; rewrite ?IH; reflexivity.
Qed.

Lemma generate_requests_app tr1 tr2 :
  generate_requests (tr1 ++ tr2) = (generate_requests tr1 ++ generate_requests tr2)%list.
Proof.
  induction tr1 as [|[c b] tr1 IH]; [reflexivity|].
  destruct c; cbn; rewrite ?IH; reflexivity.
Qed.

(** *** What a successful [process_file] did *)

Lemma process_file_Ok path vs w n w' :
  process_file X path vs w = (Ok n, w') ->
  exists cls (docs : list Document) b1 b2,
    get_file_loader path = Ok cls
    /\ n = Z.of_nat (length docs)
    /\ w_files w' = w_files w
    /\ w_trace w' = (w_trace w ++ [(CallLoad cls path, b1); (CallSplit 1000 200, b2);
                                   (CallAddDocuments vs (length docs), true)])%list.
Proof.
  unfold process_file. intros H. apply try_except_Ok_inv in H.
  apply bind_Ok_inv in H as (cls & w1 & H1 & H).
  apply bind_Ok_inv in H as (documents & w2 & H2 & H).
  apply bind_Ok_inv in H as (docs & w3 & H3 & H).
  apply bind_Ok_inv in H as ([] & w4 & H4 & H).
  injection H as <- <-.
  injection H1 as H1 <-.
  apply ext_call_inv in H2 as (e2 & _ & ->).
  apply ext_call_inv in H3 as (e3 & _ & ->).
  apply ext_call_inv in H4 as (e4 & _ & ->).
  exists cls, docs, true, true. cbn. rewrite <- !app_assoc. auto.
Qed.

(** *** What a successful loop body did *)

Lemma upload_one_Ok vs file ext acc w acc' w' :
  upload_one X cfg vs file ext acc w = (Ok acc', w') ->
  exists (n : nat) url new,
    acc' = (fst acc + Z.of_nat n,
            (snd acc ++ [{| pf_filename := filename file;
                            chunks_created := Z.of_nat n;
                            gcs_url := url |}])%list)
    /\ w_trace w' = (w_trace w ++ new)%list
    /\ add_requests new = [n]
    /\ w_files w' ⊆ w_files w.
Proof.
  unfold upload_one, upload_to_gcs. intros H.
  apply bind_Ok_inv in H as (content & w1 & H1 & H).
  apply bind_Ok_inv in H as (base & w2 & H2 & H).
  apply bind_Ok_inv in H as ([] & w3 & H3 & H).
  apply bind_Ok_inv in H as ([] & w4 & H4 & H).
  apply bind_Ok_inv in H as (uuid & w5 & H5 & H).
  apply bind_Ok_inv in H as (url & w6 & H6 & H).
  apply bind_Ok_inv in H as (num & w7 & H7 & H).
  apply bind_Ok_inv in H as ([] & w8 & H8 & H).
  injection H as <- <-.
  apply ext_call_inv in H1 as (e1 & _ & ->).
  apply ext_call_inv in H2 as (e2 & _ & ->).
  injection H3 as <-.
  apply ext_call_inv in H4 as (e4 & _ & ->).
  apply ext_pure_inv in H5 as (e5 & _ & ->).
  apply ext_call_inv in H6 as (e6 & _ & ->).
  apply process_file_Ok in H7 as (cls & docs & b1 & b2 & _ & -> & F7 & T7).
  apply os_unlink_Ok_inv in H8 as ->.
  cbn in *. exists (length docs), url. eexists. split; [reflexivity|].
  rewrite T7, F7. rewrite <- !app_assoc. split; [reflexivity|].
  split; [reflexivity|].
  intros x. rewrite elem_of_difference, elem_of_union, elem_of_singleton. tauto.
Qed.

Lemma upload_loop_Ok vs files :
  forall acc w acc' w',
    upload_loop X cfg vs files acc w = (Ok acc', w') ->
    exists entries new,
      snd acc' = (snd acc ++ entries)%list
      /\ fst acc' = fst acc + py_sum (map chunks_created entries)
      /\ map pf_filename entries = map filename (List.filter supported files)
      /\ w_trace w' = (w_trace w ++ new)%list
      /\ map chunks_created entries = map Z.of_nat (add_requests new)
      /\ w_files w' ⊆ w_files w.
Proof.
  induction files as [|file rest IH]; intros acc w acc' w' H; cbn [upload_loop] in H.
  - injection H as <- <-. exists [], []. rewrite !app_nil_r. cbn.
    repeat split; auto; lia.
  - cbn [List.filter]. unfold supported at 1.
    destruct (SUPPORTED_FORMATS !! extension_of (filename file)) as [cls|] eqn:Hext.
    + rewrite bool_decide_eq_true_2 by eauto.
      apply bind_Ok_inv in H as (acc1 & w1 & H1 & H).
      apply upload_one_Ok in H1 as (n & url & new1 & -> & T1 & A1 & F1).
      apply IH in H as (entries & new & Hs & Hf & Hn & T & A & F).
      cbn [fst snd] in Hs, Hf.
      eexists (_ :: entries), (new1 ++ new)%list.
      rewrite Hs, Hf, T, T1, add_requests_app, A1, <- !app_assoc.
      cbn [map app chunks_created pf_filename py_sum foldr].
      rewrite Hn, A. fold (py_sum (map Z.of_nat (add_requests new))).
      repeat split; auto; [cbn [chunks_created]; lia|by etrans].
    + rewrite bool_decide_eq_false_2 by (intros [? ?]; discriminate).
      apply IH in H. exact H.
Qed.

End PipelineFacts.

(** ** The upload endpoint *)

Section Upload.

Context {E : Type} (X : Collaborators E).
Variable cfg : Config.
Variable env : gmap string string.

Lemma upload_files_Ok files w resp w' :
  upload_files X cfg env files w = (Ok resp, w') ->
  exists vs w1 acc,
    initialize_vectorstore X env w = (Ok vs, w1)
    /\ upload_loop X cfg vs files (0, []) w1 = (Ok acc, w')
    /\ resp = {| status := "success"; processed_files := snd acc; total_chunks := fst acc |}.
Proof.
  unfold upload_files. intros H.
  apply bind_Ok_inv in H as (vs & w1 & Hinit & H).
  apply try_except_Ok_inv in H.
  apply bind_Ok_inv in H as (acc & w2 & Hloop & H).
  injection H as <- <-. eauto 6.
Qed.

(** C4.  In the response of an upload request, [processed_files] has
    one entry per uploaded file with a supported extension, in upload
    order, and none for the others: its length is N when all N files are
    supported, and K when K of the files are supported.  [total_chunks]
    is the sum of the entries' [chunks_created], and these are the sizes
    of the batches stored by the vector store during the request. *)
Theorem upload_response_counts files w resp :
  fst (upload_files X cfg env files w) = Ok resp ->
  length (processed_files resp) = length (List.filter supported files)
  /\ map pf_filename (processed_files resp) = map filename (List.filter supported files)
  /\ total_chunks resp = py_sum (map chunks_created (processed_files resp))
  /\ (forallb supported files = true ->
      length (processed_files resp) = length files)
  /\ exists new,
      w_trace (snd (upload_files X cfg env files w))
      = (w_trace (snd (initialize_vectorstore X env w)) ++ new)%list
      /\ map chunks_created (processed_files resp) = map Z.of_nat (add_requests new).
Proof.
  destruct (upload_files X cfg env files w) as [r w'] eqn:Hrun.
  cbn [fst snd]. intros ->.
  apply upload_files_Ok in Hrun as (vs & w1 & acc & Hinit & Hloop & ->).
  apply upload_loop_Ok in Hloop as (entries & new & Hs & Hf & Hn & T & A & _).
  cbn [fst snd app] in Hs, Hf. cbn [processed_files total_chunks].
  rewrite Hinit, Hs, Hf. cbn [snd].
  assert (Hlen : length entries = length (List.filter supported files)).
  { rewrite <- (length_map pf_filename), Hn. apply length_map. }
  repeat split; auto.
  - intros Hall. rewrite Hlen. f_equal.
    clear -Hall. induction files as [|f l IH]; [reflexivity|].
    cbn in *. apply andb_prop in Hall as [Hf Hl]. rewrite Hf. f_equal. auto.
  - exists new. auto.
Qed.

End Upload.

(** Three files, one of them with an unsupported extension: two entries,
    with three and two chunks. *)
Lemma upload_response_counts_witness :
  length (processed_files
            {| status := "success";
               processed_files :=
                 [{| pf_filename := "notes.TXT"; chunks_created := 3;
                     gcs_url := "https://storage.googleapis.com/bucket/documents/uuid-1/notes.TXT" |};
                  {| pf_filename := "report.pdf"; chunks_created := 2;
                     gcs_url := "https://storage.googleapis.com/bucket/documents/uuid-3/report.pdf" |}];
               total_chunks := 5 |})
  = length (List.filter supported [Demo.notes; Demo.picture; Demo.report]).
Proof.
  refine (proj1 (upload_response_counts (Demo.collaborators []) Demo.cfg Demo.env
                   [Demo.notes; Demo.picture; Demo.report] Demo.w0 _ _)).
  vm_compute. reflexivity.
Defined.

Lemma failing_call_is_last (new : list event) (c : call) :
  Forall ok_event (removelast new) -> (c, false) ∈ new ->
  exists pre, new = (pre ++ [(c, false)])%list /\ Forall ok_event pre.
Proof.
  intros Hok Hin.
  destruct (decide (new = [])) as [->|Hne]; [by apply elem_of_nil in Hin|].
  pose proof (app_removelast_last (c, false) Hne) as Hsplit.
  rewrite Hsplit in Hin. apply elem_of_app in Hin as [Hin|Hin].
  - rewrite Forall_forall in Hok. apply Hok in Hin. discriminate.
  - apply list_elem_of_singleton in Hin.
    exists (removelast new). split; [|exact Hok].
    etrans; [exact Hsplit|]. by rewrite <- Hin.
Qed.

Section UploadFailure.

Context {E : Type} (X : Collaborators E).
Variable cfg : Config.
Variable env : gmap string string.

(** C2.  Once the vector-store handle is built, an upload request ends
    in one of two ways.  Either every call made for every file returned
    and the response is the success response listing every supported
    file; or the response is a single [HTTPException] with status 500
    whose detail is a message built from the exception.  A failing call
    (read, temporary file, write, blob upload, load, split, insertion,
    unlink) always gives the second outcome, and it is the last call of
    the request: nothing is called after it, for this file or the next
    ones, and the call is not made again. *)
Theorem upload_failure_aborts_batch files w :
  is_ok (fst (initialize_vectorstore X env w)) = true ->
  exists new,
    w_trace (snd (upload_files X cfg env files w))
    = (w_trace (snd (initialize_vectorstore X env w)) ++ new)%list
    /\ ((exists resp,
            fst (upload_files X cfg env files w) = Ok resp
            /\ status resp = "success"
            /\ map pf_filename (processed_files resp)
               = map filename (List.filter supported files)
            /\ Forall ok_event new)
        \/ (exists e,
            fst (upload_files X cfg env files w)
            = Raise (HTTPException 500 ("Error processing upload: " +:+ str_exn X e))
            /\ Forall ok_event (removelast new)))
    /\ (forall c, (c, false) ∈ new ->
          (exists e,
              fst (upload_files X cfg env files w)
              = Raise (HTTPException 500 ("Error processing upload: " +:+ str_exn X e)))
          /\ exists pre, new = (pre ++ [(c, false)])%list /\ Forall ok_event pre).
Proof.
  intros Hinit. unfold upload_files, bind.
  destruct (initialize_vectorstore X env w) as [[vs|e0] w1]; [clear Hinit|discriminate].
  cbn [snd]. unfold try_except, bind.
  destruct (upload_loop X cfg vs files (0, []) w1) as [[acc|e] w2] eqn:Hloop.
  - destruct (disciplined_upload_loop X cfg vs files _ _ _ _ Hloop) as (new & T & A).
    exists new. cbn [fst snd ret is_ok abandoned_at_failure] in *.
    split; [exact T|]. split.
    + left. eexists. split; [reflexivity|]. cbn [status processed_files].
      apply upload_loop_Ok in Hloop as (entries & new' & Hs & _ & Hn & _).
      cbn [snd app] in Hs. rewrite Hs. auto.
    + intros c Hc. rewrite Forall_forall in A. apply A in Hc. discriminate.
  - destruct (disciplined_upload_loop X cfg vs files _ _ _ _ Hloop) as (new & T & A).
    exists new. cbn [fst snd raise is_ok abandoned_at_failure] in *.
    split; [exact T|]. split.
    + right. eauto.
    + intros c Hc. split; [eauto|]. by apply failing_call_is_last.
Qed.

End UploadFailure.

(** Two files; text extraction of the first one fails.  The request ends
    with the 500 error, and the failed load is the last call made. *)
Lemma upload_failure_aborts_batch_witness :
  exists new,
    w_trace (snd (upload_files (Demo.collaborators [Demo.OpLoad]) Demo.cfg Demo.env
                    [Demo.notes; Demo.report] Demo.w0))
    = (w_trace (snd (initialize_vectorstore (Demo.collaborators [Demo.OpLoad]) Demo.env
                       Demo.w0)) ++ new)%list
    /\ exists e,
        fst (upload_files (Demo.collaborators [Demo.OpLoad]) Demo.cfg Demo.env
               [Demo.notes; Demo.report] Demo.w0)
        = Raise (HTTPException 500
                   ("Error processing upload: " +:+ str_exn (Demo.collaborators [Demo.OpLoad]) e)).
Proof.
  destruct (upload_failure_aborts_batch (Demo.collaborators [Demo.OpLoad]) Demo.cfg Demo.env
              [Demo.notes; Demo.report] Demo.w0) as (new & T & [S|F] & _).
  - vm_compute. reflexivity.
  - destruct S as (resp & S & _). vm_compute in S. discriminate.
  - exists new. split; [exact T|]. destruct F as (e & F & _). eauto.
Defined.

(** ** The format dispatcher and skipped files *)

Lemma supported_formats_lookup (ext : string) :
  (ext ∈ supported_extensions -> is_Some (SUPPORTED_FORMATS !! ext))
  /\ (ext ∉ supported_extensions -> SUPPORTED_FORMATS !! ext = None).
Proof.
  split.
  - unfold supported_extensions. rewrite !elem_of_cons, elem_of_nil.
    intros [->|[->|[->|[->|[->|[->|[->|[->|[]]]]]]]]]; vm_compute; eauto.
  - intros Hnot. unfold SUPPORTED_FORMATS. apply not_elem_of_list_to_map_1. exact Hnot.
Qed.

Example get_file_loader_upper_case :
  get_file_loader "docs/Report.PDF" = Ok PyPDFLoader
  /\ get_file_loader "slides.PpTx" = Ok UnstructuredPowerPointLoader
  /\ get_file_loader "archive.tar.gz" = Raise (ValueError "Unsupported file format: .gz")
  /\ get_file_loader ".txt" = Raise (ValueError "Unsupported file format: ").
Proof. repeat split; vm_compute; reflexivity. Qed.

Section Skip.

Context {E : Type} (X : Collaborators E).
Variable cfg : Config.
Variable env : gmap string string.

Lemma upload_loop_skip vs pre f post :
  SUPPORTED_FORMATS !! extension_of (filename f) = None ->
  forall acc w,
    upload_loop X cfg vs (pre ++ f :: post) acc w
    = upload_loop X cfg vs (pre ++ post) acc w.
Proof.
  intros Hf. induction pre as [|g pre IH]; intros acc w; cbn [app upload_loop].
  - by rewrite Hf.
  - destruct (SUPPORTED_FORMATS !! extension_of (filename g)); [|apply IH].
    unfold bind. destruct (upload_one X cfg vs g _ acc w) as [[acc'|e] w']; [apply IH|done].
Qed.

Lemma upload_one_first_call vs file ext acc w :
  exists ok more,
    w_trace (snd (upload_one X cfg vs file ext acc w))
    = (w_trace w ++ (CallRead (filename file), ok) :: more)%list.
Proof.
  unfold upload_one. unfold bind at 1. unfold ext_call at 1.
  destruct (file_read X file (w_ext w)) as [[content|e] e1].
  - match goal with
    | |- context [snd (?m (World ?f ?t ?x))] =>
        assert (Hm : disciplined m);
        [|destruct (m (World f t x)) as [r w'] eqn:Hrun]
    end.
    { unfold upload_to_gcs. pose proof (disciplined_process_file X). discipline. }
    destruct (Hm _ _ _ Hrun) as (new & T & _).
    exists true, new. cbn [snd]. rewrite T. cbn [w_trace is_ok]. by rewrite <- app_assoc.
  - exists false, []. reflexivity.
Qed.

Lemma upload_loop_first_read vs skipped g rest :
  Forall (fun f => SUPPORTED_FORMATS !! extension_of (filename f) = None) skipped ->
  is_Some (SUPPORTED_FORMATS !! extension_of (filename g)) ->
  forall acc w,
    exists ok more,
      w_trace (snd (upload_loop X cfg vs (skipped ++ g :: rest) acc w))
      = (w_trace w ++ (CallRead (filename g), ok) :: more)%list.
Proof.
  intros Hskip [cls Hg].
  induction Hskip as [|f skipped Hf _ IH]; intros acc w; cbn [app upload_loop].
  - rewrite Hg. unfold bind.
    destruct (upload_one_first_call vs g (extension_of (filename g)) acc w)
      as (ok & more & T).
    destruct (upload_one X cfg vs g (extension_of (filename g)) acc w) as [[acc'|e] w1];
      cbn [snd] in *.
    + destruct (upload_loop X cfg vs rest acc' w1) as [r w2] eqn:Hloop.
      destruct (disciplined_upload_loop X cfg vs rest acc' _ _ _ Hloop) as (new & T2 & _).
      exists ok, (more ++ new)%list. cbn [snd]. rewrite T2, T, <- app_assoc. reflexivity.
    + exists ok, more. exact T.
  - rewrite Hf. apply IH.
Qed.

Lemma supported_iff (f : UploadFile) :
  supported f = true <-> extension_of (filename f) ∈ supported_extensions.
Proof.
  unfold supported. rewrite bool_decide_eq_true. split.
  - intros Hsome. destruct (decide (extension_of (filename f) ∈ supported_extensions))
      as [Hin|Hout]; [exact Hin|].
    apply supported_formats_lookup in Hout. rewrite Hout in Hsome.
    by destruct Hsome.
  - apply supported_formats_lookup.
Qed.

(** C5.  A name [pre + stem + "." + e], where [pre] is empty or ends with
    a slash, the stem starts with a character other than a dot and has no
    slash, and [e] has neither dot nor slash, gets from the dispatcher the
    loader that lines 56-65 give to [e] in lower case when that is one of
    the eight supported extensions, and the [ValueError] otherwise; for
    any path the dispatcher answers by the extension that [splitext]
    finds.  In an upload request a file of the second kind is passed over:
    the request behaves exactly as the request without that file (same
    response or error, same calls, same final state).  The files after it
    are processed: once the handle is built, the first call that follows
    is the read of the first supported file, and a request that succeeds
    lists every supported file, in order. *)
Theorem dispatcher_and_skipped_files :
  (forall pre c rest e,
      PyStr.rfind "/" pre = PyStr.len pre - 1 ->
      c <> "."%char ->
      PyStr.contains "/" (String c rest) = false ->
      PyStr.contains "." e = false ->
      PyStr.contains "/" e = false ->
      (forall cls,
          (PyStr.lower e, cls)
            ∈ [("pdf", PyPDFLoader); ("docx", Docx2txtLoader); ("doc", Docx2txtLoader);
               ("pptx", UnstructuredPowerPointLoader); ("ppt", UnstructuredPowerPointLoader);
               ("csv", UnstructuredCSVLoader); ("json", JSONLoader); ("txt", TextLoader)] ->
          get_file_loader (pre +:+ String c rest +:+ "." +:+ e) = Ok cls)
      /\ (PyStr.lower e ∉ ["pdf"; "docx"; "doc"; "pptx"; "ppt"; "csv"; "json"; "txt"] ->
          get_file_loader (pre +:+ String c rest +:+ "." +:+ e)
          = Raise (ValueError ("Unsupported file format: ." +:+ PyStr.lower e))
          /\ forall content,
               supported {| filename := pre +:+ String c rest +:+ "." +:+ e;
                            body := content |} = false))
  /\ (forall file_path,
      extension_of file_path ∈ supported_extensions ->
      exists cls, get_file_loader file_path = Ok cls)
  /\ (forall file_path,
      extension_of file_path ∉ supported_extensions ->
      get_file_loader file_path
      = Raise (ValueError ("Unsupported file format: " +:+ extension_of file_path)))
  /\ (forall pre f post w,
      extension_of (filename f) ∉ supported_extensions ->
      upload_files X cfg env (pre ++ f :: post) w
      = upload_files X cfg env (pre ++ post) w)
  /\ (forall skipped g rest w vs w1,
      Forall (fun f => extension_of (filename f) ∉ supported_extensions) skipped ->
      extension_of (filename g) ∈ supported_extensions ->
      initialize_vectorstore X env w = (Ok vs, w1) ->
      exists ok more,
        w_trace (snd (upload_files X cfg env (skipped ++ g :: rest) w))
        = (w_trace w1 ++ (CallRead (filename g), ok) :: more)%list)
  /\ (forall files w resp,
      fst (upload_files X cfg env files w) = Ok resp ->
      map pf_filename (processed_files resp)
      = map filename
          (List.filter
             (fun f => bool_decide (extension_of (filename f) ∈ supported_extensions))
             files)).
Proof.
  split; [|split; [|split; [|split; [|split]]]].
  - intros pre c rest e H1 H2 H3 H4 H5.
    unfold get_file_loader, supported. cbn [filename].
    rewrite (extension_of_ordinary pre c rest e H1 H2 H3 H4 H5). split.
    + intros cls. rewrite !elem_of_cons, elem_of_nil.
      intros [H|[H|[H|[H|[H|[H|[H|[H|[]]]]]]]]]; injection H as -> ->;
        vm_compute; reflexivity.
    + intros Hout.
      assert (Hnone : SUPPORTED_FORMATS !! ("." +:+ PyStr.lower e) = None).
      { apply supported_formats_lookup. intros Hin. apply Hout. clear Hout.
        unfold supported_extensions in Hin. rewrite !elem_of_cons, elem_of_nil in Hin.
        rewrite !elem_of_cons, elem_of_nil. rewrite app_cons, app_empty in Hin.
        destruct Hin as [H|[H|[H|[H|[H|[H|[H|[H|[]]]]]]]]]; injection H as ->; tauto. }
      rewrite Hnone. split; [reflexivity|]. intros _.
      apply bool_decide_eq_false_2. by intros [? ?].
  - intros p Hp. apply supported_formats_lookup in Hp as [cls Hcls].
    exists cls. unfold get_file_loader. by rewrite Hcls.
  - intros p Hp. apply supported_formats_lookup in Hp.
    unfold get_file_loader. by rewrite Hp.
  - intros pre f post w Hf. apply supported_formats_lookup in Hf.
    unfold upload_files, bind.
    destruct (initialize_vectorstore X env w) as [[vs|e] w1]; [|reflexivity].
    unfold try_except, bind. by rewrite (upload_loop_skip vs pre f post Hf).
  - intros skipped g rest w vs w1 Hskip Hg Hinit.
    assert (Hskip' : Forall (fun f => SUPPORTED_FORMATS !! extension_of (filename f) = None)
                       skipped).
    { eapply Forall_impl; [exact Hskip|]. intros f Hf. by apply supported_formats_lookup. }
    apply supported_formats_lookup in Hg.
    destruct (upload_loop_first_read vs skipped g rest Hskip' Hg (0, []) w1)
      as (ok & more & T).
    exists ok, more. unfold upload_files, bind. rewrite Hinit.
    unfold try_except, bind, ret, raise.
    destruct (upload_loop X cfg vs (skipped ++ g :: rest) (0, []) w1) as [[acc|e] w2];
      exact T.
  - intros files w resp Hresp.
    destruct (upload_files X cfg env files w) as [r w'] eqn:Hrun. cbn [fst] in Hresp.
    subst r. apply upload_files_Ok in Hrun as (vs & w1 & acc & _ & Hloop & ->).
    apply upload_loop_Ok in Hloop as (entries & new & Hsnd & _ & Hnames & _).
    cbn [processed_files snd app] in *. rewrite Hsnd, Hnames. f_equal.
    apply List.filter_ext. intros f. destruct (supported f) eqn:Hs; symmetry.
    + apply bool_decide_eq_true_2. by apply supported_iff.
    + apply bool_decide_eq_false_2. intros Hin. apply supported_iff in Hin. congruence.
Qed.

(** ** The empty upload *)

(** C10 (amended).  A request without files is turned down at the
    interface: [files] is a required parameter, the reply is 422, the
    handler is not called and nothing changes; a request with files
    reaches the handler.  The body of the handler has no check of its own:
    called with the empty list, and with the handle built, it returns
    status success, an empty [processed_files] and [total_chunks] 0, and
    makes no further call. *)
Theorem empty_upload_is_turned_down w :
  endpoint X cfg env (PostUpload []) w = (Reply422 "files", w)
  /\ (forall f files,
        endpoint X cfg env (PostUpload (f :: files)) w
        = match upload_files X cfg env (f :: files) w with
          | (Ok r, w') => (Reply200 (UploadResult r), w')
          | (Raise (HTTPException status_code detail), w') =>
              (ReplyHTTPException status_code detail, w')
          | (Raise e, w') => (ReplyServerError e, w')
          end)
  /\ (is_ok (fst (initialize_vectorstore X env w)) = true ->
      fst (upload_files X cfg env [] w)
      = Ok {| status := "success"; processed_files := []; total_chunks := 0 |}
      /\ snd (upload_files X cfg env [] w) = snd (initialize_vectorstore X env w)).
Proof.
  split; [reflexivity|]. split.
  - intros f files. unfold endpoint. cbn [validate handle]. unfold bind at 1.
    destruct (upload_files X cfg env (f :: files) w) as [[r|e] w']; [reflexivity|].
    destruct e; reflexivity.
  - intros Hinit. unfold upload_files, bind.
    destruct (initialize_vectorstore X env w) as [[vs|e] w1]; [|discriminate].
    split; reflexivity.
Qed.

(** ** Temporary files *)

(** On the path where the request succeeds, no temporary file is left. *)
Lemma upload_success_removes_temporary_files files w resp w' :
  upload_files X cfg env files w = (Ok resp, w') -> w_files w' ⊆ w_files w.
Proof.
  intros H. apply upload_files_Ok in H as (vs & w1 & acc & Hinit & Hloop & _).
  apply upload_loop_Ok in Hloop as (_ & _ & _ & _ & _ & _ & _ & F).
  by rewrite <- (keeps_files_initialize_vectorstore X env _ _ _ Hinit).
Qed.

(** On every path where a step fails after the temporary file has been
    created, the file is left on disk. *)
Lemma upload_one_failure_leaves_file vs file ext acc w e w' content e1 base e2 :
  file_read X file (w_ext w) = (Ok content, e1) ->
  temp_base X e1 = (Ok base, e2) ->
  upload_one X cfg vs file ext acc w = (Raise e, w') ->
  (base +:+ ext) ∈ w_files w'.
Proof.
  intros Hread Htemp. unfold upload_one, upload_to_gcs, bind.
  unfold ext_call at 1. rewrite Hread. cbn [w_ext w_files w_trace].
  unfold ext_call at 1. cbn [w_ext w_files w_trace]. rewrite Htemp.
  unfold fs_create. cbn [w_ext w_files w_trace].
  set (tmp := base +:+ ext).
  assert (Hin : forall (S : gset string), tmp ∈ {[tmp]} ∪ S).
  { intros S. apply elem_of_union_l. by apply elem_of_singleton. }
  unfold ext_call at 1. cbn [w_ext w_files w_trace].
  destruct (temp_write X tmp content e2) as [[[]|ew] e3];
    [|intros [= <- <-]; apply Hin].
  unfold ext_pure. cbn [w_ext w_files w_trace].
  destruct (uuid4 X e3) as [uuid e4].
  unfold ext_call at 1. cbn [w_ext w_files w_trace].
  destruct (blob_upload X _ _ _ e4) as [[url|eb] e5];
    [|intros [= <- <-]; apply Hin].
  destruct (process_file X tmp vs _) as [[n|ep] w6] eqn:Hproc.
  - apply keeps_files_process_file in Hproc. cbn [w_files] in Hproc.
    unfold os_unlink. rewrite Hproc.
    destruct (decide (tmp ∈ {[tmp]} ∪ w_files w)) as [_|Hno]; [discriminate|].
    destruct Hno. apply Hin.
  - apply keeps_files_process_file in Hproc. cbn [w_files] in Hproc.
    intros [= <- <-]. rewrite Hproc. apply Hin.
Qed.

End Skip.

(** Loaders for names in any letter case, a picture between two
    documents, and a picture before them. *)
Lemma dispatcher_and_skipped_files_witness :
  get_file_loader "docs/Report.PDF" = Ok PyPDFLoader
  /\ get_file_loader "slides.PpTx" = Ok UnstructuredPowerPointLoader
  /\ get_file_loader "archive.tar.gz" = Raise (ValueError "Unsupported file format: .gz")
  /\ upload_files (Demo.collaborators []) Demo.cfg Demo.env
       ([Demo.notes] ++ Demo.picture :: [Demo.report]) Demo.w0
     = upload_files (Demo.collaborators []) Demo.cfg Demo.env
         ([Demo.notes] ++ [Demo.report]) Demo.w0
  /\ (exists vs ok more,
        w_trace (snd (upload_files (Demo.collaborators []) Demo.cfg Demo.env
                        ([Demo.picture] ++ Demo.notes :: [Demo.report]) Demo.w0))
        = ([(CallEmbeddings {| model_name := "sentence-transformers/all-MiniLM-L6-v2";
                               device := "cpu" |}, true);
            (CallPGVector vs, true)]
           ++ (CallRead "notes.TXT", ok) :: more)%list)
  /\ (exists resp,
        fst (upload_files (Demo.collaborators []) Demo.cfg Demo.env
               [Demo.notes; Demo.picture; Demo.report] Demo.w0)
        = Ok resp
        /\ map pf_filename (processed_files resp)
           = ["notes.TXT"; "report.pdf"]).
Proof.
  pose proof (dispatcher_and_skipped_files (Demo.collaborators []) Demo.cfg Demo.env)
    as (Hname & _ & _ & Hskip & Hnext & Hlist).
  assert (Hout : forall x : string,
             x ∉ supported_extensions <->
             bool_decide (x ∈ supported_extensions) = false).
  { intros x. by rewrite bool_decide_eq_false. }
  split; [|split; [|split; [|split; [|split]]]].
  - apply (proj1 (Hname "docs/" "R"%char "eport" "PDF"
                    eq_refl ltac:(discriminate) eq_refl eq_refl eq_refl)).
    apply list_elem_of_here.
  - apply (proj1 (Hname EmptyString "s"%char "lides" "PpTx"
                    eq_refl ltac:(discriminate) eq_refl eq_refl eq_refl)).
    do 3 apply list_elem_of_further. apply list_elem_of_here.
  - refine (proj1 (proj2 (Hname EmptyString "a"%char "rchive.tar" "gz"
                            eq_refl ltac:(discriminate) eq_refl eq_refl eq_refl) _)).
    vm_compute. intros H.
    repeat (apply elem_of_cons in H as [H|H]; [discriminate H|]).
    by apply elem_of_nil in H.
  - apply Hskip. apply Hout. vm_compute. reflexivity.
  - destruct (Hnext [Demo.picture] Demo.notes [Demo.report] Demo.w0
                {| connection_string := "postgresql+psycopg2://postgres:@localhost:5432/vectordb";
                   embedding_function :=
                     {| model_name := "sentence-transformers/all-MiniLM-L6-v2";
                        device := "cpu" |};
                   collection_name := "document_vectors" |}
                (snd (initialize_vectorstore (Demo.collaborators []) Demo.env Demo.w0)))
      as (ok & more & T).
    + constructor; [|constructor]. apply Hout. vm_compute. reflexivity.
    + do 7 apply list_elem_of_further. apply list_elem_of_here.
    + vm_compute. reflexivity.
    + eexists _, ok, more. rewrite T. vm_compute. reflexivity.
  - pose (resp :=
            {| status := "success";
               processed_files :=
                 [{| pf_filename := "notes.TXT"; chunks_created := 3;
                     gcs_url := "https://storage.googleapis.com/bucket/documents/uuid-1/notes.TXT" |};
                  {| pf_filename := "report.pdf"; chunks_created := 2;
                     gcs_url := "https://storage.googleapis.com/bucket/documents/uuid-3/report.pdf" |}];
               total_chunks := 5 |}).
    assert (Hresp : fst (upload_files (Demo.collaborators []) Demo.cfg Demo.env
                           [Demo.notes; Demo.picture; Demo.report] Demo.w0) = Ok resp)
      by (vm_compute; reflexivity).
    exists resp. split; [exact Hresp|].
    rewrite (Hlist [Demo.notes; Demo.picture; Demo.report] Demo.w0 resp Hresp).
    vm_compute. reflexivity.
Defined.

(** C10 (as stated, refuted).  The process is up and receives an upload
    request without files: the reply is 422, and no call has been made. *)
Lemma empty_upload_is_turned_down_counterexample :
  fst (fst (serve (DemoBoot.services []) (Demo.collaborators []) Demo.env
              (PostUpload []) DemoBoot.ready Demo.w0))
  = Ok (Reply422 "files")
  /\ snd (serve (DemoBoot.services []) (Demo.collaborators []) Demo.env
            (PostUpload []) DemoBoot.ready Demo.w0)
     = Demo.w0.
Proof. split; vm_compute; reflexivity. Qed.

Lemma empty_upload_is_turned_down_witness :
  endpoint (Demo.collaborators []) Demo.cfg Demo.env (PostUpload []) Demo.w0
  = (Reply422 "files", Demo.w0)
  /\ fst (upload_files (Demo.collaborators []) Demo.cfg Demo.env [] Demo.w0)
     = Ok {| status := "success"; processed_files := []; total_chunks := 0 |}.
Proof.
  destruct (empty_upload_is_turned_down (Demo.collaborators []) Demo.cfg Demo.env Demo.w0)
    as (Hreject & _ & Hbody).
  split; [exact Hreject|].
  apply Hbody. vm_compute. reflexivity.
Defined.

(** C1 (the code at a failing input).  One text file is uploaded and the
    blob store is unreachable.  No temporary file exists before the
    request; the request ends with the 500 error, and the temporary file
    written for the upload is still there. *)
Theorem upload_failure_leaves_temporary_file :
  w_files Demo.w0 = ∅
  /\ fst (upload_files (Demo.collaborators [Demo.OpBlobUpload]) Demo.cfg Demo.env
            [Demo.notes] Demo.w0)
     = Raise (HTTPException 500 "Error processing upload: bucket unreachable")
  /\ w_files (snd (upload_files (Demo.collaborators [Demo.OpBlobUpload]) Demo.cfg Demo.env
                     [Demo.notes] Demo.w0))
     = {["/tmp/tmp0.txt"]}.
Proof.
  split; [reflexivity|]. split; vm_compute; reflexivity.
Qed.

(** ** The question endpoint *)

Lemma join_concat (sep : string) (parts : list string) :
  PyStr.join sep parts = String.concat sep parts.
Proof.
  induction parts as [|x [|y l] IH]; [reflexivity..|].
  cbn [PyStr.join String.concat] in *. by rewrite IH.
Qed.

Example join_lines :
  PyStr.join PyStr.nl ["first"; "second"; "third"]
  = "first" +:+ PyStr.nl +:+ "second" +:+ PyStr.nl +:+ "third".
Proof. reflexivity. Qed.

Section Ask.

Context {E : Type} (X : Collaborators E).
Variable env : gmap string string.

(** Building the handle makes no search and no call to the model. *)
Lemma initialize_vectorstore_trace w :
  exists new,
    w_trace (snd (initialize_vectorstore X env w)) = (w_trace w ++ new)%list
    /\ search_requests new = []
    /\ generate_requests new = [].
Proof.
  unfold initialize_vectorstore, bind, ext_call, lift_result, ret.
  destruct (embeddings_init X _ (w_ext w)) as [[[]|e1] s1]; cbn [w_ext w_trace w_files];
    [|eexists; split; [reflexivity|split; reflexivity]].
  destruct (db_port env) as [p|e2];
    [|eexists; split; [reflexivity|split; reflexivity]].
  destruct (pgvector_init X _ s1) as [[[]|e3] s3]; cbn [snd w_trace];
    rewrite <- app_assoc; eexists; (split; [reflexivity|split; reflexivity]).
Qed.

(** C6 (amended).  A question request makes at most one similarity
    search, and every search asks for [k = 6] results.  It makes exactly
    one, for the question itself, when the vector-store handle is built,
    and none when building the handle raises. *)
Theorem ask_question_search_requests q w :
  exists new,
    w_trace (snd (ask_question X env q w)) = (w_trace w ++ new)%list
    /\ (forall vs, fst (initialize_vectorstore X env w) = Ok vs ->
           search_requests new = [(vs, q, 6)])
    /\ (is_ok (fst (initialize_vectorstore X env w)) = false ->
           search_requests new = [])
    /\ (length (search_requests new) <= 1)%nat
    /\ Forall (fun s => snd s = 6) (search_requests new).
Proof.
  destruct (initialize_vectorstore_trace w) as (new0 & T0 & S0 & _).
  assert (Hone : forall vs b (rest : list event),
             search_requests rest = [] ->
             let new := (new0 ++ (CallSimilaritySearch vs q 6, b) :: rest)%list in
             (forall vs', Ok vs = Ok vs' -> search_requests new = [(vs', q, 6)])
             /\ (true = false -> search_requests new = [])
             /\ (length (search_requests new) <= 1)%nat
             /\ Forall (fun s => snd s = 6) (search_requests new)).
  { intros vs b rest Hrest new. subst new.
    rewrite search_requests_app, S0. cbn. rewrite Hrest.
    split; [by intros ? [= <-]|]. split; [done|]. split; [cbn; lia|].
    by constructor. }
  unfold ask_question, try_except, bind.
  destruct (initialize_vectorstore X env w) as [[vs|e0] w1]; cbn [fst snd is_ok] in *.
  - unfold ext_call at 1.
    destruct (similarity_search X vs q 6 (w_ext w1)) as [[results|e1] s1]; cbn [w_trace].
    + unfold ext_call, ret, raise.
      destruct (generate_content X _ _ _) as [[text|e2] s2];
        cbn [snd w_trace w_ext is_ok]; rewrite T0, <- !app_assoc;
        eexists; (split; [reflexivity|]); by apply Hone.
    + unfold raise. cbn [snd w_trace is_ok]. rewrite T0, <- !app_assoc.
      eexists; (split; [reflexivity|]). by apply Hone.
  - unfold raise. cbn [snd]. exists new0. split; [exact T0|].
    rewrite S0. cbn. split; [done|]. split; [done|]. split; [lia|constructor].
Qed.

(** C7.  When the search returns [results], the model is called once,
    with the prompt made from the question and the context; the context
    is the texts of the results in the order returned, with one newline
    between two consecutive texts: empty for no result, the text itself
    for a single result.  The text the model returns is the answer of the
    response, next to the question; nothing is different for an empty
    [results]. *)
Theorem ask_question_context q w vs results :
  fst (initialize_vectorstore X env w) = Ok vs ->
  fst (similarity_search X vs q 6 (w_ext (snd (initialize_vectorstore X env w))))
  = Ok results ->
  let context := String.concat (String "010" EmptyString) (map page_content results) in
  let prompt := generate_rag_prompt q context in
  let g := generate_content X "gemini-pro" prompt
             (snd (similarity_search X vs q 6
                     (w_ext (snd (initialize_vectorstore X env w))))) in
  w_trace (snd (ask_question X env q w))
  = (w_trace (snd (initialize_vectorstore X env w))
     ++ [(CallSimilaritySearch vs q 6, true);
         (CallGenerate "gemini-pro" prompt, is_ok (fst g))])%list
  /\ (forall text, fst g = Ok text ->
        fst (ask_question X env q w) = Ok {| question := q; answer := text |})
  /\ (forall e, fst g = Raise e ->
        fst (ask_question X env q w)
        = Raise (HTTPException 500 ("Error processing question: " +:+ str_exn X e)))
  /\ (results = [] -> context = EmptyString)
  /\ (forall d, results = [d] -> context = page_content d)
  /\ (forall d d' rest, results = d :: d' :: rest ->
        context = page_content d +:+ String "010" EmptyString
                  +:+ String.concat (String "010" EmptyString)
                        (map page_content (d' :: rest))).
Proof.
  intros Hinit Hsearch context prompt g. subst g prompt context.
  unfold ask_question, try_except, bind, ext_call, ret, raise.
  destruct (initialize_vectorstore X env w) as [[vs'|e0] w1]; cbn [fst snd] in *;
    [injection Hinit as ->|discriminate].
  destruct (similarity_search X vs q 6 (w_ext w1)) as [[results'|e1] s1]; cbn [fst snd] in *;
    [injection Hsearch as ->|discriminate].
  cbn [w_ext w_trace w_files is_ok]. rewrite join_concat. unfold PyStr.nl.
  assert (Hshape :
            (results = [] ->
             String.concat (String "010" EmptyString) (map page_content results)
             = EmptyString)
            /\ (forall d, results = [d] ->
                String.concat (String "010" EmptyString) (map page_content results)
                = page_content d)
            /\ (forall d d' rest, results = d :: d' :: rest ->
                String.concat (String "010" EmptyString) (map page_content results)
                = page_content d +:+ String "010" EmptyString
                  +:+ String.concat (String "010" EmptyString)
                        (map page_content (d' :: rest)))).
  { split; [by intros ->|]. split; [by intros d ->|]. by intros d d' rest ->. }
  destruct (generate_content X _ _ s1) as [[text|e2] s2]; cbn [fst snd w_trace is_ok];
    rewrite <- !app_assoc; (split; [reflexivity|]).
  - split; [by intros ? [= <-]|]. split; [discriminate|]. exact Hshape.
  - split; [discriminate|]. split; [by intros ? [= <-]|]. exact Hshape.
Qed.

End Ask.

(** C6 (as stated, refuted).  With [DB_PORT] set to [abc] the request is
    answered with the 500 error and no similarity search is made. *)
Lemma ask_question_no_search_counterexample :
  fst (ask_question (Demo.collaborators []) Demo.env_bad_port "What is X?" Demo.w0)
  = Raise (HTTPException 500
             ("Error processing question: invalid literal for int() with base 10: "
              +:+ PyStr.squote +:+ "abc" +:+ PyStr.squote))
  /\ search_requests
       (w_trace (snd (ask_question (Demo.collaborators []) Demo.env_bad_port
                        "What is X?" Demo.w0)))
     = [].
Proof. split; vm_compute; reflexivity. Qed.

(** With the default port, one search for the question with [k = 6]. *)
Lemma ask_question_search_requests_witness :
  exists new,
    w_trace (snd (ask_question (Demo.collaborators []) Demo.env "What is X?" Demo.w0))
    = (w_trace Demo.w0 ++ new)%list
    /\ exists vs, search_requests new = [(vs, "What is X?", 6)].
Proof.
  destruct (ask_question_search_requests (Demo.collaborators []) Demo.env
              "What is X?" Demo.w0) as (new & T & Hone & _).
  exists new. split; [exact T|].
  eexists. apply Hone. vm_compute. reflexivity.
Defined.

(** A store with two chunks: the prompt carries both texts, in order.
    An empty store: no match, an empty context, and the model's answer. *)
Lemma ask_question_context_witness :
  fst (ask_question (Demo.collaborators []) Demo.env "What is X?" Demo.stocked)
  = Ok {| question := "What is X?"; answer := "generated answer" |}
  /\ generate_requests
       (w_trace (snd (ask_question (Demo.collaborators []) Demo.env "What is X?"
                        Demo.stocked)))
     = [generate_rag_prompt "What is X?"
          ("X is a letter." +:+ String "010" EmptyString
           +:+ "It's " +:+ String "034" EmptyString +:+ "the" +:+ String "034" EmptyString
           +:+ " unknown," +:+ String "010" EmptyString +:+ "often.")]
  /\ generate_rag_prompt "What is X?"
       ("X is a letter." +:+ String "010" EmptyString
        +:+ "It's " +:+ String "034" EmptyString +:+ "the" +:+ String "034" EmptyString
        +:+ " unknown," +:+ String "010" EmptyString +:+ "often.")
     = prompt_head +:+ "What is X?" +:+ prompt_middle
       +:+ "X is a letter. Its the unknown, often." +:+ prompt_tail
  /\ fst (ask_question (Demo.collaborators []) Demo.env "What is X?" Demo.w0)
     = Ok {| question := "What is X?"; answer := "generated answer" |}
  /\ generate_requests
       (w_trace (snd (ask_question (Demo.collaborators []) Demo.env "What is X?" Demo.w0)))
     = [generate_rag_prompt "What is X?" EmptyString].
Proof.
  pose (vs := {| connection_string := "postgresql+psycopg2://postgres:@localhost:5432/vectordb";
                 embedding_function :=
                   {| model_name := "sentence-transformers/all-MiniLM-L6-v2"; device := "cpu" |};
                 collection_name := "document_vectors" |}).
  pose proof (ask_question_context (Demo.collaborators []) Demo.env "What is X?" Demo.stocked
                vs (Demo.store (w_ext Demo.stocked))
                ltac:(vm_compute; reflexivity) ltac:(vm_compute; reflexivity))
    as (T & Hans & _ & _ & _ & Hmany).
  pose proof (ask_question_context (Demo.collaborators []) Demo.env "What is X?" Demo.w0
                vs [] ltac:(vm_compute; reflexivity) ltac:(vm_compute; reflexivity))
    as (T0 & Hans0 & _ & Hnone & _).
  split; [|split; [|split; [|split]]].
  - apply Hans. vm_compute. reflexivity.
  - rewrite T, (Hmany _ _ _ eq_refl). vm_compute. reflexivity.
  - vm_compute. reflexivity.
  - apply Hans0. vm_compute. reflexivity.
  - rewrite T0, (Hnone eq_refl). vm_compute. reflexivity.
Defined.


(** * Further properties *)

(** ** Calls by kind *)

Section Emits.

Context {E : Type}.
Variable P : event -> Prop.

Lemma emits_ret {A} (a : A) : emits (E:=E) P (ret a).
Proof. intros w r w' [= <- <-]. exists []. by rewrite app_nil_r. Qed.

Lemma emits_raise {A} (e : exn) : emits (E:=E) (A:=A) P (raise e).
Proof. intros w r w' [= <- <-]. exists []. by rewrite app_nil_r. Qed.

Lemma emits_lift_result {A} (x : result A) : emits (E:=E) P (lift_result x).
Proof. intros w r w' [= <- <-]. exists []. by rewrite app_nil_r. Qed.

Lemma emits_ext_pure {A} (f : E -> A * E) : emits P (ext_pure f).
Proof.
  intros w r w'. unfold ext_pure. destruct (f (w_ext w)).
  intros [= <- <-]. exists []. cbn. by rewrite app_nil_r.
Qed.

Lemma emits_fs_create path : emits (E:=E) P (fs_create path).
Proof. intros w r w' [= <- <-]. exists []. cbn. by rewrite app_nil_r. Qed.

Lemma emits_ext_call {A} c (f : E -> result A * E) :
  (forall b, P (c, b)) -> emits P (ext_call c f).
Proof.
  intros Hc w r w'. unfold ext_call. destruct (f (w_ext w)) as [r0 e'].
  intros [= <- <-]. eexists. split; [reflexivity|]. by constructor.
Qed.

Lemma emits_os_unlink path :
  (forall b, P (CallUnlink path, b)) -> emits (E:=E) P (os_unlink path).
Proof.
  intros Hc w r w'. unfold os_unlink. destruct (decide (path ∈ w_files w));
    intros [= <- <-]; eexists; (split; [reflexivity|]); by constructor.
Qed.

Lemma emits_bind {A C} (m : M E A) (k : A -> M E C) :
  emits P m -> (forall a, emits P (k a)) -> emits P (bind m k).
Proof.
  intros Hm Hk w r w'. unfold bind.
  destruct (m w) as [[a|e] w1] eqn:Em.
  - intros Ek.
    destruct (Hm _ _ _ Em) as (new1 & T1 & A1).
    destruct (Hk a _ _ _ Ek) as (new2 & T2 & A2).
    exists (new1 ++ new2)%list. split.
    + rewrite T2, T1. by rewrite app_assoc.
    + by apply Forall_app.
  - intros [= <- <-]. exact (Hm _ _ _ Em).
Qed.

Lemma emits_try_except {A} (m : M E A) (f : exn -> exn) :
  emits P m -> emits P (try_except m (fun e => raise (f e))).
Proof.
  intros Hm w r w'. unfold try_except, raise.
  destruct (m w) as [[a|e] w1] eqn:Em; intros [= <- <-]; exact (Hm _ _ _ Em).
Qed.

End Emits.

Create HintDb emits.
#[export] Hint Resolve emits_ret emits_raise emits_lift_result emits_ext_pure
  emits_fs_create emits_bind emits_try_except : emits.

Ltac emits :=
  repeat (intros;
          first [ apply emits_bind
                | apply emits_try_except
                | apply emits_ext_call; intros; reflexivity
                | apply emits_os_unlink; intros; reflexivity
                | solve [auto with emits] ]).

Section Kinds.

Context {E : Type} (X : Collaborators E).
Variable cfg : Config.
Variable env : gmap string string.

Lemma emits_query_initialize_vectorstore :
  emits (fun ev => is_query_call (fst ev) = true) (initialize_vectorstore X env).
Proof. unfold initialize_vectorstore. emits. Qed.

(** X1.  A question request only builds the vector-store handle, searches
    and calls the model: it reads no file,
    writes or removes no temporary file, uploads no blob and inserts
    nothing into the vector store. *)
Theorem ask_question_is_read_only q w :
  w_files (snd (ask_question X env q w)) = w_files w
  /\ exists new,
      w_trace (snd (ask_question X env q w)) = (w_trace w ++ new)%list
      /\ Forall (fun ev => is_query_call (fst ev) = true) new
      /\ add_requests new = []
      /\ blob_requests new = []
      /\ read_requests new = [].
Proof.
  assert (Hk : emits (fun ev => is_query_call (fst ev) = true) (ask_question X env q)).
  { unfold ask_question. pose proof emits_query_initialize_vectorstore. emits. }
  assert (Hf : keeps_files (ask_question X env q)).
  { unfold ask_question. pose proof (keeps_files_initialize_vectorstore X env). files. }
  destruct (ask_question X env q w) as [r w'] eqn:Hrun. cbn [snd].
  split; [exact (Hf _ _ _ Hrun)|].
  destruct (Hk _ _ _ Hrun) as (new & T & HP).
  exists new. split; [exact T|]. split; [exact HP|].
  clear -HP. induction HP as [|[c b] l Hc _ IH]; [done|].
  destruct IH as (IA & IB & IR).
  destruct c; cbn in Hc; try discriminate; cbn; auto.
Qed.

(** X2.  An upload request never searches the vector store and never
    calls the generative model. *)
Theorem upload_files_never_queries files w :
  exists new,
    w_trace (snd (upload_files X cfg env files w)) = (w_trace w ++ new)%list
    /\ Forall (fun ev => is_ingest_call (fst ev) = true) new
    /\ search_requests new = []
    /\ generate_requests new = [].
Proof.
  assert (Hk : emits (fun ev => is_ingest_call (fst ev) = true)
                     (upload_files X cfg env files)).
  { unfold upload_files. apply emits_bind; [unfold initialize_vectorstore; emits|].
    intros vs. apply emits_try_except. apply emits_bind; [|emits].
    generalize (0, @nil ProcessedFile).
    induction files as [|f rest IH]; intros acc; cbn [upload_loop]; [emits|].
    destruct (SUPPORTED_FORMATS !! extension_of (filename f)); [|apply IH].
    apply emits_bind; [|intros; apply IH].
    unfold upload_one, upload_to_gcs, process_file. emits. }
  destruct (upload_files X cfg env files w) as [r w'] eqn:Hrun. cbn [snd].
  destruct (Hk _ _ _ Hrun) as (new & T & HP).
  exists new. split; [exact T|]. split; [exact HP|].
  clear -HP. induction HP as [|[c b] l Hc _ IH]; [done|].
  destruct IH as (IS & IG).
  destruct c; cbn in Hc; try discriminate; cbn; auto.
Qed.

End Kinds.

(** ** Outcomes of the pipelines *)

Section Outcomes.

Context {E : Type} (X : Collaborators E).
Variable cfg : Config.
Variable env : gmap string string.

(** X3.  At its endpoint a question has three outcomes only.  An empty
    question is turned down with 422 and nothing is called.  Otherwise
    the reply is either 200 with the question exactly as it was asked next
    to the text the model returned, which takes the handle, the search and
    the model to have returned; or the 500 error whose detail is
    [Error processing question: ] followed by the message of the exception
    raised by the first of these three steps that failed. *)
Theorem ask_question_outcome q w :
  let init := initialize_vectorstore X env w in
  let search vs := similarity_search X vs q 6 (w_ext (snd init)) in
  let generate vs results :=
    generate_content X "gemini-pro"
      (generate_rag_prompt q (PyStr.join PyStr.nl (map page_content results)))
      (snd (search vs)) in
  (q = EmptyString /\ endpoint X cfg env (PostAsk q) w = (Reply422 "question", w))
  \/ (q <> EmptyString
      /\ exists vs results text,
           fst init = Ok vs
           /\ fst (search vs) = Ok results
           /\ fst (generate vs results) = Ok text
           /\ fst (endpoint X cfg env (PostAsk q) w)
              = Reply200 (AskResult {| question := q; answer := text |}))
  \/ (q <> EmptyString
      /\ exists e,
           fst (endpoint X cfg env (PostAsk q) w)
           = ReplyHTTPException 500 ("Error processing question: " +:+ str_exn X e)
           /\ (fst init = Raise e
               \/ (exists vs, fst init = Ok vs /\ fst (search vs) = Raise e)
               \/ (exists vs results,
                     fst init = Ok vs /\ fst (search vs) = Ok results
                     /\ fst (generate vs results) = Raise e))).
Proof.
  intros init search generate. subst generate search init.
  destruct q as [|c q]; [left; split; reflexivity|right].
  unfold endpoint. cbn [validate handle]. unfold bind at 1.
  unfold ask_question, try_except, bind, ext_call, ret, raise.
  destruct (initialize_vectorstore X env w) as [[vs|e0] w1]; cbn [fst snd].
  - destruct (similarity_search X vs (String c q) 6 (w_ext w1)) as [[results|e1] s1] eqn:Hs;
      cbn [fst snd w_ext].
    + destruct (generate_content X _ _ s1) as [[text|e2] s2] eqn:Hg; cbn [fst snd].
      * left. split; [discriminate|]. exists vs, results, text.
        rewrite Hs. cbn [fst snd]. rewrite Hg. by repeat split.
      * right. split; [discriminate|]. exists e2. split; [reflexivity|].
        right; right. exists vs, results. rewrite Hs. cbn [fst snd]. rewrite Hg.
        by repeat split.
    + right. split; [discriminate|]. exists e1. split; [reflexivity|].
      right; left. exists vs. rewrite Hs. by split.
  - right. split; [discriminate|]. exists e0. split; [reflexivity|]. by left.
Qed.

(** X4.  When building the vector-store handle raises [e], the two
    endpoints differ: the question endpoint answers with the 500 error
    wrapping the message of [e], the upload endpoint lets [e] itself
    escape, whatever the files; neither makes a further call. *)
Theorem handle_failure_is_wrapped_only_for_questions e files q w :
  fst (initialize_vectorstore X env w) = Raise e ->
  ask_question X env q w
  = (Raise (HTTPException 500 ("Error processing question: " +:+ str_exn X e)),
     snd (initialize_vectorstore X env w))
  /\ upload_files X cfg env files w = (Raise e, snd (initialize_vectorstore X env w)).
Proof.
  intros Hinit. unfold ask_question, upload_files, try_except, bind, raise.
  destruct (initialize_vectorstore X env w) as [[vs|e0] w1]; cbn [fst snd] in *;
    [discriminate|injection Hinit as ->]. split; reflexivity.
Qed.

(** X5.  [process_file] never creates or removes a temporary file, and
    has two outcomes only.  It returns the number of chunks that the
    splitter made, which takes the loader found for the path, the load,
    the split and the insertion to have returned; or it raises an
    [HTTPException] with status 500 whose detail is
    [Error processing file: ] followed by the message of the exception
    raised by the first of these four steps that failed. *)
Theorem process_file_outcome path vs w :
  let load cls := loader_load X cls path (w_ext w) in
  let split cls documents :=
    split_documents X "en_core_web_sm" 1000 200 documents (snd (load cls)) in
  let add cls documents docs := add_documents X vs docs (snd (split cls documents)) in
  w_files (snd (process_file X path vs w)) = w_files w
  /\ ((exists cls documents docs,
         get_file_loader path = Ok cls
         /\ fst (load cls) = Ok documents
         /\ fst (split cls documents) = Ok docs
         /\ fst (add cls documents docs) = Ok tt
         /\ fst (process_file X path vs w) = Ok (Z.of_nat (length docs)))
      \/ (exists e,
            fst (process_file X path vs w)
            = Raise (HTTPException 500 ("Error processing file: " +:+ str_exn X e))
            /\ (get_file_loader path = Raise e
                \/ (exists cls, get_file_loader path = Ok cls /\ fst (load cls) = Raise e)
                \/ (exists cls documents,
                      get_file_loader path = Ok cls /\ fst (load cls) = Ok documents
                      /\ fst (split cls documents) = Raise e)
                \/ (exists cls documents docs,
                      get_file_loader path = Ok cls /\ fst (load cls) = Ok documents
                      /\ fst (split cls documents) = Ok docs
                      /\ fst (add cls documents docs) = Raise e)))).
Proof.
  intros load split add. subst add split load. split.
  - destruct (process_file X path vs w) as [r w'] eqn:Hrun.
    exact (keeps_files_process_file X path vs _ _ _ Hrun).
  - unfold process_file, try_except, bind, lift_result, ext_call, ret, raise.
    destruct (get_file_loader path) as [cls|e0]; cbn [fst snd];
      [|right; exists e0; split; [reflexivity|by left]].
    destruct (loader_load X cls path (w_ext w)) as [[documents|e1] s1] eqn:Hl;
      cbn [fst snd w_ext];
      [|right; exists e1; split; [reflexivity|];
        right; left; exists cls; rewrite Hl; by split].
    destruct (split_documents X _ _ _ documents s1) as [[docs|e2] s2] eqn:Hsp;
      cbn [fst snd w_ext];
      [|right; exists e2; split; [reflexivity|];
        right; right; left; exists cls, documents; rewrite Hl; cbn [fst snd];
        rewrite Hsp; by repeat split].
    destruct (add_documents X vs docs s2) as [[[]|e3] s3] eqn:Ha; cbn [fst snd].
    + left. exists cls, documents, docs. rewrite Hl. cbn [fst snd]. rewrite Hsp.
      cbn [fst snd]. rewrite Ha. by repeat split.
    + right. exists e3. split; [reflexivity|].
      right; right; right. exists cls, documents, docs. rewrite Hl. cbn [fst snd].
      rewrite Hsp. cbn [fst snd]. rewrite Ha. by repeat split.
Qed.

(** X6.  For a path whose extension is not supported, [process_file]
    raises the 500 error naming the extension and calls no collaborator:
    nothing is loaded, split or stored, and the world is unchanged. *)
Theorem process_file_unsupported path vs w :
  extension_of path ∉ supported_extensions ->
  process_file X path vs w
  = (Raise (HTTPException 500
              ("Error processing file: Unsupported file format: " +:+ extension_of path)),
     w).
Proof.
  intros Hext. apply supported_formats_lookup in Hext.
  unfold process_file, try_except, bind, lift_result, get_file_loader, raise.
  rewrite Hext. reflexivity.
Qed.

End Outcomes.

Lemma handle_failure_is_wrapped_only_for_questions_witness :
  fst (ask_question (Demo.collaborators []) Demo.env_bad_port "What is X?" Demo.w0)
  = Raise (HTTPException 500
             ("Error processing question: "
              +:+ str_exn (Demo.collaborators [])
                    (ValueError ("invalid literal for int() with base 10: "
                                 +:+ PyStr.squote +:+ "abc" +:+ PyStr.squote))))
  /\ fst (upload_files (Demo.collaborators []) Demo.cfg Demo.env_bad_port [Demo.notes] Demo.w0)
     = Raise (ValueError ("invalid literal for int() with base 10: "
                          +:+ PyStr.squote +:+ "abc" +:+ PyStr.squote)).
Proof.
  destruct (handle_failure_is_wrapped_only_for_questions (Demo.collaborators []) Demo.cfg
              Demo.env_bad_port
              (ValueError ("invalid literal for int() with base 10: "
                           +:+ PyStr.squote +:+ "abc" +:+ PyStr.squote))
              [Demo.notes] "What is X?" Demo.w0) as [Ha Hu].
  - vm_compute. reflexivity.
  - rewrite Ha, Hu. split; reflexivity.
Defined.

(** The search fails: the detail carries its message.  No question: 422. *)
Lemma ask_question_outcome_witness :
  fst (endpoint (Demo.collaborators [Demo.OpSimilaritySearch]) Demo.cfg Demo.env
         (PostAsk "What is X?") Demo.w0)
  = ReplyHTTPException 500 "Error processing question: query failed"
  /\ fst (endpoint (Demo.collaborators []) Demo.cfg Demo.env (PostAsk EmptyString) Demo.w0)
     = Reply422 "question".
Proof.
  split.
  - destruct (ask_question_outcome (Demo.collaborators [Demo.OpSimilaritySearch]) Demo.cfg
                Demo.env "What is X?" Demo.w0)
      as [[Hq _]|[(_ & vs & results & text & _ & Hs & _)
                 |(_ & e & -> & [Hi|[(vs & Hi & Hs)|(vs & results & _ & Hs & _)]])]].
    + discriminate Hq.
    + vm_compute in Hs. discriminate Hs.
    + vm_compute in Hi. discriminate Hi.
    + vm_compute in Hs. injection Hs as <-. reflexivity.
    + vm_compute in Hs. discriminate Hs.
  - destruct (ask_question_outcome (Demo.collaborators []) Demo.cfg Demo.env EmptyString
                Demo.w0) as [[_ ->]|[[Hq _]|[Hq _]]]; [reflexivity|by destruct Hq..].
Defined.

(** The splitter fails: the detail carries its message. *)
Lemma process_file_outcome_witness :
  fst (process_file (Demo.collaborators [Demo.OpSplit]) "/tmp/tmp0.txt"
         {| connection_string := "postgresql+psycopg2://postgres:@localhost:5432/vectordb";
            embedding_function :=
              {| model_name := "sentence-transformers/all-MiniLM-L6-v2"; device := "cpu" |};
            collection_name := "document_vectors" |} Demo.w0)
  = Raise (HTTPException 500 "Error processing file: pipeline not installed").
Proof.
  destruct (process_file_outcome (Demo.collaborators [Demo.OpSplit]) "/tmp/tmp0.txt"
              {| connection_string := "postgresql+psycopg2://postgres:@localhost:5432/vectordb";
                 embedding_function :=
                   {| model_name := "sentence-transformers/all-MiniLM-L6-v2";
                      device := "cpu" |};
                 collection_name := "document_vectors" |} Demo.w0)
    as (_ & [(cls & documents & docs & Hc & Hl & Hs & _)
            |(e & -> & [Hc|[(cls & Hc & Hl)|[(cls & documents & Hc & Hl & Hs)
                                            |(cls & documents & docs & Hc & Hl & Hs & _)]]])]).
  - vm_compute in Hc. injection Hc as <-. vm_compute in Hl. injection Hl as <-.
    vm_compute in Hs. discriminate Hs.
  - vm_compute in Hc. discriminate Hc.
  - vm_compute in Hc. injection Hc as <-. vm_compute in Hl. discriminate Hl.
  - vm_compute in Hc. injection Hc as <-. vm_compute in Hl. injection Hl as <-.
    vm_compute in Hs. injection Hs as <-. reflexivity.
  - vm_compute in Hc. injection Hc as <-. vm_compute in Hl. injection Hl as <-.
    vm_compute in Hs. discriminate Hs.
Defined.

Lemma process_file_unsupported_witness :
  process_file (Demo.collaborators []) "/tmp/upload.png"
    {| connection_string := "postgresql+psycopg2://postgres:@localhost:5432/vectordb";
       embedding_function :=
         {| model_name := "sentence-transformers/all-MiniLM-L6-v2"; device := "cpu" |};
       collection_name := "document_vectors" |} Demo.w0
  = (Raise (HTTPException 500
              ("Error processing file: Unsupported file format: "
               +:+ extension_of "/tmp/upload.png")), Demo.w0).
Proof.
  apply process_file_unsupported. vm_compute. intros H.
  repeat (apply elem_of_cons in H as [H|H]; [discriminate H|]).
  by apply elem_of_nil in H.
Defined.

(** ** The vector-store handle *)

(** *** The message of [int] on a text within the digit limit *)

Lemma lstrip_length (s : string) :
  (String.length (PyInt.lstrip s) <= String.length s)%nat.
Proof.
  induction s as [|c s IH]; cbn [PyInt.lstrip String.length]; [lia|].
  destruct (PyInt.is_space c); cbn [String.length]; lia.
Qed.

Lemma split_sign_length (t : string) :
  (String.length (snd (PyInt.split_sign t)) <= String.length t)%nat.
Proof.
  destruct t as [|c r]; cbn [PyInt.split_sign]; [reflexivity|].
  destruct (Ascii.eqb c "-"); [cbn; lia|].
  destruct (Ascii.eqb c "+"); cbn; lia.
Qed.

Lemma scan_run_length (s : string) :
  (String.length (fst (PyInt.scan_run s)) <= String.length s)%nat.
Proof.
  induction s as [|c s IH]; cbn [PyInt.scan_run]; [reflexivity|].
  destruct (_ || _)%bool; [|cbn; lia].
  destruct (PyInt.scan_run s) as [run rest]. cbn [fst String.length] in *. lia.
Qed.

Lemma digit_count_length (s : string) :
  (PyInt.digit_count s <= String.length s)%nat.
Proof.
  induction s as [|c s IH]; cbn [PyInt.digit_count String.length]; [lia|].
  destruct (PyInt.digit_value c); lia.
Qed.

Lemma parse_short (s : string) (n : nat) :
  (String.length s <= 4300)%nat -> PyInt.parse s <> PyInt.TooManyDigits n.
Proof.
  intros Hlen. unfold PyInt.parse.
  pose proof (lstrip_length s) as H1.
  pose proof (split_sign_length (PyInt.lstrip s)) as H2.
  destruct (PyInt.split_sign (PyInt.lstrip s)) as [negative t]. cbn [snd] in H2.
  pose proof (scan_run_length t) as H3.
  destruct (PyInt.scan_run t) as [run rest]. cbn [fst] in H3.
  pose proof (digit_count_length run) as H4.
  destruct (PyInt.digits run 0 false) as [v|]; [|discriminate].
  destruct (PyInt.max_str_digits <? PyInt.digit_count run)%nat eqn:Hlim.
  - apply Nat.ltb_lt in Hlim. unfold PyInt.max_str_digits in Hlim. lia.
  - destruct (PyInt.lstrip rest); discriminate.
Qed.

Lemma error_message_short (s : string) :
  (String.length s <= 4300)%nat ->
  PyInt.error_message s
  = "invalid literal for int() with base 10: " +:+ PyStr.take 200 (PyInt.repr s).
Proof.
  intros Hlen. unfold PyInt.error_message.
  destruct (PyInt.parse s) as [v|n|] eqn:Hp; try reflexivity.
  by destruct (parse_short s n Hlen).
Qed.

Example int_rejects :
  PyInt.int (String "028" "8") = None
  /\ PyInt.error_message "abc" = "invalid literal for int() with base 10: 'abc'"
  /\ PyInt.error_message "a'b" = "invalid literal for int() with base 10: " +:+ PyStr.dquote
                                 +:+ "a'b" +:+ PyStr.dquote
  /\ PyInt.error_message (String "010" "5 x")
     = "invalid literal for int() with base 10: '" +:+ String "092" "n5 x'".
Proof. repeat split; vm_compute; reflexivity. Qed.

Section Handle.

Context {E : Type} (X : Collaborators E).
Variable env : gmap string string.

(** X7.  A handle that is built always names the collection
    [document_vectors] and the MiniLM embedding model on the CPU, and its
    connection string is made of the five [DB_*] variables with the
    psycopg2 driver; when none of them is set it is the connection to
    [vectordb] on [localhost:5432] as [postgres] with an empty password. *)
Theorem handle_parameters vs w :
  fst (initialize_vectorstore X env w) = Ok vs ->
  collection_name vs = "document_vectors"
  /\ embedding_function vs
     = {| model_name := "sentence-transformers/all-MiniLM-L6-v2"; device := "cpu" |}
  /\ (exists p, db_port env = Ok p
        /\ connection_string vs
           = "postgresql+psycopg2://" +:+ getenv_default env "DB_USER" "postgres"
             +:+ ":" +:+ getenv_default env "DB_PASSWORD" EmptyString
             +:+ "@" +:+ getenv_default env "DB_HOST" "localhost"
             +:+ ":" +:+ pretty p
             +:+ "/" +:+ getenv_default env "DB_NAME" "vectordb")
  /\ ((forall k, k ∈ db_keys -> env !! k = None) ->
      connection_string vs = "postgresql+psycopg2://postgres:@localhost:5432/vectordb").
Proof.
  unfold initialize_vectorstore, bind, ext_call, lift_result, ret.
  destruct (embeddings_init X _ (w_ext w)) as [[[]|e1] s1]; [|discriminate].
  cbn [w_ext w_trace w_files].
  destruct (db_port env) as [p|e2] eqn:Hport; [|discriminate].
  destruct (pgvector_init X _ s1) as [[[]|e3] s3]; [|discriminate].
  cbn [fst]. intros [= <-]. cbn [collection_name embedding_function connection_string].
  split; [reflexivity|]. split; [reflexivity|]. split.
  - exists p. split; [reflexivity|]. reflexivity.
  - intros Hnone. unfold db_port in Hport.
    rewrite (Hnone "DB_PORT") in Hport by (unfold db_keys; repeat constructor).
    injection Hport as <-. unfold getenv_default.
    rewrite (Hnone "DB_HOST"), (Hnone "DB_NAME"), (Hnone "DB_USER"), (Hnone "DB_PASSWORD")
      by (unfold db_keys; repeat constructor).
    reflexivity.
Qed.

Lemma initialize_vectorstore_bad_port s w :
  env !! "DB_PORT" = Some s ->
  PyInt.int s = None ->
  exists e b s1,
    initialize_vectorstore X env w
    = (Raise e,
       World (w_files w)
             (w_trace w
              ++ [(CallEmbeddings {| model_name := "sentence-transformers/all-MiniLM-L6-v2";
                                     device := "cpu" |}, b)])%list
             s1)
    /\ (b = true -> e = ValueError (PyInt.error_message s)).
Proof.
  intros Hs Hint.
  unfold initialize_vectorstore, bind, ext_call, lift_result, ret, db_port.
  rewrite Hs, Hint.
  destruct (embeddings_init X _ (w_ext w)) as [[[]|e1] s1]; cbn [is_ok].
  - eexists _, true, _. split; reflexivity.
  - eexists _, false, _. split; [reflexivity|discriminate].
Qed.

(** X8.  When [DB_PORT] is set to an ASCII text that [int] rejects,
    building the handle fails without contacting the database: the only
    call made is the construction of the embedding model, and when that
    returns the exception raised is the [ValueError] of [int]; for a text
    of at most 4300 characters its message is [invalid literal for int()
    with base 10: ] followed by the first 200 characters of [repr] of the
    text. *)
Theorem bad_port_never_contacts_database s w :
  env !! "DB_PORT" = Some s ->
  PyInt.is_ascii s = true ->
  PyInt.int s = None ->
  is_ok (fst (initialize_vectorstore X env w)) = false
  /\ (exists b,
        w_trace (snd (initialize_vectorstore X env w))
        = (w_trace w
           ++ [(CallEmbeddings {| model_name := "sentence-transformers/all-MiniLM-L6-v2";
                                  device := "cpu" |}, b)])%list
        /\ (b = true ->
            exists msg,
              fst (initialize_vectorstore X env w) = Raise (ValueError msg)
              /\ ((String.length s <= 4300)%nat ->
                  msg = "invalid literal for int() with base 10: "
                        +:+ PyStr.take 200 (PyInt.repr s)))).
Proof.
  intros Hs _ Hint.
  destruct (initialize_vectorstore_bad_port s w Hs Hint) as (e & b & s1 & Hrun & He).
  rewrite Hrun. cbn [fst snd w_trace is_ok].
  split; [reflexivity|]. exists b. split; [reflexivity|]. intros Hb.
  exists (PyInt.error_message s). split; [by rewrite (He Hb)|].
  apply error_message_short.
Qed.

(** X9.  A [DB_PORT] that [int] rejects is not noticed when the process
    starts: the start-up does not read the variable, so with the three
    required variables set the configuration check passes and the module
    is initialised exactly as without [DB_PORT].  Once it is initialised
    the status endpoint answers, but no upload and no question gets a 200
    reply: a request without files or with an empty question is turned
    down with 422 before its handler runs, every other question gets the
    500 error of the handler, which wraps the exception raised while the
    handle was built, and every other upload ends with that exception
    itself; in both the only call made is the construction of the
    embedding model. *)
Theorem bad_port_is_found_at_the_first_request
    {E1 : Type} (Sv : Services E1) (cfg : Config) s (b b' : boot E1) :
  (forall k, k ∈ required_keys -> truthy (env !! k) = true) ->
  env !! "DB_PORT" = Some s ->
  PyInt.is_ascii s = true ->
  PyInt.int s = None ->
  module_init Sv env b = (Ok cfg, b') ->
  is_ok (load_config env) = true
  /\ module_init Sv (delete "DB_PORT" env) b = (Ok cfg, b')
  /\ (forall w, serve Sv X env GetRoot b w
                = (Ok (Reply200 (RootMessage "Enhanced RAG API is running")), b', w))
  /\ (forall w, serve Sv X env (PostUpload []) b w = (Ok (Reply422 "files"), b', w))
  /\ (forall w, serve Sv X env (PostAsk EmptyString) b w = (Ok (Reply422 "question"), b', w))
  /\ (forall f files w,
        exists e ok s1,
          initialize_vectorstore X env w
          = (Raise e,
             World (w_files w)
                   (w_trace w
                    ++ [(CallEmbeddings
                           {| model_name := "sentence-transformers/all-MiniLM-L6-v2";
                              device := "cpu" |}, ok)])%list
                   s1)
          /\ (ok = true -> e = ValueError (PyInt.error_message s))
          /\ serve Sv X env (PostUpload (f :: files)) b w
             = (Ok (match e with
                    | HTTPException status_code detail =>
                        ReplyHTTPException status_code detail
                    | _ => ReplyServerError e
                    end), b', snd (initialize_vectorstore X env w)))
  /\ (forall c q w,
        exists e ok s1,
          initialize_vectorstore X env w
          = (Raise e,
             World (w_files w)
                   (w_trace w
                    ++ [(CallEmbeddings
                           {| model_name := "sentence-transformers/all-MiniLM-L6-v2";
                              device := "cpu" |}, ok)])%list
                   s1)
          /\ (ok = true -> e = ValueError (PyInt.error_message s))
          /\ serve Sv X env (PostAsk (String c q)) b w
             = (Ok (ReplyHTTPException 500 ("Error processing question: " +:+ str_exn X e)),
                b', snd (initialize_vectorstore X env w))).
Proof.
  intros Hreq Hs _ Hint Hinit.
  assert (Hcfg := load_config_ok env).
  rewrite !Hreq in Hcfg by (unfold required_keys; repeat constructor).
  specialize (Hcfg eq_refl eq_refl eq_refl).
  split; [by rewrite Hcfg|].
  split.
  { rewrite <- Hinit. unfold module_init, load_config.
    rewrite !lookup_delete_ne by discriminate. reflexivity. }
  unfold serve. rewrite Hinit. unfold endpoint. cbn [validate handle].
  split; [reflexivity|]. split; [reflexivity|]. split; [reflexivity|]. split.
  - intros f files w.
    destruct (initialize_vectorstore_bad_port s w Hs Hint) as (e & ok & s1 & Hrun & He).
    exists e, ok, s1. split; [exact Hrun|]. split; [exact He|].
    unfold bind, upload_files, bind. rewrite Hrun. cbn [snd].
    destruct e; reflexivity.
  - intros c q w.
    destruct (initialize_vectorstore_bad_port s w Hs Hint) as (e & ok & s1 & Hrun & He).
    exists e, ok, s1. split; [exact Hrun|]. split; [exact He|].
    unfold bind, ask_question, try_except, bind, raise. rewrite Hrun. reflexivity.
Qed.

End Handle.

Lemma handle_parameters_witness :
  connection_string
    {| connection_string := "postgresql+psycopg2://postgres:@localhost:5432/vectordb";
       embedding_function :=
         {| model_name := "sentence-transformers/all-MiniLM-L6-v2"; device := "cpu" |};
       collection_name := "document_vectors" |}
  = "postgresql+psycopg2://postgres:@localhost:5432/vectordb".
Proof.
  refine (proj2 (proj2 (proj2 (handle_parameters (Demo.collaborators []) Demo.env _
                                 Demo.w0 _))) _).
  - vm_compute. reflexivity.
  - intros k Hk. unfold db_keys in Hk.
    repeat (apply elem_of_cons in Hk as [->|Hk]; [vm_compute; reflexivity|]).
    by apply elem_of_nil in Hk.
Defined.

Lemma bad_port_never_contacts_database_witness :
  fst (initialize_vectorstore (Demo.collaborators []) Demo.env_bad_port Demo.w0)
  = Raise (ValueError "invalid literal for int() with base 10: 'abc'")
  /\ w_trace (snd (initialize_vectorstore (Demo.collaborators []) Demo.env_bad_port Demo.w0))
     = [(CallEmbeddings {| model_name := "sentence-transformers/all-MiniLM-L6-v2";
                           device := "cpu" |}, true)].
Proof.
  destruct (bad_port_never_contacts_database (Demo.collaborators []) Demo.env_bad_port
              "abc" Demo.w0) as (_ & b & Htrace & Hmsg); try (vm_compute; reflexivity).
  assert (Hb : b = true).
  { vm_compute in Htrace. by injection Htrace as <-. }
  destruct (Hmsg Hb) as (msg & Hraise & Htext).
  split.
  - rewrite Hraise, Htext by (vm_compute; lia). vm_compute. reflexivity.
  - rewrite Htrace, Hb. reflexivity.
Defined.

Lemma bad_port_is_found_at_the_first_request_witness :
  is_ok (load_config Demo.env_bad_port) = true
  /\ fst (fst (serve (DemoBoot.services []) (Demo.collaborators []) Demo.env_bad_port
                 (PostAsk "What is X?") DemoBoot.ready Demo.w0))
     = Ok (ReplyHTTPException 500
             "Error processing question: invalid literal for int() with base 10: 'abc'").
Proof.
  destruct (bad_port_is_found_at_the_first_request (Demo.collaborators [])
              Demo.env_bad_port (DemoBoot.services []) Demo.cfg "abc" DemoBoot.ready
              (snd (module_init (DemoBoot.services []) Demo.env_bad_port DemoBoot.ready)))
    as (Hc & _ & _ & _ & _ & _ & Ha).
  - intros k Hk. unfold required_keys in Hk.
    repeat (apply elem_of_cons in Hk as [->|Hk]; [vm_compute; reflexivity|]).
    by apply elem_of_nil in Hk.
  - vm_compute. reflexivity.
  - vm_compute. reflexivity.
  - vm_compute. reflexivity.
  - vm_compute. reflexivity.
  - split; [exact Hc|].
    destruct (Ha "W"%char "hat is X?" Demo.w0) as (e & ok & s1 & Hrun & He & Hserve).
    rewrite Hserve. cbn [fst].
    assert (Hok : ok = true).
    { vm_compute in Hrun. by injection Hrun as _ <- _. }
    rewrite (He Hok). vm_compute. reflexivity.
Defined.

(** ** Sanitization as a function on texts *)

Lemma list_ascii_of_string_app (a b : string) :
  list_ascii_of_string (a +:+ b)
  = (list_ascii_of_string a ++ list_ascii_of_string b)%list.
Proof.
  induction a as [|x a IH]; [reflexivity|].
  rewrite app_cons. cbn [list_ascii_of_string app]. f_equal. exact IH.
Qed.

Lemma string_of_list_ascii_app (l1 l2 : list ascii) :
  string_of_list_ascii (l1 ++ l2)
  = string_of_list_ascii l1 +:+ string_of_list_ascii l2.
Proof.
  induction l1 as [|x l1 IH]; [reflexivity|].
  cbn [app string_of_list_ascii]. rewrite app_cons. f_equal. exact IH.
Qed.

Lemma string_length_of_list (l : list ascii) :
  String.length (string_of_list_ascii l) = length l.
Proof. induction l as [|x l IH]; [reflexivity|]. cbn. by rewrite IH. Qed.

Lemma string_length_list (s : string) :
  length (list_ascii_of_string s) = String.length s.
Proof. induction s as [|x s IH]; [reflexivity|]. cbn. by rewrite IH. Qed.

Lemma escape_char_length (c : ascii) : (length (escape_char c) <= 1)%nat.
Proof.
  unfold escape_char.
  destruct (Ascii.eqb c "039" || Ascii.eqb c "034"); [cbn; lia|].
  destruct (Ascii.eqb c "010"); cbn; lia.
Qed.

Lemma escape_char_stable (c d : ascii) : d ∈ escape_char c -> escape_char d = [d].
Proof.
  unfold escape_char at 1.
  destruct (Ascii.eqb c "039" || Ascii.eqb c "034") eqn:Hq; [by intros ?%elem_of_nil|].
  destruct (Ascii.eqb c "010") eqn:Hn; intros ->%list_elem_of_singleton; [reflexivity|].
  unfold escape_char. by rewrite Hq, Hn.
Qed.

Lemma flat_map_escape_stable (l : list ascii) :
  (forall d, d ∈ l -> escape_char d = [d]) -> flat_map escape_char l = l.
Proof.
  induction l as [|x l IH]; intros H; [reflexivity|].
  cbn [flat_map]. rewrite (H x) by constructor.
  cbn [app]. f_equal. apply IH. intros d Hd. apply H. by constructor.
Qed.

Lemma contains_elem_of (c : ascii) (s : string) :
  PyStr.contains c s = false <-> c ∉ list_ascii_of_string s.
Proof.
  induction s as [|x s IH]; cbn [PyStr.contains list_ascii_of_string].
  - split; [intros _ H; by apply elem_of_nil in H|done].
  - rewrite orb_false_iff, IH, not_elem_of_cons.
    split; intros [H1 H2]; split; auto.
    + intros ->. by rewrite Ascii.eqb_refl in H1.
    + apply Ascii.eqb_neq. congruence.
Qed.

(** X10.  Sanitization works character by character: it distributes over
    concatenation, never lengthens a text, leaves its own results
    unchanged, and leaves unchanged every text without single quote,
    double quote and newline. *)
Theorem escape_context_is_characterwise :
  (forall a b, escape_context (a +:+ b) = escape_context a +:+ escape_context b)
  /\ (forall c, (String.length (escape_context c) <= String.length c)%nat)
  /\ (forall c, escape_context (escape_context c) = escape_context c)
  /\ (forall c,
        PyStr.contains "039" c = false ->
        PyStr.contains "034" c = false ->
        PyStr.contains "010" c = false ->
        escape_context c = c).
Proof.
  split; [|split; [|split]].
  - intros a b. rewrite !escape_context_chars, list_ascii_of_string_app, flat_map_app.
    apply string_of_list_ascii_app.
  - intros c. rewrite escape_context_chars, string_length_of_list, <- string_length_list.
    induction (list_ascii_of_string c) as [|x l IH]; [done|].
    cbn [flat_map]. rewrite length_app. cbn [length].
    pose proof (escape_char_length x). lia.
  - intros c. rewrite (escape_context_chars (escape_context c)).
    rewrite (escape_context_chars c) at 1.
    rewrite list_ascii_of_string_of_list_ascii, flat_map_escape_stable.
    + by rewrite escape_context_chars.
    + intros d Hd. apply list_elem_of_In, in_flat_map in Hd as (x & _ & Hd).
      apply (escape_char_stable x). by apply list_elem_of_In.
  - intros c Hs Hd Hn. rewrite escape_context_chars, flat_map_escape_stable.
    + apply string_of_list_ascii_of_string.
    + apply contains_elem_of in Hs, Hd, Hn.
      intros d Hin. unfold escape_char.
      destruct (Ascii.eqb_spec d "039") as [->|_]; [done|].
      destruct (Ascii.eqb_spec d "034") as [->|_]; [done|].
      destruct (Ascii.eqb_spec d "010") as [->|_]; [done|]. reflexivity.
Qed.

Lemma escape_context_is_characterwise_witness :
  escape_context "plain text, no quotes" = "plain text, no quotes".
Proof.
  apply (proj2 (proj2 (proj2 escape_context_is_characterwise))); reflexivity.
Defined.

(** ** More on the format dispatcher *)

Lemma rfind_from_lower_bound (c : ascii) (s : string) :
  forall i acc, -1 <= acc -> 0 <= i -> -1 <= PyStr.rfind_from c s i acc.
Proof.
  induction s as [|a s IH]; intros i acc Hacc Hi; cbn [PyStr.rfind_from]; [exact Hacc|].
  apply IH; [destruct (Ascii.eqb a c)|]; lia.
Qed.

Lemma rfind_from_upper_bound (c : ascii) (s : string) :
  forall i acc, acc <= i - 1 -> PyStr.rfind_from c s i acc <= i + PyStr.len s - 1.
Proof.
  induction s as [|a s IH]; intros i acc Hacc; cbn [PyStr.rfind_from].
  - unfold PyStr.len. cbn. lia.
  - rewrite len_cons. etrans; [apply IH; destruct (Ascii.eqb a c); lia|lia].
Qed.

Lemma splitext_no_dot (name : string) :
  PyStr.contains "." name = false -> OsPath.splitext name = (name, EmptyString).
Proof.
  intros Hdot. unfold OsPath.splitext, PyStr.rfind.
  rewrite (rfind_from_absent "." name Hdot).
  pose proof (rfind_from_lower_bound "/" name 0 (-1) ltac:(lia) ltac:(lia)).
  destruct (Z.ltb_spec (PyStr.rfind_from "/" name 0 (-1)) (-1)); [lia|reflexivity].
Qed.

Lemma splitext_dot_in_directory_only (dir name : string) :
  PyStr.contains "." name = false ->
  PyStr.contains "/" name = false ->
  OsPath.splitext (dir +:+ "/" +:+ name) = (dir +:+ "/" +:+ name, EmptyString).
Proof.
  intros Hdot Hsl. unfold OsPath.splitext, PyStr.rfind.
  rewrite !rfind_from_app, !app_cons, !app_empty. cbn [PyStr.rfind_from].
  change (Ascii.eqb "/" "/") with true. change (Ascii.eqb "/" ".") with false.
  cbn match. rewrite (rfind_from_absent "/" name Hsl), (rfind_from_absent "." name Hdot).
  pose proof (rfind_from_upper_bound "." dir 0 (-1) ltac:(lia)).
  destruct (Z.ltb_spec (0 + PyStr.len dir) (PyStr.rfind_from "." dir 0 (-1))); [lia|reflexivity].
Qed.

(** X11.  A file name without a dot has no extension, whatever dots its
    directory has: the dispatcher refuses it with the [ValueError] for the
    empty extension, and an upload passes over such a file. *)
Theorem files_without_extension_are_unsupported (dir name body : string) :
  PyStr.contains "." name = false ->
  PyStr.contains "/" name = false ->
  get_file_loader name = Raise (ValueError "Unsupported file format: ")
  /\ get_file_loader (dir +:+ "/" +:+ name) = Raise (ValueError "Unsupported file format: ")
  /\ supported {| filename := name; body := body |} = false
  /\ supported {| filename := dir +:+ "/" +:+ name; body := body |} = false.
Proof.
  intros Hdot Hsl.
  assert (H1 : extension_of name = EmptyString).
  { unfold extension_of. by rewrite splitext_no_dot. }
  assert (H2 : extension_of (dir +:+ "/" +:+ name) = EmptyString).
  { unfold extension_of. by rewrite splitext_dot_in_directory_only. }
  unfold get_file_loader, supported. cbn [filename]. rewrite H1, H2.
  repeat split; reflexivity.
Qed.

Lemma files_without_extension_are_unsupported_witness :
  get_file_loader ("backup.2024" +:+ "/" +:+ "README")
  = Raise (ValueError "Unsupported file format: ").
Proof.
  refine (proj1 (proj2 (files_without_extension_are_unsupported
                          "backup.2024" "README" "text" _ _))); reflexivity.
Defined.

(** X12.  For a path made of a directory part (empty or ending with a
    slash), a name that does not start with a dot, a dot and a last
    extension, the loader is chosen by the lower-cased last extension
    alone: earlier dots of the name and the directory do not count. *)
Theorem loader_is_chosen_by_last_extension (pre : string) (c : ascii) (rest e : string) :
  PyStr.rfind "/" pre = PyStr.len pre - 1 ->
  c <> "."%char ->
  PyStr.contains "/" (String c rest) = false ->
  PyStr.contains "." e = false ->
  PyStr.contains "/" e = false ->
  get_file_loader (pre +:+ String c rest +:+ "." +:+ e)
  = match SUPPORTED_FORMATS !! ("." +:+ PyStr.lower e) with
    | Some cls => Ok cls
    | None => Raise (ValueError ("Unsupported file format: ." +:+ PyStr.lower e))
    end.
Proof.
  intros. unfold get_file_loader. rewrite extension_of_ordinary by assumption.
  reflexivity.
Qed.

Lemma loader_is_chosen_by_last_extension_witness :
  get_file_loader ("uploads/" +:+ "Archive.pdf" +:+ "." +:+ "DOCX") = Ok Docx2txtLoader.
Proof.
  rewrite (loader_is_chosen_by_last_extension "uploads/" "A" "rchive.pdf" "DOCX");
    [reflexivity|reflexivity|discriminate|reflexivity|reflexivity|reflexivity].
Defined.

(** *** Letter case *)

Lemma lower_ascii_keeps_separators (a : ascii) :
  Ascii.eqb (PyStr.lower_ascii a) "/" = Ascii.eqb a "/"
  /\ Ascii.eqb (PyStr.lower_ascii a) "." = Ascii.eqb a "."
  /\ PyStr.lower_ascii (PyStr.lower_ascii a) = PyStr.lower_ascii a.
Proof.
  destruct a as [[] [] [] [] [] [] [] []]; repeat split; reflexivity.
Qed.

Lemma lower_idempotent (s : string) : PyStr.lower (PyStr.lower s) = PyStr.lower s.
Proof.
  induction s as [|a s IH]; [reflexivity|].
  cbn [PyStr.lower]. rewrite IH.
  by rewrite (proj2 (proj2 (lower_ascii_keeps_separators a))).
Qed.

Lemma lower_length (s : string) : String.length (PyStr.lower s) = String.length s.
Proof. induction s as [|a s IH]; [reflexivity|]. cbn. by rewrite IH. Qed.

Lemma rfind_from_lower (c : ascii) (s : string) :
  c = "/"%char \/ c = "."%char ->
  forall i acc, PyStr.rfind_from c (PyStr.lower s) i acc = PyStr.rfind_from c s i acc.
Proof.
  intros Hc. induction s as [|a s IH]; intros i acc; [reflexivity|].
  cbn [PyStr.lower PyStr.rfind_from]. rewrite IH.
  destruct (lower_ascii_keeps_separators a) as (Hs & Hd & _).
  destruct Hc as [-> | ->]; by rewrite ?Hs, ?Hd.
Qed.

Lemma substring_lower (s : string) :
  forall n m, String.substring n m (PyStr.lower s) = PyStr.lower (String.substring n m s).
Proof.
  induction s as [|a s IH]; intros [|n] [|m]; cbn [PyStr.lower String.substring];
    try reflexivity; rewrite ?IH; reflexivity.
Qed.

Lemma take_lower (s : string) :
  forall n, PyStr.take n (PyStr.lower s) = PyStr.lower (PyStr.take n s).
Proof.
  induction s as [|a s IH]; intros [|n]; cbn [PyStr.lower PyStr.take];
    try reflexivity. by rewrite IH.
Qed.

Lemma drop_lower (s : string) :
  forall n, PyStr.drop n (PyStr.lower s) = PyStr.lower (PyStr.drop n s).
Proof.
  induction s as [|a s IH]; intros [|n]; cbn [PyStr.lower PyStr.drop];
    try reflexivity. apply IH.
Qed.

Lemma slice_lower (s : string) (i j : Z) :
  PyStr.slice (PyStr.lower s) i j = PyStr.lower (PyStr.slice s i j).
Proof.
  unfold PyStr.slice, PyStr.len. rewrite lower_length.
  destruct (j <=? i); [reflexivity|]. apply substring_lower.
Qed.

Lemma eqb_dot_lower (x : string) :
  String.eqb (PyStr.lower x) "." = String.eqb x ".".
Proof.
  destruct x as [|a [|b t]]; [reflexivity| |].
  - cbn [PyStr.lower String.eqb].
    by rewrite (proj1 (proj2 (lower_ascii_keeps_separators a))).
  - cbn [PyStr.lower String.eqb].
    by destruct (Ascii.eqb (PyStr.lower_ascii a) "."), (Ascii.eqb a ".").
Qed.

Lemma has_non_dot_lower (p : string) (n : nat) :
  forall i, OsPath.has_non_dot (PyStr.lower p) i n = OsPath.has_non_dot p i n.
Proof.
  induction n as [|n IH]; intros i; [reflexivity|].
  cbn [OsPath.has_non_dot]. by rewrite slice_lower, eqb_dot_lower, IH.
Qed.

Lemma splitext_lower (p : string) :
  OsPath.splitext (PyStr.lower p)
  = (PyStr.lower (fst (OsPath.splitext p)), PyStr.lower (snd (OsPath.splitext p))).
Proof.
  unfold OsPath.splitext, PyStr.rfind.
  rewrite !rfind_from_lower by auto. rewrite has_non_dot_lower.
  destruct (_ && _); cbn [fst snd]; [|reflexivity].
  by rewrite take_lower, drop_lower.
Qed.

Lemma extension_of_lower (p : string) : extension_of (PyStr.lower p) = extension_of p.
Proof.
  unfold extension_of. rewrite splitext_lower. cbn [snd]. apply lower_idempotent.
Qed.

(** X13.  The dispatcher does not look at letter case anywhere in the
    path: two paths that are equal once lower-cased get the same loader or
    the same error, and are both skipped or both processed by an upload. *)
Theorem dispatcher_ignores_letter_case :
  (forall p, get_file_loader (PyStr.lower p) = get_file_loader p)
  /\ (forall p q, PyStr.lower p = PyStr.lower q -> get_file_loader p = get_file_loader q)
  /\ (forall p q b1 b2, PyStr.lower p = PyStr.lower q ->
        supported {| filename := p; body := b1 |}
        = supported {| filename := q; body := b2 |}).
Proof.
  assert (H : forall p q, PyStr.lower p = PyStr.lower q -> extension_of p = extension_of q).
  { intros p q Hpq. by rewrite <- (extension_of_lower p), Hpq, extension_of_lower. }
  split; [|split].
  - intros p. unfold get_file_loader. by rewrite extension_of_lower.
  - intros p q Hpq. unfold get_file_loader. by rewrite (H p q Hpq).
  - intros p q b1 b2 Hpq. unfold supported. cbn [filename]. by rewrite (H p q Hpq).
Qed.

Lemma dispatcher_ignores_letter_case_witness :
  get_file_loader "Docs/Annual.Report.PDF" = get_file_loader "docs/annual.report.pdf".
Proof.
  apply (proj1 (proj2 dispatcher_ignores_letter_case)). reflexivity.
Defined.

(** ** The ingestion loop *)

Section Loop.

Context {E : Type} (X : Collaborators E).
Variable cfg : Config.
Variable env : gmap string string.

Lemma upload_loop_app vs l1 l2 :
  forall acc w,
    upload_loop X cfg vs (l1 ++ l2) acc w
    = bind (upload_loop X cfg vs l1 acc) (fun acc' => upload_loop X cfg vs l2 acc') w.
Proof.
  induction l1 as [|f l1 IH]; intros acc w; [reflexivity|].
  cbn [app upload_loop].
  destruct (SUPPORTED_FORMATS !! extension_of (filename f)); [|apply IH].
  unfold bind at 1 2 3.
  destruct (upload_one X cfg vs f _ acc w) as [[acc'|e] w']; [apply IH|reflexivity].
Qed.

(** X14.  Files are processed one after the other and nothing is undone.
    If the request for the files [l1] succeeds, then the request for [l1]
    followed by any [l2] first makes the same calls and reaches the same
    state, whatever happens for [l2]; when it succeeds too, its response
    is the response for [l1] with the entries of [l2] appended and their
    chunks added to the total. *)
Theorem earlier_files_are_not_rolled_back l1 l2 w r1 w1 :
  upload_files X cfg env l1 w = (Ok r1, w1) ->
  exists more,
    w_trace (snd (upload_files X cfg env (l1 ++ l2) w)) = (w_trace w1 ++ more)%list
    /\ abandoned_at_failure (is_ok (fst (upload_files X cfg env (l1 ++ l2) w))) more
    /\ (forall r, fst (upload_files X cfg env (l1 ++ l2) w) = Ok r ->
          exists entries,
            processed_files r = (processed_files r1 ++ entries)%list
            /\ total_chunks r = total_chunks r1 + py_sum (map chunks_created entries)
            /\ map pf_filename entries = map filename (List.filter supported l2)).
Proof.
  intros H1. apply upload_files_Ok in H1 as (vs & w0 & acc1 & Hinit & Hloop & ->).
  destruct (upload_files X cfg env (l1 ++ l2) w) as [r2 w2] eqn:Hrun. cbn [fst snd].
  unfold upload_files, bind in Hrun. rewrite Hinit in Hrun.
  unfold try_except, bind in Hrun. rewrite upload_loop_app in Hrun.
  unfold bind in Hrun. rewrite Hloop in Hrun.
  destruct (upload_loop X cfg vs l2 acc1 w1) as [[acc2|e] w3] eqn:H2;
    destruct (disciplined_upload_loop X cfg vs l2 _ _ _ _ H2) as (more & T & A);
    cbn [ret raise] in Hrun; injection Hrun as <- <-;
    exists more; cbn [is_ok] in *; (split; [exact T|]); (split; [exact A|]).
  - intros r Hr. injection Hr as <-. cbn [processed_files total_chunks].
    apply upload_loop_Ok in H2 as (entries & _ & Hs & Hf & Hn & _). eauto.
  - discriminate.
Qed.

(** *** Which files are read *)

Lemma no_read_requests (tr : list event) :
  Forall (fun ev => read_requests [ev] = []) tr -> read_requests tr = [].
Proof.
  induction 1 as [|[c b] l Hc _ IH]; [reflexivity|].
  destruct c; cbn in *; try discriminate; exact IH.
Qed.

Lemma read_requests_app tr1 tr2 :
  read_requests (tr1 ++ tr2) = (read_requests tr1 ++ read_requests tr2)%list.
Proof.
  induction tr1 as [|[c b] tr1 IH]; [reflexivity|].
  destruct c; cbn; rewrite ?IH; reflexivity.
Qed.

Lemma upload_one_reads vs file ext acc w r w' :
  upload_one X cfg vs file ext acc w = (r, w') ->
  exists new, w_trace w' = (w_trace w ++ new)%list
              /\ read_requests new = [filename file].
Proof.
  unfold upload_one. unfold bind at 1. unfold ext_call at 1.
  destruct (file_read X file (w_ext w)) as [[content|e] e1].
  - match goal with
    | |- ?m ?w1 = _ -> _ =>
        assert (Hm : emits (fun ev => read_requests [ev] = []) m)
    end.
    { unfold upload_to_gcs, process_file. emits. }
    intros Hrun. destruct (Hm _ _ _ Hrun) as (new & T & HP).
    exists ((CallRead (filename file), true) :: new). split.
    + rewrite T. cbn [w_trace is_ok]. by rewrite <- app_assoc.
    + cbn [read_requests]. by rewrite (no_read_requests new HP).
  - intros [= <- <-]. eexists. split; reflexivity.
Qed.

Lemma upload_loop_reads vs files :
  forall acc w r w',
    upload_loop X cfg vs files acc w = (r, w') ->
    exists new, w_trace w' = (w_trace w ++ new)%list
      /\ read_requests new `prefix_of` map filename (List.filter supported files)
      /\ (is_ok r = true ->
          read_requests new = map filename (List.filter supported files)).
Proof.
  induction files as [|f rest IH]; intros acc w r w' H; cbn [upload_loop] in H.
  - injection H as <- <-. exists []. rewrite app_nil_r. by repeat split.
  - cbn [List.filter].
    destruct (SUPPORTED_FORMATS !! extension_of (filename f)) as [cls|] eqn:Hext.
    + assert (Hs : supported f = true).
      { unfold supported. rewrite Hext. by apply bool_decide_eq_true_2. }
      rewrite Hs. cbn [map].
      unfold bind in H.
      destruct (upload_one X cfg vs f _ acc w) as [[acc1|e] w1] eqn:H1;
        apply upload_one_reads in H1 as (new1 & T1 & R1).
      * apply IH in H as (new & T & Hp & Hok).
        exists (new1 ++ new)%list. rewrite T, T1, read_requests_app, R1, <- app_assoc.
        split; [reflexivity|]. cbn [app]. split.
        -- by apply prefix_cons.
        -- intros Hr. f_equal. by apply Hok.
      * injection H as <- <-. exists new1. rewrite R1.
        split; [exact T1|]. split; [|discriminate].
        by apply prefix_cons, prefix_nil.
    + assert (Hs : supported f = false).
      { unfold supported. rewrite Hext. apply bool_decide_eq_false_2.
        intros [? ?]; discriminate. }
      rewrite Hs. by apply IH in H.
Qed.

(** X15.  Only files with a supported extension are read, each at most
    once and in upload order: the names read during a request are a prefix
    of the names of the supported files, and all of them when the request
    succeeds. *)
Theorem files_are_read_in_order files w :
  exists new,
    w_trace (snd (upload_files X cfg env files w)) = (w_trace w ++ new)%list
    /\ read_requests new `prefix_of` map filename (List.filter supported files)
    /\ (is_ok (fst (upload_files X cfg env files w)) = true ->
        read_requests new = map filename (List.filter supported files)).
Proof.
  unfold upload_files, bind.
  destruct (initialize_vectorstore X env w) as [[vs|e0] w0] eqn:Hinit;
    destruct (emits_query_initialize_vectorstore X env _ _ _ Hinit) as (new0 & T0 & Q0);
    assert (R0 : read_requests new0 = [])
      by (clear -Q0; induction Q0 as [|[c b] l Hc _ IH]; [done|];
          destruct c; cbn in *; try discriminate; exact IH).
  - unfold try_except, bind.
    destruct (upload_loop X cfg vs files (0, []) w0) as [[acc|e] w1] eqn:Hloop;
      apply upload_loop_reads in Hloop as (new & T & Hp & Hok);
      exists (new0 ++ new)%list; cbn [fst snd ret raise is_ok] in *;
      rewrite T, T0, read_requests_app, R0, <- app_assoc; cbn [app];
      (split; [reflexivity|]); (split; [exact Hp|]); [exact Hok|discriminate].
  - exists new0. cbn [fst snd is_ok]. rewrite R0.
    split; [exact T0|]. split; [apply prefix_nil|discriminate].
Qed.

End Loop.

Lemma earlier_files_are_not_rolled_back_witness :
  exists more,
    w_trace (snd (upload_files (Demo.collaborators []) Demo.cfg Demo.env
                    ([Demo.notes] ++ [Demo.report]) Demo.w0))
    = (w_trace (snd (upload_files (Demo.collaborators []) Demo.cfg Demo.env
                       [Demo.notes] Demo.w0)) ++ more)%list.
Proof.
  destruct (earlier_files_are_not_rolled_back (Demo.collaborators []) Demo.cfg
              Demo.env [Demo.notes] [Demo.report] Demo.w0
              {| status := "success";
                 processed_files :=
                   [{| pf_filename := "notes.TXT"; chunks_created := 3;
                       gcs_url := "https://storage.googleapis.com/bucket/documents/uuid-1/notes.TXT" |}];
                 total_chunks := 3 |}
              (snd (upload_files (Demo.collaborators []) Demo.cfg Demo.env
                      [Demo.notes] Demo.w0)))
    as (more & T & _).
  - vm_compute. reflexivity.
  - exists more. exact T.
Defined.

(** ** Temporary files of a successful request *)

Section TemporaryFiles.

Context {E : Type} (X : Collaborators E).
Variable cfg : Config.
Variable env : gmap string string.

Lemma write_requests_app tr1 tr2 :
  write_requests (tr1 ++ tr2) = (write_requests tr1 ++ write_requests tr2)%list.
Proof.
  induction tr1 as [|[c b] tr1 IH]; [reflexivity|].
  destruct c; cbn; rewrite ?IH; reflexivity.
Qed.

Lemma upload_one_Ok_files vs file ext acc w acc' w' :
  upload_one X cfg vs file ext acc w = (Ok acc', w') ->
  exists tmp new,
    w_trace w' = (w_trace w ++ new)%list
    /\ write_requests new = [tmp]
    /\ endswith ext tmp = true
    /\ w_files w' = w_files w ∖ {[tmp]}.
Proof.
  unfold upload_one, upload_to_gcs. intros H.
  apply bind_Ok_inv in H as (content & w1 & H1 & H).
  apply bind_Ok_inv in H as (base & w2 & H2 & H).
  apply bind_Ok_inv in H as ([] & w3 & H3 & H).
  apply bind_Ok_inv in H as ([] & w4 & H4 & H).
  apply bind_Ok_inv in H as (uuid & w5 & H5 & H).
  apply bind_Ok_inv in H as (url & w6 & H6 & H).
  apply bind_Ok_inv in H as (num & w7 & H7 & H).
  apply bind_Ok_inv in H as ([] & w8 & H8 & H).
  injection H as <- <-.
  apply ext_call_inv in H1 as (e1 & _ & ->).
  apply ext_call_inv in H2 as (e2 & _ & ->).
  injection H3 as <-.
  apply ext_call_inv in H4 as (e4 & _ & ->).
  apply ext_pure_inv in H5 as (e5 & _ & ->).
  apply ext_call_inv in H6 as (e6 & _ & ->).
  apply process_file_Ok in H7 as (cls & docs & b1 & b2 & _ & -> & F7 & T7).
  apply os_unlink_Ok_inv in H8 as ->.
  cbn in *. exists (base +:+ ext). eexists.
  rewrite T7, F7, <- !app_assoc. split; [reflexivity|]. split; [reflexivity|]. split.
  - unfold endswith. apply andb_true_intro. split.
    + assert (Hl : (String.length (base +:+ ext) - String.length ext
                    = String.length base)%nat).
      { pose proof (len_app base ext) as Hl. unfold PyStr.len in Hl. lia. }
      rewrite Hl, drop_app. apply String.eqb_refl.
    + apply Nat.leb_le. pose proof (len_app base ext) as Hl. unfold PyStr.len in Hl. lia.
  - apply set_eq. intros x.
    rewrite !elem_of_difference, elem_of_union, elem_of_singleton. tauto.
Qed.

Lemma upload_loop_Ok_files vs files :
  forall acc w acc' w',
    upload_loop X cfg vs files acc w = (Ok acc', w') ->
    exists new,
      w_trace w' = (w_trace w ++ new)%list
      /\ length (write_requests new) = length (List.filter supported files)
      /\ w_files w' = w_files w ∖ list_to_set (write_requests new).
Proof.
  induction files as [|f rest IH]; intros acc w acc' w' H; cbn [upload_loop] in H.
  - injection H as <- <-. exists []. rewrite app_nil_r. cbn.
    split; [done|]. split; [done|].
    apply set_eq. intros x. rewrite elem_of_difference, elem_of_empty. tauto.
  - cbn [List.filter].
    destruct (SUPPORTED_FORMATS !! extension_of (filename f)) as [cls|] eqn:Hext.
    + assert (Hs : supported f = true).
      { unfold supported. rewrite Hext. by apply bool_decide_eq_true_2. }
      rewrite Hs.
      apply bind_Ok_inv in H as (acc1 & w1 & H1 & H).
      apply upload_one_Ok_files in H1 as (tmp & new1 & T1 & W1 & _ & F1).
      apply IH in H as (new & T & L & F).
      exists (new1 ++ new)%list.
      rewrite T, T1, F, F1, write_requests_app, W1, <- app_assoc. cbn [app length].
      split; [reflexivity|]. split; [by rewrite L|].
      apply set_eq. intros x.
      rewrite !elem_of_difference, elem_of_list_to_set, elem_of_singleton.
      rewrite elem_of_list_to_set, elem_of_cons. tauto.
    + assert (Hs : supported f = false).
      { unfold supported. rewrite Hext. apply bool_decide_eq_false_2.
        intros [? ?]; discriminate. }
      rewrite Hs. by apply IH in H.
Qed.

(** X16.  After a request that succeeds, the temporary files are those
    that existed before it, less the paths written during the request: one
    temporary file is written per supported file, none of them is left,
    and no other temporary file is removed. *)
Theorem successful_upload_leaves_no_temporary_file files w resp :
  fst (upload_files X cfg env files w) = Ok resp ->
  exists new,
    w_trace (snd (upload_files X cfg env files w))
    = (w_trace (snd (initialize_vectorstore X env w)) ++ new)%list
    /\ length (write_requests new) = length (processed_files resp)
    /\ w_files (snd (upload_files X cfg env files w))
       = w_files w ∖ list_to_set (write_requests new)
    /\ (forall path, path ∈ write_requests new ->
          path ∉ w_files (snd (upload_files X cfg env files w))).
Proof.
  destruct (upload_files X cfg env files w) as [r w'] eqn:Hrun.
  cbn [fst snd]. intros ->.
  pose proof Hrun as Hrun'.
  apply upload_files_Ok in Hrun as (vs & w1 & acc & Hinit & Hloop & ->).
  pose proof Hloop as Hloop'.
  apply upload_loop_Ok_files in Hloop as (new & T & L & F).
  apply upload_loop_Ok in Hloop' as (entries & _ & Hs & _ & Hn & _).
  rewrite Hinit. cbn [snd processed_files].
  rewrite (keeps_files_initialize_vectorstore X env _ _ _ Hinit) in F.
  exists new. split; [exact T|]. split.
  - rewrite L. cbn [snd app] in Hs. rewrite Hs.
    rewrite <- (length_map pf_filename entries), Hn. by rewrite length_map.
  - split; [exact F|]. intros path Hpath. rewrite F.
    rewrite elem_of_difference, elem_of_list_to_set. tauto.
Qed.

End TemporaryFiles.

Lemma successful_upload_leaves_no_temporary_file_witness :
  exists new,
    w_files (snd (upload_files (Demo.collaborators []) Demo.cfg Demo.env
                    [Demo.notes; Demo.report] Demo.w0))
    = w_files Demo.w0 ∖ list_to_set (write_requests new)
    /\ length (write_requests new) = 2%nat.
Proof.
  destruct (successful_upload_leaves_no_temporary_file (Demo.collaborators []) Demo.cfg
              Demo.env [Demo.notes; Demo.report] Demo.w0
              {| status := "success";
                 processed_files :=
                   [{| pf_filename := "notes.TXT"; chunks_created := 3;
                       gcs_url := "https://storage.googleapis.com/bucket/documents/uuid-1/notes.TXT" |};
                    {| pf_filename := "report.pdf"; chunks_created := 2;
                       gcs_url := "https://storage.googleapis.com/bucket/documents/uuid-3/report.pdf" |}];
                 total_chunks := 5 |})
    as (new & _ & L & F & _).
  - vm_compute. reflexivity.
  - exists new. split; [exact F|exact L].
Defined.

(** ** The order of the calls of an upload *)

Lemma string_length_app (a b : string) :
  String.length (a +:+ b) = (String.length a + String.length b)%nat.
Proof. pose proof (len_app a b) as H. unfold PyStr.len in H. lia. Qed.

Lemma startswith_app (p x : string) : PyStr.startswith p (p +:+ x) = true.
Proof.
  induction p as [|a p IH]; [by destruct x|].
  rewrite app_cons. cbn [PyStr.startswith]. by rewrite Ascii.eqb_refl, IH.
Qed.

Lemma endswith_app (a b : string) : endswith b (a +:+ b) = true.
Proof.
  unfold endswith. rewrite string_length_app.
  replace (String.length a + String.length b - String.length b)%nat
    with (String.length a) by lia.
  rewrite drop_app, String.eqb_refl. apply Nat.leb_le. lia.
Qed.

Lemma endswith_app_r (a b c : string) : endswith c (a +:+ b +:+ c) = true.
Proof. rewrite <- str_app_assoc. apply endswith_app. Qed.

Lemma protocol_run_app bucket vs tr1 tr2 :
  forall ph,
    protocol_run bucket vs ph (tr1 ++ tr2)
    = match protocol_run bucket vs ph tr1 with
      | Some ph' => protocol_run bucket vs ph' tr2
      | None => None
      end.
Proof.
  induction tr1 as [|ev tr1 IH]; intros ph; [reflexivity|].
  cbn [app protocol_run]. destruct (protocol_step bucket vs ph ev); [apply IH|reflexivity].
Qed.

Ltac protocol_leaf Hsup :=
  intros [= <- <-]; eexists _, _;
  (split; [cbn [w_trace]; rewrite <- ?app_assoc; reflexivity|]);
  repeat (cbn [app protocol_run protocol_step next guard andb is_ok];
          first [ rewrite (bool_decide_eq_true_2 _ Hsup)
                | rewrite String.eqb_refl
                | rewrite endswith_app
                | rewrite endswith_app_r
                | rewrite startswith_app
                | rewrite Z.eqb_refl
                | rewrite (bool_decide_eq_true_2 _ (eq_refl _))
                | match goal with
                  | H : _ !! _ = Some _ |- _ => rewrite (bool_decide_eq_true_2 _ H)
                  end ]);
  cbn [app protocol_run protocol_step next guard andb is_ok];
  (split; [reflexivity|intros Hok; first [discriminate Hok|reflexivity]]).

Section Protocol.

Context {E : Type} (X : Collaborators E).
Variable cfg : Config.
Variable env : gmap string string.

Lemma upload_one_protocol vs file acc w r w' :
  is_Some (SUPPORTED_FORMATS !! extension_of (filename file)) ->
  upload_one X cfg vs file (extension_of (filename file)) acc w = (r, w') ->
  exists new ph,
    w_trace w' = (w_trace w ++ new)%list
    /\ protocol_run (BUCKET_NAME cfg) vs Idle new = Some ph
    /\ (is_ok r = true -> ph = Idle).
Proof.
  intros Hsup.
  unfold upload_one, upload_to_gcs, process_file, get_file_loader, try_except, bind,
    ext_call, ext_pure, fs_create, lift_result, ret, raise, os_unlink.
  cbn [w_ext w_trace w_files].
  destruct (file_read X file (w_ext w)) as [[content|e] e1];
    cbn [w_ext w_trace w_files]; [|protocol_leaf Hsup].
  destruct (temp_base X e1) as [[base|e] e2];
    cbn [w_ext w_trace w_files]; [|protocol_leaf Hsup].
  destruct (temp_write X _ content e2) as [[[]|e] e3];
    cbn [w_ext w_trace w_files]; [|protocol_leaf Hsup].
  destruct (uuid4 X e3) as [uuid e4]; cbn [w_ext w_trace w_files].
  destruct (blob_upload X _ _ _ e4) as [[url|e] e5];
    cbn [w_ext w_trace w_files]; [|protocol_leaf Hsup].
  destruct (SUPPORTED_FORMATS !! extension_of (base +:+ extension_of (filename file)))
    as [cls|] eqn:Hcls; cbn [w_ext w_trace w_files]; [|protocol_leaf Hsup].
  destruct (loader_load X cls _ e5) as [[documents|e] e6];
    cbn [w_ext w_trace w_files]; [|protocol_leaf Hsup].
  destruct (split_documents X _ _ _ documents e6) as [[docs|e] e7];
    cbn [w_ext w_trace w_files]; [|protocol_leaf Hsup].
  destruct (add_documents X vs docs e7) as [[[]|e] e8];
    cbn [w_ext w_trace w_files]; [|protocol_leaf Hsup].
  destruct (decide _) as [_|Hno]; [protocol_leaf Hsup|].
  destruct Hno. apply elem_of_union_l. by apply elem_of_singleton.
Qed.

End Protocol.

Section ProtocolOfRequest.

Context {E : Type} (X : Collaborators E).
Variable cfg : Config.
Variable env : gmap string string.

Lemma upload_loop_protocol vs files :
  forall acc w r w',
    upload_loop X cfg vs files acc w = (r, w') ->
    exists new ph,
      w_trace w' = (w_trace w ++ new)%list
      /\ protocol_run (BUCKET_NAME cfg) vs Idle new = Some ph
      /\ (is_ok r = true -> ph = Idle).
Proof.
  induction files as [|f rest IH]; intros acc w r w' H; cbn [upload_loop] in H.
  - injection H as <- <-. exists [], Idle. rewrite app_nil_r. by repeat split.
  - destruct (SUPPORTED_FORMATS !! extension_of (filename f)) as [cls|] eqn:Hext;
      [|by apply IH in H].
    unfold bind in H.
    destruct (upload_one X cfg vs f _ acc w) as [[acc1|e] w1] eqn:H1;
      apply upload_one_protocol in H1 as (new1 & ph1 & T1 & P1 & I1);
      try (rewrite Hext; eauto).
    + apply IH in H as (new & ph & T & P & I).
      exists (new1 ++ new)%list, ph.
      rewrite T, T1, <- app_assoc, protocol_run_app, P1, (I1 eq_refl).
      by repeat split.
    + injection H as <- <-. exists new1, ph1. split; [exact T1|]. split; [exact P1|].
      discriminate.
Qed.

(** X17.  The calls of an upload request, after the handle is built,
    follow one fixed order for each supported file in turn: the file is
    read; a temporary file is created whose suffix is the file's
    extension; the content is written to a path ending with that suffix;
    that same path is uploaded, to the configured bucket, under a
    destination that starts with [documents/] and ends with a slash and
    the file's name; that same path is loaded with the loader of its
    extension; the result is split with chunk size 1000 and overlap 200;
    the chunks are added through the handle of this request; and that same
    path is unlinked.  A call that raised is the last one.  When the
    request succeeds the calls end with an unlink: every file started was
    finished. *)
Theorem upload_calls_follow_the_protocol files w vs :
  fst (initialize_vectorstore X env w) = Ok vs ->
  exists new ph,
    w_trace (snd (upload_files X cfg env files w))
    = (w_trace (snd (initialize_vectorstore X env w)) ++ new)%list
    /\ protocol_run (BUCKET_NAME cfg) vs Idle new = Some ph
    /\ (is_ok (fst (upload_files X cfg env files w)) = true -> ph = Idle).
Proof.
  intros Hinit. unfold upload_files, bind.
  destruct (initialize_vectorstore X env w) as [[vs0|e0] w0]; cbn [fst snd] in *;
    [injection Hinit as ->|discriminate].
  unfold try_except, bind.
  destruct (upload_loop X cfg vs files (0, []) w0) as [[acc|e] w1] eqn:Hloop;
    apply upload_loop_protocol in Hloop as (new & ph & T & P & I);
    exists new, ph; cbn [fst snd ret raise is_ok] in *; auto.
Qed.

End ProtocolOfRequest.

Lemma upload_calls_follow_the_protocol_witness :
  exists new ph,
    w_trace (snd (upload_files (Demo.collaborators [Demo.OpAddDocuments]) Demo.cfg Demo.env
                    [Demo.picture; Demo.notes; Demo.report] Demo.w0))
    = (w_trace (snd (initialize_vectorstore (Demo.collaborators [Demo.OpAddDocuments])
                       Demo.env Demo.w0)) ++ new)%list
    /\ protocol_run "bucket"
         {| connection_string := "postgresql+psycopg2://postgres:@localhost:5432/vectordb";
            embedding_function :=
              {| model_name := "sentence-transformers/all-MiniLM-L6-v2"; device := "cpu" |};
            collection_name := "document_vectors" |}
         Idle new = Some ph.
Proof.
  destruct (upload_calls_follow_the_protocol (Demo.collaborators [Demo.OpAddDocuments])
              Demo.cfg Demo.env [Demo.picture; Demo.notes; Demo.report] Demo.w0
              {| connection_string := "postgresql+psycopg2://postgres:@localhost:5432/vectordb";
                 embedding_function :=
                   {| model_name := "sentence-transformers/all-MiniLM-L6-v2"; device := "cpu" |};
                 collection_name := "document_vectors" |})
    as (new & ph & T & P & _).
  - vm_compute. reflexivity.
  - exists new, ph. split; [exact T|exact P].
Defined.

(** The automaton refuses a trace in which a file is loaded before it is
    uploaded. *)
Example protocol_refuses_load_before_upload :
  protocol_run "bucket"
    {| connection_string := "c"; embedding_function := {| model_name := "m"; device := "cpu" |};
       collection_name := "document_vectors" |}
    Idle
    [(CallRead "a.txt", true); (CallTempFile ".txt", true); (CallWrite "/tmp/x.txt", true);
     (CallLoad TextLoader "/tmp/x.txt", true)]
  = None.
Proof. vm_compute. reflexivity. Qed.

(** ** Module initialisation *)

Section Startup.

Context {E : Type} (Sv : Services E).

(** X18.  The spaCy model is loaded once when that works, and nothing is
    downloaded.  When the first load raises, whatever the exception, the
    download command is run once and the load is tried a second and last
    time, whatever the exit status of the download; the outcome is then
    that of the second load. *)
Theorem spacy_model_is_downloaded_on_failure b :
  exists new,
    b_log (snd (load_spacy_model Sv b)) = (b_log b ++ new)%list
    /\ ((new = [(StartSpacyLoad "en_core_web_sm", true)]
         /\ fst (load_spacy_model Sv b) = Ok tt
         /\ is_ok (fst (spacy_load Sv "en_core_web_sm" (b_ext b))) = true)
        \/ (exists ok2,
              new = [(StartSpacyLoad "en_core_web_sm", false);
                     (StartSystem "python -m spacy download en_core_web_sm", true);
                     (StartSpacyLoad "en_core_web_sm", ok2)]
              /\ is_ok (fst (load_spacy_model Sv b)) = ok2
              /\ is_ok (fst (spacy_load Sv "en_core_web_sm" (b_ext b))) = false))
    /\ (length (spacy_loads new) <= 2)%nat
    /\ (length (system_commands new) <= 1)%nat.
Proof.
  unfold load_spacy_model, boot_try, boot_bind, boot_call, boot_system.
  destruct (spacy_load Sv "en_core_web_sm" (b_ext b)) as [[[]|e1] s1]; cbn [b_ext b_log].
  - eexists. split; [reflexivity|]. split; [left; auto|]. cbn. lia.
  - destruct (os_system Sv _ s1) as [code s2]; cbn [b_ext b_log].
    destruct (spacy_load Sv "en_core_web_sm" s2) as [r2 s3]; cbn [snd fst b_log].
    rewrite <- !app_assoc. eexists. split; [reflexivity|].
    split; [right; eexists; split; [reflexivity|]; auto|]. cbn. lia.
Qed.

(** X19.  Nothing is initialised before the configuration check: when it
    raises, no service is called and nothing changes.  When it passes, the
    services are called in one order, the generative-model client with the
    API key of the environment first, then the storage client, the bucket
    with the bucket name of the environment, and the spaCy model; the
    connection string is handed to none of them, and on success the
    configuration read from the environment is the result. *)
Theorem services_are_initialised_after_the_check (env : gmap string string) b :
  (forall e, load_config env = Raise e -> module_init Sv env b = (Raise e, b))
  /\ (forall cfg, load_config env = Ok cfg ->
        exists new,
          b_log (snd (module_init Sv env b)) = (b_log b ++ new)%list
          /\ map fst new `prefix_of`
               [StartConfigure (GEMINI_API_KEY cfg); StartStorageClient;
                StartBucket (BUCKET_NAME cfg); StartSpacyLoad "en_core_web_sm";
                StartSystem "python -m spacy download en_core_web_sm";
                StartSpacyLoad "en_core_web_sm"]
          /\ (1 <= length new)%nat
          /\ (is_ok (fst (module_init Sv env b)) = true ->
              fst (module_init Sv env b) = Ok cfg /\ (4 <= length new)%nat)).
Proof.
  split.
  - intros e He. unfold module_init. by rewrite He.
  - intros cfg Hcfg.
    destruct (module_init Sv env b) as [r b'] eqn:Hrun. cbn [fst snd].
    unfold module_init in Hrun. rewrite Hcfg in Hrun.
    unfold load_spacy_model, boot_try, boot_bind, boot_call, boot_system in Hrun.
    cbn [b_ext b_log] in Hrun.
    destruct (genai_configure Sv _ (b_ext b)) as [[[]|e1] s1]; cbn [b_ext b_log] in Hrun.
    2:{ injection Hrun as <- <-. eexists. split; [reflexivity|]. cbn.
        split; [by apply prefix_cons, prefix_nil|]. split; [lia|discriminate]. }
    destruct (storage_client Sv s1) as [[[]|e2] s2]; cbn [b_ext b_log] in Hrun.
    2:{ injection Hrun as <- <-. rewrite <- !app_assoc. eexists. split; [reflexivity|]. cbn.
        split; [by do 2 apply prefix_cons; apply prefix_nil|]. split; [lia|discriminate]. }
    destruct (client_bucket Sv _ s2) as [[[]|e3] s3]; cbn [b_ext b_log] in Hrun.
    2:{ injection Hrun as <- <-. rewrite <- !app_assoc. eexists. split; [reflexivity|]. cbn.
        split; [by do 3 apply prefix_cons; apply prefix_nil|]. split; [lia|discriminate]. }
    destruct (spacy_load Sv "en_core_web_sm" s3) as [[[]|e4] s4]; cbn [b_ext b_log] in Hrun.
    + injection Hrun as <- <-. rewrite <- !app_assoc. eexists. split; [reflexivity|]. cbn.
      split; [by do 4 apply prefix_cons; apply prefix_nil|]. split; [lia|].
      intros _. split; [reflexivity|lia].
    + destruct (os_system Sv _ s4) as [code s5]; cbn [b_ext b_log] in Hrun.
      destruct (spacy_load Sv "en_core_web_sm" s5) as [[[]|e6] s6]; cbn [b_ext b_log] in Hrun;
        injection Hrun as <- <-; rewrite <- !app_assoc;
        eexists; (split; [reflexivity|]); cbn; (split; [done|]); (split; [lia|]).
      * intros _. split; [reflexivity|lia].
      * discriminate.
Qed.

End Startup.

Lemma services_are_initialised_after_the_check_witness :
  module_init (DemoBoot.services []) (delete "GCS_BUCKET_NAME" Demo.env) DemoBoot.fresh
  = (Raise (ValueError "Missing required environment variables"), DemoBoot.fresh)
  /\ exists new,
      b_log (snd (module_init (DemoBoot.services []) Demo.env DemoBoot.fresh))
      = (b_log DemoBoot.fresh ++ new)%list
      /\ length new = 6%nat.
Proof.
  split.
  - apply (proj1 (services_are_initialised_after_the_check (DemoBoot.services [])
                    (delete "GCS_BUCKET_NAME" Demo.env) DemoBoot.fresh)).
    vm_compute. reflexivity.
  - destruct (proj2 (services_are_initialised_after_the_check (DemoBoot.services [])
                      Demo.env DemoBoot.fresh) Demo.cfg) as (new & T & _).
    + vm_compute. reflexivity.
    + exists new. split; [exact T|].
      vm_compute in T. by subst new.
Defined.

Example module_init_offline :
  fst (module_init (DemoBoot.services []) Demo.env DemoBoot.offline)
  = Raise (OSError "Can't find model en_core_web_sm")
  /\ fst (module_init (DemoBoot.services []) Demo.env DemoBoot.ready) = Ok Demo.cfg
  /\ fst (module_init (DemoBoot.services []) Demo.env DemoBoot.fresh) = Ok Demo.cfg
  /\ fst (module_init (DemoBoot.services [DemoBoot.OpClient]) Demo.env DemoBoot.ready)
     = Raise (ExternalError "default credentials not found").
Proof. repeat split; vm_compute; reflexivity. Qed.

(** ** Chunk boundaries in the prompt *)

Lemma escape_context_app (a b : string) :
  escape_context (a +:+ b) = escape_context a +:+ escape_context b.
Proof.
  rewrite !escape_context_chars, list_ascii_of_string_app, flat_map_app.
  apply string_of_list_ascii_app.
Qed.

Lemma escape_context_join (parts : list string) :
  escape_context (PyStr.join PyStr.nl parts) = PyStr.join " " (map escape_context parts).
Proof.
  induction parts as [|x [|y rest] IH]; [reflexivity..|].
  change (PyStr.join PyStr.nl (x :: y :: rest))
    with (x +:+ PyStr.nl +:+ PyStr.join PyStr.nl (y :: rest)).
  rewrite !escape_context_app, IH. reflexivity.
Qed.

(** X21.  In the prompt the retrieved chunks are separated by single
    spaces: sanitizing the newline-joined context gives the sanitized
    chunks joined with a space, so the boundaries between chunks are not
    distinguishable from newlines inside a chunk. *)
Theorem chunks_are_joined_with_spaces_in_the_prompt (q : string) (results : list Document) :
  generate_rag_prompt q (PyStr.join PyStr.nl (map page_content results))
  = prompt_head +:+ q +:+ prompt_middle
    +:+ PyStr.join " " (map (fun d => escape_context (page_content d)) results)
    +:+ prompt_tail
  /\ escape_context (PyStr.join PyStr.nl (map page_content results))
     = escape_context (PyStr.join " " (map page_content results)).
Proof.
  split.
  - unfold generate_rag_prompt. by rewrite escape_context_join, map_map.
  - rewrite escape_context_join.
    induction (map page_content results) as [|x [|y rest] IH]; [reflexivity..|].
    change (PyStr.join " " (x :: y :: rest)) with (x +:+ " " +:+ PyStr.join " " (y :: rest)).
    rewrite !escape_context_app, <- IH. reflexivity.
Qed.

(** ** The message of a failed extraction *)

Ltac wrapping_leaf :=
  first
    [ discriminate
    | intros [= <- <-]; eexists;
      (split; [cbn [w_trace]; rewrite <- ?app_assoc; reflexivity|]);
      cbn [app is_ok]; intros c Hc Hk;
      repeat (apply elem_of_cons in Hc as [Hc|Hc];
              [try discriminate Hc; injection Hc as ->;
               first [discriminate Hk|eauto]|]);
      by apply elem_of_nil in Hc ].

Section Wrapping.

Context {E : Type} (X : Collaborators E).
Variable cfg : Config.
Variable env : gmap string string.

Lemma upload_one_wrapping vs file ext acc w e' w' :
  upload_one X cfg vs file ext acc w = (Raise e', w') ->
  exists new,
    w_trace w' = (w_trace w ++ new)%list
    /\ forall c, (c, false) ∈ new -> is_processing_call c = true ->
         exists e0, e' = HTTPException 500 ("Error processing file: " +:+ str_exn X e0).
Proof.
  unfold upload_one, upload_to_gcs, process_file, get_file_loader, try_except, bind,
    ext_call, ext_pure, fs_create, lift_result, ret, raise, os_unlink.
  cbn [w_ext w_trace w_files].
  destruct (file_read X file (w_ext w)) as [[content|e] e1];
    cbn [w_ext w_trace w_files]; [|wrapping_leaf].
  destruct (temp_base X e1) as [[base|e] e2];
    cbn [w_ext w_trace w_files]; [|wrapping_leaf].
  destruct (temp_write X _ content e2) as [[[]|e] e3];
    cbn [w_ext w_trace w_files]; [|wrapping_leaf].
  destruct (uuid4 X e3) as [uuid e4]; cbn [w_ext w_trace w_files].
  destruct (blob_upload X _ _ _ e4) as [[url|e] e5];
    cbn [w_ext w_trace w_files]; [|wrapping_leaf].
  destruct (SUPPORTED_FORMATS !! extension_of (base +:+ ext))
    as [cls|] eqn:Hcls; cbn [w_ext w_trace w_files]; [|wrapping_leaf].
  destruct (loader_load X cls _ e5) as [[documents|e] e6];
    cbn [w_ext w_trace w_files]; [|wrapping_leaf].
  destruct (split_documents X _ _ _ documents e6) as [[docs|e] e7];
    cbn [w_ext w_trace w_files]; [|wrapping_leaf].
  destruct (add_documents X vs docs e7) as [[[]|e] e8];
    cbn [w_ext w_trace w_files]; [|wrapping_leaf].
  destruct (decide _) as [_|Hno]; [wrapping_leaf|].
  destruct Hno. apply elem_of_union_l. by apply elem_of_singleton.
Qed.

Lemma upload_loop_wrapping vs files :
  forall acc w r w',
    upload_loop X cfg vs files acc w = (r, w') ->
    exists new,
      w_trace w' = (w_trace w ++ new)%list
      /\ forall c, (c, false) ∈ new -> is_processing_call c = true ->
           exists e0,
             r = Raise (HTTPException 500 ("Error processing file: " +:+ str_exn X e0)).
Proof.
  induction files as [|f rest IH]; intros acc w r w' H; cbn [upload_loop] in H.
  - injection H as <- <-. exists []. rewrite app_nil_r. split; [done|].
    intros c Hc. by apply elem_of_nil in Hc.
  - destruct (SUPPORTED_FORMATS !! extension_of (filename f)) as [cls|];
      [|by apply IH in H].
    unfold bind in H.
    destruct (upload_one X cfg vs f _ acc w) as [[acc1|e] w1] eqn:H1.
    + destruct (disciplined_upload_one X cfg vs f _ acc _ _ _ H1) as (new1 & T1 & A1).
      apply IH in H as (new & T & Hw).
      exists (new1 ++ new)%list. rewrite T, T1, <- app_assoc. split; [reflexivity|].
      intros c Hc Hk. apply elem_of_app in Hc as [Hc|Hc]; [|by apply (Hw c)].
      cbn in A1. rewrite Forall_forall in A1. apply A1 in Hc. discriminate.
    + injection H as <- <-.
      apply upload_one_wrapping in H1 as (new1 & T1 & Hw).
      exists new1. split; [exact T1|].
      intros c Hc Hk. destruct (Hw c Hc Hk) as [e0 ->]. eauto.
Qed.

(** X22.  When text extraction, splitting or insertion raises during an
    upload, the exception is wrapped twice: the detail of the 500 error is
    [Error processing upload: ], then the text of the inner 500 error,
    which carries [Error processing file: ] and the original message. *)
Theorem processing_failures_are_wrapped_twice files w :
  is_ok (fst (initialize_vectorstore X env w)) = true ->
  exists new,
    w_trace (snd (upload_files X cfg env files w))
    = (w_trace (snd (initialize_vectorstore X env w)) ++ new)%list
    /\ forall c, (c, false) ∈ new -> is_processing_call c = true ->
         exists e0,
           fst (upload_files X cfg env files w)
           = Raise (HTTPException 500
                      ("Error processing upload: "
                       +:+ http_exception_str X 500
                             ("Error processing file: " +:+ str_exn X e0))).
Proof.
  intros Hinit. unfold upload_files, bind.
  destruct (initialize_vectorstore X env w) as [[vs|e0] w0]; [|discriminate].
  cbn [snd]. unfold try_except, bind.
  destruct (upload_loop X cfg vs files (0, []) w0) as [r w1] eqn:Hloop.
  apply upload_loop_wrapping in Hloop as (new & T & Hw).
  exists new. split; [by destruct r|].
  intros c Hc Hk. destruct (Hw c Hc Hk) as [e1 ->]. cbn. eauto.
Qed.

End Wrapping.

Lemma processing_failures_are_wrapped_twice_witness :
  fst (upload_files (Demo.collaborators [Demo.OpLoad]) Demo.cfg Demo.env
         [Demo.notes] Demo.w0)
  = Raise (HTTPException 500
             "Error processing upload: 500: Error processing file: cannot parse file").
Proof.
  destruct (processing_failures_are_wrapped_twice (Demo.collaborators [Demo.OpLoad])
              Demo.cfg Demo.env [Demo.notes] Demo.w0) as (new & T & Hw).
  - vm_compute. reflexivity.
  - vm_compute in T. apply (app_inv_head [_; _]) in T. subst new.
    destruct (Hw (CallLoad TextLoader "/tmp/tmp0.txt")) as [e0 He0].
    + repeat constructor.
    + reflexivity.
    + vm_compute. reflexivity.
Defined.
